(** * RTNet: a shallow embedding of the IPv6 stack core (rtnet_ipv6.c)

    The development follows the C translation unit function by function.
    Fixed-width unsigned integers are integers in [Z] with the wrap-around
    of the C type written out where the code can overflow; fixed-size
    arrays are lists updated in place by index; a pointer argument that
    the code tests against NULL is an [option]; the process-wide context
    [g_RTNET_Ctx] is threaded through every operation.  The platform
    clock [RTNET_GetTimeMs] is an input: an operation takes one [now]
    argument per reading of the clock it performs.  The critical-section
    hooks do nothing observable on a single thread and are left out. *)

From stdpp Require Import base list numbers.
From Stdlib Require Import ZArith Lia.

Local Open Scope Z_scope.

(** ** Machine integers *)

Definition u8 (z : Z) : Z := z mod 256.
Definition u16 (z : Z) : Z := z mod 65536.
Definition u32 (z : Z) : Z := z mod 4294967296.

Definition UINT16_MAX : Z := 65535.
Definition UINT32_MAX : Z := 4294967295.

(** ** Configuration (rtnet_stack.h) *)

Definition RTNET_MAX_RX_BUFFERS : nat := 8.
Definition RTNET_MAX_TX_BUFFERS : nat := 8.
Definition RTNET_MAX_TCP_CONNECTIONS : nat := 4.
Definition RTNET_MAX_ROUTING_ENTRIES : nat := 32.
Definition RTNET_MAX_NEIGHBOR_CACHE : nat := 16.
Definition RTNET_MAX_MDNS_CACHE : nat := 8.
Definition RTNET_MTU_SIZE : Z := 1500.
Definition RTNET_TCP_TIMEOUT_MS : Z := 5000.
Definition RTNET_IPV6_ADDR_LEN : nat := 16.
Definition RTNET_MAC_ADDR_LEN : nat := 6.

Definition RTNET_QOS_CRITICAL : Z := 0.
Definition RTNET_QOS_HIGH : Z := 1.
Definition RTNET_QOS_NORMAL : Z := 2.
Definition RTNET_QOS_LOW : Z := 3.

(** ** Data model (rtnet_stack.h) *)

Record RTNET_IPv6Addr_t := mkIPv6 { addr : list Z }.
Record RTNET_MACAddr_t := mkMAC { mac_bytes : list Z }.

(** The byte region [data] of a buffer is zeroed by initialization and is
    neither read nor written by any operation of the translation unit; the
    descriptor carries the remaining fields. *)
Record RTNET_Buffer_t := mkBuffer {
  buf_length : Z;
  buf_offset : Z;
  buf_qos_priority : Z;
  buf_in_use : bool;
  buf_timestamp_ms : Z
}.

Inductive RTNET_TCPState_t :=
| RTNET_TCP_CLOSED
| RTNET_TCP_LISTEN
| RTNET_TCP_SYN_SENT
| RTNET_TCP_SYN_RCVD
| RTNET_TCP_ESTABLISHED
| RTNET_TCP_FIN_WAIT
| RTNET_TCP_CLOSE_WAIT
| RTNET_TCP_CLOSING
| RTNET_TCP_TIME_WAIT.

Record RTNET_TCPConnection_t := mkConn {
  local_addr : RTNET_IPv6Addr_t;
  remote_addr : RTNET_IPv6Addr_t;
  local_port : Z;
  remote_port : Z;
  conn_state : RTNET_TCPState_t;
  send_next : Z;
  send_unack : Z;
  recv_next : Z;
  send_window : Z;
  recv_window : Z;
  retransmit_count : Z;
  last_activity_ms : Z;
  conn_in_use : bool
}.

Record RTNET_RouteEntry_t := mkRoute {
  destination : RTNET_IPv6Addr_t;
  next_hop : RTNET_IPv6Addr_t;
  netmask : RTNET_IPv6Addr_t;
  prefix_len : Z;
  metric : Z;
  last_used_ms : Z;
  rt_valid : bool
}.

Record RTNET_NeighborEntry_t := mkNeighbor {
  nb_ipv6_addr : RTNET_IPv6Addr_t;
  nb_mac_addr : RTNET_MACAddr_t;
  nb_state : Z;
  last_confirmed_ms : Z;
  nb_valid : bool
}.

Record RTNET_mDNSRecord_t := mkMDNS {
  service_name : list Z;
  md_ipv6_addr : RTNET_IPv6Addr_t;
  md_port : Z;
  ttl_ms : Z;
  last_seen_ms : Z;
  md_valid : bool
}.

Record RTNET_Statistics_t := mkStats {
  rx_packets : Z;
  tx_packets : Z;
  rx_errors : Z;
  tx_errors : Z;
  rx_dropped : Z;
  tx_dropped : Z;
  checksum_errors : Z;
  routing_errors : Z
}.

Record RTNET_Context_t := mkCtx {
  rx_buffers : list RTNET_Buffer_t;
  tx_buffers : list RTNET_Buffer_t;
  tcp_connections : list RTNET_TCPConnection_t;
  routing_table : list RTNET_RouteEntry_t;
  neighbor_cache : list RTNET_NeighborEntry_t;
  mdns_cache : list RTNET_mDNSRecord_t;
  local_ipv6 : RTNET_IPv6Addr_t;
  local_mac : RTNET_MACAddr_t;
  stats : RTNET_Statistics_t;
  next_ephemeral_port : Z;
  sequence_number : Z;
  initialized : bool
}.

Inductive RTNET_Error_t :=
| RTNET_OK
| RTNET_ERR_INVALID_PARAM
| RTNET_ERR_NO_BUFFER
| RTNET_ERR_NO_ROUTE
| RTNET_ERR_CHECKSUM
| RTNET_ERR_TIMEOUT
| RTNET_ERR_CONNECTION
| RTNET_ERR_OVERFLOW.

(** ** All-zero objects (the effect of memset with 0) *)

Definition zero_addr : RTNET_IPv6Addr_t := mkIPv6 (replicate RTNET_IPV6_ADDR_LEN 0).
Definition zero_mac : RTNET_MACAddr_t := mkMAC (replicate RTNET_MAC_ADDR_LEN 0).
Definition zero_buffer : RTNET_Buffer_t := mkBuffer 0 0 0 false 0.
Definition zero_conn : RTNET_TCPConnection_t :=
  mkConn zero_addr zero_addr 0 0 RTNET_TCP_CLOSED 0 0 0 0 0 0 0 false.
Definition zero_route : RTNET_RouteEntry_t :=
  mkRoute zero_addr zero_addr zero_addr 0 0 0 false.
Definition zero_neighbor : RTNET_NeighborEntry_t :=
  mkNeighbor zero_addr zero_mac 0 0 false.
Definition zero_mdns : RTNET_mDNSRecord_t :=
  mkMDNS (replicate 64%nat 0) zero_addr 0 0 0 false.
Definition zero_stats : RTNET_Statistics_t := mkStats 0 0 0 0 0 0 0 0.
Definition zero_ctx : RTNET_Context_t :=
  mkCtx (replicate RTNET_MAX_RX_BUFFERS zero_buffer)
        (replicate RTNET_MAX_TX_BUFFERS zero_buffer)
        (replicate RTNET_MAX_TCP_CONNECTIONS zero_conn)
        (replicate RTNET_MAX_ROUTING_ENTRIES zero_route)
        (replicate RTNET_MAX_NEIGHBOR_CACHE zero_neighbor)
        (replicate RTNET_MAX_MDNS_CACHE zero_mdns)
        zero_addr zero_mac zero_stats 0 0 false.

(** ** Field updates of the context and of the statistics *)

Definition set_tx_buffers (c : RTNET_Context_t) (v : list RTNET_Buffer_t) :=
  mkCtx (rx_buffers c) v (tcp_connections c) (routing_table c)
        (neighbor_cache c) (mdns_cache c) (local_ipv6 c) (local_mac c)
        (stats c) (next_ephemeral_port c) (sequence_number c) (initialized c).

Definition set_tcp_connections (c : RTNET_Context_t) (v : list RTNET_TCPConnection_t) :=
  mkCtx (rx_buffers c) (tx_buffers c) v (routing_table c)
        (neighbor_cache c) (mdns_cache c) (local_ipv6 c) (local_mac c)
        (stats c) (next_ephemeral_port c) (sequence_number c) (initialized c).

Definition set_routing_table (c : RTNET_Context_t) (v : list RTNET_RouteEntry_t) :=
  mkCtx (rx_buffers c) (tx_buffers c) (tcp_connections c) v
        (neighbor_cache c) (mdns_cache c) (local_ipv6 c) (local_mac c)
        (stats c) (next_ephemeral_port c) (sequence_number c) (initialized c).

Definition set_neighbor_cache (c : RTNET_Context_t) (v : list RTNET_NeighborEntry_t) :=
  mkCtx (rx_buffers c) (tx_buffers c) (tcp_connections c) (routing_table c)
        v (mdns_cache c) (local_ipv6 c) (local_mac c)
        (stats c) (next_ephemeral_port c) (sequence_number c) (initialized c).

Definition set_local_ipv6 (c : RTNET_Context_t) (v : RTNET_IPv6Addr_t) :=
  mkCtx (rx_buffers c) (tx_buffers c) (tcp_connections c) (routing_table c)
        (neighbor_cache c) (mdns_cache c) v (local_mac c)
        (stats c) (next_ephemeral_port c) (sequence_number c) (initialized c).

Definition set_local_mac (c : RTNET_Context_t) (v : RTNET_MACAddr_t) :=
  mkCtx (rx_buffers c) (tx_buffers c) (tcp_connections c) (routing_table c)
        (neighbor_cache c) (mdns_cache c) (local_ipv6 c) v
        (stats c) (next_ephemeral_port c) (sequence_number c) (initialized c).

Definition set_stats (c : RTNET_Context_t) (v : RTNET_Statistics_t) :=
  mkCtx (rx_buffers c) (tx_buffers c) (tcp_connections c) (routing_table c)
        (neighbor_cache c) (mdns_cache c) (local_ipv6 c) (local_mac c)
        v (next_ephemeral_port c) (sequence_number c) (initialized c).

Definition set_next_ephemeral_port (c : RTNET_Context_t) (v : Z) :=
  mkCtx (rx_buffers c) (tx_buffers c) (tcp_connections c) (routing_table c)
        (neighbor_cache c) (mdns_cache c) (local_ipv6 c) (local_mac c)
        (stats c) v (sequence_number c) (initialized c).

Definition set_sequence_number (c : RTNET_Context_t) (v : Z) :=
  mkCtx (rx_buffers c) (tx_buffers c) (tcp_connections c) (routing_table c)
        (neighbor_cache c) (mdns_cache c) (local_ipv6 c) (local_mac c)
        (stats c) (next_ephemeral_port c) v (initialized c).

Definition set_initialized (c : RTNET_Context_t) (v : bool) :=
  mkCtx (rx_buffers c) (tx_buffers c) (tcp_connections c) (routing_table c)
        (neighbor_cache c) (mdns_cache c) (local_ipv6 c) (local_mac c)
        (stats c) (next_ephemeral_port c) (sequence_number c) v.

(** [stats.f++] on a 32-bit counter. *)
Definition incr_rx_packets (s : RTNET_Statistics_t) :=
  mkStats (u32 (rx_packets s + 1)) (tx_packets s) (rx_errors s) (tx_errors s)
          (rx_dropped s) (tx_dropped s) (checksum_errors s) (routing_errors s).

Definition incr_tx_packets (s : RTNET_Statistics_t) :=
  mkStats (rx_packets s) (u32 (tx_packets s + 1)) (rx_errors s) (tx_errors s)
          (rx_dropped s) (tx_dropped s) (checksum_errors s) (routing_errors s).

Definition incr_tx_dropped (s : RTNET_Statistics_t) :=
  mkStats (rx_packets s) (tx_packets s) (rx_errors s) (tx_errors s)
          (rx_dropped s) (u32 (tx_dropped s + 1)) (checksum_errors s) (routing_errors s).

Definition incr_routing_errors (s : RTNET_Statistics_t) :=
  mkStats (rx_packets s) (tx_packets s) (rx_errors s) (tx_errors s)
          (rx_dropped s) (tx_dropped s) (checksum_errors s) (u32 (routing_errors s + 1)).

(** ** The scan idiom: index of the first array element that passes a test

    [for (i = 0; i < N; i++) if (test(a[i])) { ...; break or return; }] *)

Fixpoint first_index {A : Type} (test : A -> bool) (l : list A) : option nat :=
  match l with
  | [] => None
  | x :: rest => if test x then Some O else S <$> first_index test rest
  end.

(** ** Utility functions *)

(** [memcmp_eq a b n] holds when [memcmp(a, b, n) == 0]: the first [n]
    bytes agree.  The arrays hold 16 bytes and [n] is at most 16. *)
Fixpoint memcmp_eq (a b : list Z) (n : nat) {struct n} : bool :=
  match n with
  | O => true
  | S n' =>
    match a, b with
    | x :: a', y :: b' => (x =? y) && memcmp_eq a' b' n'
    | _, _ => false
    end
  end.

Definition RTNET_IPv6_PrefixMatch (address prefix : option RTNET_IPv6Addr_t)
    (plen : Z) : bool :=
  match address, prefix with
  | Some a, Some p =>
    if plen >? 128 then false
    else
      let full_bytes := plen / 8 in
      let remainder_bits := plen mod 8 in
      if negb (memcmp_eq (addr a) (addr p) (Z.to_nat full_bytes)) then false
      else if remainder_bits >? 0 then
        let mask := u8 (Z.shiftl 255 (8 - remainder_bits)) in
        if negb (Z.land (nth (Z.to_nat full_bytes) (addr a) 0) mask
                 =? Z.land (nth (Z.to_nat full_bytes) (addr p) 0) mask)
        then false else true
      else true
  | _, _ => false
  end.

(** ** Routing *)

(** The loop of [RTNET_FindRoute]: [i] is the index of the head of [tbl]
    in the table, [best_match] the index of the entry the C pointer
    designates. *)
Fixpoint FindRoute_loop (dest : RTNET_IPv6Addr_t) (tbl : list RTNET_RouteEntry_t)
    (i : nat) (best_match : option nat) (best_prefix_len best_metric : Z)
    : option nat :=
  match tbl with
  | [] => best_match
  | entry :: rest =>
    if negb (rt_valid entry) then
      FindRoute_loop dest rest (S i) best_match best_prefix_len best_metric
    else if RTNET_IPv6_PrefixMatch (Some dest) (Some (destination entry)) (prefix_len entry) then
      if (prefix_len entry >? best_prefix_len)
         || ((prefix_len entry =? best_prefix_len) && (metric entry <? best_metric))
      then FindRoute_loop dest rest (S i) (Some i) (prefix_len entry) (metric entry)
      else FindRoute_loop dest rest (S i) best_match best_prefix_len best_metric
    else FindRoute_loop dest rest (S i) best_match best_prefix_len best_metric
  end.

(** The result is the index of the entry returned by pointer, [None] for
    NULL.  The function reads the table and writes nothing. *)
Definition RTNET_FindRoute (ctx : RTNET_Context_t)
    (dest_addr : option RTNET_IPv6Addr_t) : option nat :=
  match dest_addr with
  | None => None
  | Some dest => FindRoute_loop dest (routing_table ctx) 0 None 0 UINT16_MAX
  end.

(** ** Buffer management *)

Definition RTNET_AllocTxBuffer (ctx : RTNET_Context_t) (qos_priority now : Z)
    : option nat * RTNET_Context_t :=
  let first_pass :=
    first_index (fun buf => negb (buf_in_use buf) && (buf_qos_priority buf =? qos_priority))
                (tx_buffers ctx) in
  let selected :=
    match first_pass with
    | Some i => Some i
    | None => first_index (fun buf => negb (buf_in_use buf)) (tx_buffers ctx)
    end in
  match selected with
  | Some i =>
    (Some i, set_tx_buffers ctx
               (alter (fun _ => mkBuffer 0 0 qos_priority true now) i (tx_buffers ctx)))
  | None => (None, ctx)
  end.

(** [buffer] is the index of the TX descriptor the pointer designates. *)
Definition RTNET_FreeBuffer (ctx : RTNET_Context_t) (buffer : option nat)
    : RTNET_Context_t :=
  match buffer with
  | Some i =>
    set_tx_buffers ctx
      (alter (fun buf => mkBuffer (buf_length buf) (buf_offset buf)
                                  (buf_qos_priority buf) false (buf_timestamp_ms buf))
             i (tx_buffers ctx))
  | None => ctx
  end.

(** ** Public API *)

Definition RTNET_AddRoute (ctx : RTNET_Context_t)
    (dst : option RTNET_IPv6Addr_t) (plen : Z)
    (nhop : option RTNET_IPv6Addr_t) (mtr : Z) (now : Z)
    : RTNET_Error_t * RTNET_Context_t :=
  match dst with
  | None => (RTNET_ERR_INVALID_PARAM, ctx)
  | Some d =>
    if plen >? 128 then (RTNET_ERR_INVALID_PARAM, ctx)
    else
      match first_index (fun entry => negb (rt_valid entry)) (routing_table ctx) with
      | Some i =>
        (RTNET_OK,
         set_routing_table ctx
           (alter (fun entry =>
                     mkRoute d
                             (match nhop with Some h => h | None => zero_addr end)
                             (netmask entry) plen mtr now true)
                  i (routing_table ctx)))
      | None => (RTNET_ERR_OVERFLOW, ctx)
      end
  end.

Definition link_local_prefix : RTNET_IPv6Addr_t :=
  mkIPv6 [254; 128; 0; 0; 0; 0; 0; 0; 0; 0; 0; 0; 0; 0; 0; 0].

(** [now_seq] is the clock reading that seeds the sequence number,
    [now_route] the later one taken by the nested [RTNET_AddRoute]. *)
Definition RTNET_Initialize (ctx : RTNET_Context_t)
    (ip : option RTNET_IPv6Addr_t) (mac : option RTNET_MACAddr_t)
    (now_seq now_route : Z) : RTNET_Error_t * RTNET_Context_t :=
  match ip, mac with
  | Some ip', Some mac' =>
    let c1 := set_local_mac (set_local_ipv6 zero_ctx ip') mac' in
    let c2 := set_next_ephemeral_port c1 49152 in
    let c3 := set_sequence_number c2 now_seq in
    let c4 := snd (RTNET_AddRoute c3 (Some link_local_prefix) 10 None 1 now_route) in
    (RTNET_OK, set_initialized c4 true)
  | _, _ => (RTNET_ERR_INVALID_PARAM, ctx)
  end.

(** [out] is the caller's cell behind the [stats] pointer. *)
Definition RTNET_GetStatistics (ctx : RTNET_Context_t)
    (out : option RTNET_Statistics_t)
    : RTNET_Error_t * option RTNET_Statistics_t :=
  match out with
  | None => (RTNET_ERR_INVALID_PARAM, None)
  | Some _ => (RTNET_OK, Some (stats ctx))
  end.

Definition age_neighbor (now : Z) (entry : RTNET_NeighborEntry_t) :=
  if nb_valid entry && (u32 (now - last_confirmed_ms entry) >? 30000)
  then mkNeighbor (nb_ipv6_addr entry) (nb_mac_addr entry) (nb_state entry)
                  (last_confirmed_ms entry) false
  else entry.

Definition age_route (now : Z) (entry : RTNET_RouteEntry_t) :=
  if rt_valid entry && (u32 (now - last_used_ms entry) >? 300000)
  then mkRoute (destination entry) (next_hop entry) (netmask entry)
               (prefix_len entry) (metric entry) (last_used_ms entry) false
  else entry.

Definition age_conn (now : Z) (conn : RTNET_TCPConnection_t) :=
  if conn_in_use conn && (u32 (now - last_activity_ms conn) >? RTNET_TCP_TIMEOUT_MS)
  then mkConn (local_addr conn) (remote_addr conn) (local_port conn) (remote_port conn)
              RTNET_TCP_CLOSED
              (send_next conn) (send_unack conn) (recv_next conn)
              (send_window conn) (recv_window conn) (retransmit_count conn)
              (last_activity_ms conn) false
  else conn.

Definition RTNET_PeriodicTask (ctx : RTNET_Context_t) (now : Z) : RTNET_Context_t :=
  let c1 := set_neighbor_cache ctx (age_neighbor now <$> neighbor_cache ctx) in
  let c2 := set_routing_table c1 (age_route now <$> routing_table c1) in
  set_tcp_connections c2 (age_conn now <$> tcp_connections c2).

Definition RTNET_ProcessRxPacket (ctx : RTNET_Context_t)
    (data : option (list Z)) (len : Z) : RTNET_Error_t * RTNET_Context_t :=
  match data with
  | None => (RTNET_ERR_INVALID_PARAM, ctx)
  | Some _ =>
    if len =? 0 then (RTNET_ERR_INVALID_PARAM, ctx)
    else
      let ctx1 := set_stats ctx (incr_rx_packets (stats ctx)) in
      if len <? 14 + 40 then (RTNET_ERR_INVALID_PARAM, ctx1)
      else (RTNET_ERR_CHECKSUM, ctx1)
  end.

(** The auto-assignment block of [RTNET_UDP_Send]: the source port the
    datagram gets, and the context with the counter advanced. *)
Definition udp_assign_port (ctx : RTNET_Context_t) (src_port : Z)
    : Z * RTNET_Context_t :=
  if src_port =? 0 then
    let port := next_ephemeral_port ctx in
    let next := u16 (port + 1) in
    (port, set_next_ephemeral_port ctx (if next =? 0 then 49152 else next))
  else (src_port, ctx).

(** The body of [RTNET_UDP_Send] after its parameter checks: port
    assignment, route lookup, buffer scan, statistics. *)
Definition udp_send_tail (ctx : RTNET_Context_t) (dest : RTNET_IPv6Addr_t)
    (src_port payload_len qos_priority : Z) : RTNET_Error_t * RTNET_Context_t :=
  let ctx1 := snd (udp_assign_port ctx src_port) in
  match RTNET_FindRoute ctx1 (Some dest) with
  | None => (RTNET_ERR_NO_ROUTE, set_stats ctx1 (incr_routing_errors (stats ctx1)))
  | Some _ =>
    match first_index (fun buf => negb (buf_in_use buf)) (tx_buffers ctx1) with
    | None => (RTNET_ERR_NO_BUFFER, set_stats ctx1 (incr_tx_dropped (stats ctx1)))
    | Some i =>
      let ctx2 :=
        set_tx_buffers ctx1
          (alter (fun buf => mkBuffer payload_len (buf_offset buf)
                                      qos_priority true (buf_timestamp_ms buf))
                 i (tx_buffers ctx1)) in
      (RTNET_OK, set_stats ctx2 (incr_tx_packets (stats ctx2)))
    end
  end.

Definition RTNET_UDP_Send (ctx : RTNET_Context_t)
    (dest_addr : option RTNET_IPv6Addr_t) (dest_port src_port : Z)
    (payload : option (list Z)) (payload_len : Z) (qos_priority : Z)
    : RTNET_Error_t * RTNET_Context_t :=
  if negb (initialized ctx) then (RTNET_ERR_INVALID_PARAM, ctx)
  else
    match dest_addr, payload with
    | Some dest, Some _ =>
      if (dest_port =? 0) || (payload_len =? 0) then (RTNET_ERR_INVALID_PARAM, ctx)
      else if payload_len >? RTNET_MTU_SIZE then (RTNET_ERR_INVALID_PARAM, ctx)
      else udp_send_tail ctx dest src_port payload_len qos_priority
    | _, _ => (RTNET_ERR_INVALID_PARAM, ctx)
    end.

(** [connection_id] is the caller's cell behind the out pointer; the
    third component of the result is that cell after the call. *)
Definition RTNET_TCP_Connect (ctx : RTNET_Context_t)
    (dest_addr : option RTNET_IPv6Addr_t) (dest_port : Z)
    (connection_id : option Z) (now : Z)
    : RTNET_Error_t * RTNET_Context_t * option Z :=
  if negb (initialized ctx) then (RTNET_ERR_INVALID_PARAM, ctx, connection_id)
  else
    match dest_addr, connection_id with
    | Some dest, Some _ =>
      if dest_port =? 0 then (RTNET_ERR_INVALID_PARAM, ctx, connection_id)
      else
        match RTNET_FindRoute ctx (Some dest) with
        | None =>
          (RTNET_ERR_NO_ROUTE, set_stats ctx (incr_routing_errors (stats ctx)),
           connection_id)
        | Some _ =>
          match first_index (fun conn => negb (conn_in_use conn)) (tcp_connections ctx) with
          | Some i =>
            let conn :=
              mkConn (local_ipv6 ctx) dest (next_ephemeral_port ctx) dest_port
                     RTNET_TCP_ESTABLISHED 0 0 0 0 0 0 now true in
            let ctx1 := set_tcp_connections ctx (<[i := conn]> (tcp_connections ctx)) in
            (RTNET_OK,
             set_next_ephemeral_port ctx1 (u16 (next_ephemeral_port ctx + 1)),
             Some (Z.of_nat i))
          | None => (RTNET_ERR_NO_BUFFER, ctx, connection_id)
          end
        end
    | _, _ => (RTNET_ERR_INVALID_PARAM, ctx, connection_id)
    end.

Definition RTNET_TCP_Send (ctx : RTNET_Context_t) (connection_id : Z)
    (data : option (list Z)) (len : Z) (now : Z)
    : RTNET_Error_t * RTNET_Context_t :=
  match data with
  | None => (RTNET_ERR_INVALID_PARAM, ctx)
  | Some _ =>
    if len =? 0 then (RTNET_ERR_INVALID_PARAM, ctx)
    else if connection_id >=? Z.of_nat RTNET_MAX_TCP_CONNECTIONS
    then (RTNET_ERR_INVALID_PARAM, ctx)
    else
      match tcp_connections ctx !! Z.to_nat connection_id with
      | Some conn =>
        if negb (conn_in_use conn) then (RTNET_ERR_CONNECTION, ctx)
        else
          let conn' :=
            mkConn (local_addr conn) (remote_addr conn) (local_port conn)
                   (remote_port conn) (conn_state conn)
                   (send_next conn) (send_unack conn) (recv_next conn)
                   (send_window conn) (recv_window conn) (retransmit_count conn)
                   now (conn_in_use conn) in
          let ctx1 :=
            set_tcp_connections ctx
              (<[Z.to_nat connection_id := conn']> (tcp_connections ctx)) in
          (RTNET_OK, set_stats ctx1 (incr_tx_packets (stats ctx1)))
      | None => (RTNET_ERR_INVALID_PARAM, ctx)
      end
  end.

Definition RTNET_TCP_Close (ctx : RTNET_Context_t) (connection_id : Z)
    : RTNET_Error_t * RTNET_Context_t :=
  if connection_id >=? Z.of_nat RTNET_MAX_TCP_CONNECTIONS
  then (RTNET_ERR_INVALID_PARAM, ctx)
  else
    match tcp_connections ctx !! Z.to_nat connection_id with
    | Some conn =>
      if negb (conn_in_use conn) then (RTNET_ERR_CONNECTION, ctx)
      else
        let conn' :=
          mkConn (local_addr conn) (remote_addr conn) (local_port conn)
                 (remote_port conn) RTNET_TCP_CLOSED
                 (send_next conn) (send_unack conn) (recv_next conn)
                 (send_window conn) (recv_window conn) (retransmit_count conn)
                 (last_activity_ms conn) false in
        (RTNET_OK,
         set_tcp_connections ctx
           (<[Z.to_nat connection_id := conn']> (tcp_connections ctx)))
    | None => (RTNET_ERR_INVALID_PARAM, ctx)
    end.

(** [result] is the caller's record behind the out pointer. *)
Definition RTNET_mDNS_Query (ctx : RTNET_Context_t)
    (name : option (list Z)) (result : option RTNET_mDNSRecord_t)
    : RTNET_Error_t * option RTNET_mDNSRecord_t :=
  match name, result with
  | Some _, Some _ => (RTNET_ERR_TIMEOUT, Some zero_mdns)
  | _, _ => (RTNET_ERR_INVALID_PARAM, result)
  end.

Definition RTNET_mDNS_Announce (ctx : RTNET_Context_t)
    (name : option (list Z)) (port ttl_sec : Z)
    : RTNET_Error_t * RTNET_Context_t :=
  match name with
  | None => (RTNET_ERR_INVALID_PARAM, ctx)
  | Some _ =>
    if (port =? 0) || (ttl_sec =? 0) then (RTNET_ERR_INVALID_PARAM, ctx)
    else (RTNET_OK, set_stats ctx (incr_tx_packets (stats ctx)))
  end.

(** ** The public interface as a transition system

    One constructor per public operation, with its arguments and the
    clock readings it consumes; [step] runs the operation and keeps the
    context it leaves behind. *)

Inductive operation :=
| OpInitialize (ip : option RTNET_IPv6Addr_t) (mac : option RTNET_MACAddr_t)
               (now_seq now_route : Z)
| OpProcessRx (data : option (list Z)) (len : Z)
| OpUdpSend (dest_addr : option RTNET_IPv6Addr_t) (dest_port src_port : Z)
            (payload : option (list Z)) (payload_len qos_priority : Z)
| OpTcpConnect (dest_addr : option RTNET_IPv6Addr_t) (dest_port : Z)
               (connection_id : option Z) (now : Z)
| OpTcpSend (connection_id : Z) (data : option (list Z)) (len now : Z)
| OpTcpClose (connection_id : Z)
| OpAddRoute (dst : option RTNET_IPv6Addr_t) (plen : Z)
             (nhop : option RTNET_IPv6Addr_t) (mtr now : Z)
| OpMdnsQuery (name : option (list Z)) (result : option RTNET_mDNSRecord_t)
| OpMdnsAnnounce (name : option (list Z)) (port ttl_sec : Z)
| OpGetStatistics (out : option RTNET_Statistics_t)
| OpPeriodicTask (now : Z).

Definition step (op : operation) (ctx : RTNET_Context_t) : RTNET_Context_t :=
  match op with
  | OpInitialize ip mac now_seq now_route =>
    snd (RTNET_Initialize ctx ip mac now_seq now_route)
  | OpProcessRx data len => snd (RTNET_ProcessRxPacket ctx data len)
  | OpUdpSend dest_addr dest_port src_port payload payload_len qos_priority =>
    snd (RTNET_UDP_Send ctx dest_addr dest_port src_port payload payload_len qos_priority)
  | OpTcpConnect dest_addr dest_port connection_id now =>
    snd (fst (RTNET_TCP_Connect ctx dest_addr dest_port connection_id now))
  | OpTcpSend connection_id data len now =>
    snd (RTNET_TCP_Send ctx connection_id data len now)
  | OpTcpClose connection_id => snd (RTNET_TCP_Close ctx connection_id)
  | OpAddRoute dst plen nhop mtr now => snd (RTNET_AddRoute ctx dst plen nhop mtr now)
  | OpMdnsQuery _ _ => ctx
  | OpMdnsAnnounce name port ttl_sec => snd (RTNET_mDNS_Announce ctx name port ttl_sec)
  | OpGetStatistics _ => ctx
  | OpPeriodicTask now => RTNET_PeriodicTask ctx now
  end.

Definition run (ops : list operation) (ctx : RTNET_Context_t) : RTNET_Context_t :=
  foldl (fun c op => step op c) ctx ops.

(** States reachable through the public operations from a freshly
    initialized context.  A successful initialization wipes whatever the
    context held before. *)
Inductive reachable : RTNET_Context_t -> Prop :=
| reachable_init ctx ip mac now_seq now_route :
    reachable (snd (RTNET_Initialize ctx (Some ip) (Some mac) now_seq now_route))
| reachable_step ctx op :
    reachable ctx -> reachable (step op ctx).

(** ** Concrete scenario data *)

(** fe80::10 and 00:DE:AD:BE:EF:01, the addresses of the first scenario. *)
Definition scenario_ip : RTNET_IPv6Addr_t :=
  mkIPv6 [254; 128; 0; 0; 0; 0; 0; 0; 0; 0; 0; 0; 0; 0; 0; 16].
Definition scenario_mac : RTNET_MACAddr_t := mkMAC [0; 222; 173; 190; 239; 1].

(** fe80::1, a peer covered by the link-local route. *)
Definition peer_link_local : RTNET_IPv6Addr_t :=
  mkIPv6 [254; 128; 0; 0; 0; 0; 0; 0; 0; 0; 0; 0; 0; 0; 0; 1].

(** 2001:db8::1, a peer outside the link-local prefix. *)
Definition peer_global : RTNET_IPv6Addr_t :=
  mkIPv6 [32; 1; 13; 184; 0; 0; 0; 0; 0; 0; 0; 0; 0; 0; 0; 1].

(** "hello from host", 15 bytes. *)
Definition hello_payload : list Z :=
  [104; 101; 108; 108; 111; 32; 102; 114; 111; 109; 32; 104; 111; 115; 116].

(** The context right after initialization, with the host clock stub
    (readings 10 and 20). *)
Definition fresh_ctx : RTNET_Context_t :=
  snd (RTNET_Initialize zero_ctx (Some scenario_ip) (Some scenario_mac) 10 20).

(** The 62-byte frame of the packet-processing test: Ethernet header,
    IPv6 header (payload length 8, next header 58, hop limit 64) and an
    ICMPv6 echo request whose checksum field is left zero. *)
Definition echo_request_frame : list Z :=
  [0; 17; 34; 51; 68; 85] ++ [170; 187; 204; 221; 238; 255] ++ [134; 221]
  ++ [96; 0; 0; 0; 0; 8; 58; 64]
  ++ addr peer_global
  ++ [254; 128; 0; 0; 0; 0; 0; 0; 2; 0; 94; 255; 254; 0; 83; 0]
  ++ [128; 0; 0; 0; 0; 0; 0; 0].

(** ** Static helpers of the translation unit that the host-build API
    does not call *)

(** [RTNET_IPv6_AddressEqual]: the differences of the 16 byte pairs are
    or-ed into the 8-bit accumulator [diff]. *)
Definition RTNET_IPv6_AddressEqual (addr1 addr2 : option RTNET_IPv6Addr_t) : bool :=
  match addr1, addr2 with
  | Some a, Some b =>
    let diff :=
      foldl (fun diff i =>
               u8 (Z.lor diff (Z.lxor (nth i (addr a) 0) (nth i (addr b) 0))))
            0 (seq 0 RTNET_IPV6_ADDR_LEN) in
    diff =? 0
  | _, _ => false
  end.

(** The checksum routines read the byte buffer through a [uint16_t]
    pointer, so the value of a word depends on the byte order of the
    host; the order is a parameter of the model. *)
Inductive byte_order := LittleEndian | BigEndian.

Definition load16 (order : byte_order) (b0 b1 : Z) : Z :=
  match order with
  | LittleEndian => b0 + 256 * b1
  | BigEndian => 256 * b0 + b1
  end.

(** The bytes of a 16-bit value stored through a [uint16_t] pointer. *)
Definition store16 (order : byte_order) (w : Z) : list Z :=
  match order with
  | LittleEndian => [w mod 256; w / 256]
  | BigEndian => [w / 256; w mod 256]
  end.

(** [for (i = 0; i < words; i++) sum += ptr16[i];] on a 32-bit
    accumulator.  A buffer with fewer than [2 * words] bytes would be
    read out of bounds in C; the model stops adding there. *)
Fixpoint sum_words (order : byte_order) (data : list Z) (words : nat) (sum : Z)
    {struct words} : Z :=
  match words with
  | O => sum
  | S words' =>
    match data with
    | b0 :: b1 :: rest => sum_words order rest words' (u32 (sum + load16 order b0 b1))
    | _ => sum
    end
  end.

(** [while ((sum >> 16) != 0) sum = (sum & 0xFFFF) + (sum >> 16);] with a
    bound on the number of iterations: [None] when the bound is used up
    before the loop condition fails. *)
Fixpoint fold_carries (fuel : nat) (sum : Z) : option Z :=
  if Z.shiftr sum 16 =? 0 then Some sum
  else
    match fuel with
    | O => None
    | S fuel' => fold_carries fuel' (u32 (Z.land sum 65535 + Z.shiftr sum 16))
    end.

Definition RTNET_ComputeChecksum (order : byte_order) (fuel : nat)
    (data : option (list Z)) (len initial : Z) : option Z :=
  match data with
  | None => Some 0
  | Some bytes =>
    let words := len / 2 in
    let sum1 := sum_words order bytes (Z.to_nat words) initial in
    let sum2 :=
      if negb (Z.land len 1 =? 0)
      then u32 (sum1 + u16 (Z.shiftl (nth (Z.to_nat (len - 1)) bytes 0) 8))
      else sum1 in
    match fold_carries fuel sum2 with
    | Some sum3 => Some (u16 (Z.lnot sum3))
    | None => None
    end
  end.

Definition RTNET_IPv6_PseudoHeaderChecksum (order : byte_order)
    (src_addr dst_addr : RTNET_IPv6Addr_t) (payload_len next_header : Z) : Z :=
  let sum1 := sum_words order (addr src_addr) 8 0 in
  let sum2 := sum_words order (addr dst_addr) 8 sum1 in
  let sum3 := u32 (sum2 + payload_len) in
  u32 (sum3 + next_header).

(** [mac_addr] is the caller's cell behind the out pointer; the third
    component of the result is that cell after the call. *)
Definition RTNET_ND_Lookup (ctx : RTNET_Context_t)
    (ipv6_addr : option RTNET_IPv6Addr_t) (mac_addr : option RTNET_MACAddr_t)
    (now : Z) : bool * RTNET_Context_t * option RTNET_MACAddr_t :=
  match ipv6_addr, mac_addr with
  | Some ip, Some _ =>
    match first_index
            (fun entry => nb_valid entry
                          && RTNET_IPv6_AddressEqual (Some (nb_ipv6_addr entry)) (Some ip))
            (neighbor_cache ctx) with
    | Some i =>
      (true,
       set_neighbor_cache ctx
         (alter (fun entry =>
                   mkNeighbor (nb_ipv6_addr entry) (nb_mac_addr entry) (nb_state entry)
                              now (nb_valid entry))
                i (neighbor_cache ctx)),
       nb_mac_addr <$> neighbor_cache ctx !! i)
    | None => (false, ctx, mac_addr)
    end
  | _, _ => (false, ctx, mac_addr)
  end.

(** The slot search of [RTNET_ND_AddEntry]: the first invalid slot ends
    the scan; otherwise the slot with the smallest stamp below the
    running minimum is remembered. *)
Fixpoint ND_AddEntry_scan (cache : list RTNET_NeighborEntry_t) (i : nat)
    (oldest_idx : nat) (oldest_time : Z) : nat :=
  match cache with
  | [] => oldest_idx
  | entry :: rest =>
    if negb (nb_valid entry) then i
    else if last_confirmed_ms entry <? oldest_time
         then ND_AddEntry_scan rest (S i) i (last_confirmed_ms entry)
         else ND_AddEntry_scan rest (S i) oldest_idx oldest_time
  end.

Definition RTNET_ND_AddEntry (ctx : RTNET_Context_t)
    (ipv6_addr : option RTNET_IPv6Addr_t) (mac_addr : option RTNET_MACAddr_t)
    (now : Z) : bool * RTNET_Context_t :=
  match ipv6_addr, mac_addr with
  | Some ip, Some mac =>
    let oldest_idx := ND_AddEntry_scan (neighbor_cache ctx) 0 0 UINT32_MAX in
    (true,
     set_neighbor_cache ctx
       (alter (fun entry => mkNeighbor ip mac (nb_state entry) now true)
              oldest_idx (neighbor_cache ctx)))
  | _, _ => (false, ctx)
  end.

(** ** Further scenario data *)

(** 2001:db8:: and 2001:db9::, two global prefixes. *)
Definition prefix_db8 : RTNET_IPv6Addr_t :=
  mkIPv6 [32; 1; 13; 184; 0; 0; 0; 0; 0; 0; 0; 0; 0; 0; 0; 0].
Definition prefix_db9 : RTNET_IPv6Addr_t :=
  mkIPv6 [32; 1; 13; 185; 0; 0; 0; 0; 0; 0; 0; 0; 0; 0; 0; 0].

(** The routing table after initialization and six add_route calls.
    Slot 0 holds fe80::/10 (metric 1); slots 1 to 6 hold ::/0 (metric
    10), 2001:db8::/32 (metric 5), 2001:db8::/64 with metrics 7, 3 and 3,
    and 2001:db9::/64 (metric 1). *)
Definition multi_route_ctx : RTNET_Context_t :=
  run [OpAddRoute (Some zero_addr) 0 None 10 30;
       OpAddRoute (Some prefix_db8) 32 None 5 40;
       OpAddRoute (Some prefix_db8) 64 None 7 50;
       OpAddRoute (Some prefix_db8) 64 None 3 60;
       OpAddRoute (Some prefix_db8) 64 None 3 70;
       OpAddRoute (Some prefix_db9) 64 None 1 80]
      fresh_ctx.

(** fe80::n and 02:00:00:00:00:n. *)
Definition neighbor_ip (n : Z) : RTNET_IPv6Addr_t :=
  mkIPv6 [254; 128; 0; 0; 0; 0; 0; 0; 0; 0; 0; 0; 0; 0; 0; n].
Definition neighbor_mac (n : Z) : RTNET_MACAddr_t := mkMAC [2; 0; 0; 0; 0; n].

(** A full neighbor cache: sixteen add_entry calls fill slots 0 to 15 in
    order (address, MAC, clock reading), then five lookups refresh slots
    0 to 4.  Slots 5 and 6 are left with the least stamp, 150; the
    address fe80::29 sits in slot 9 and again in slot 12 with another
    MAC. *)
Definition full_neighbor_ctx : RTNET_Context_t :=
  let add c '(n, m, t) :=
    snd (RTNET_ND_AddEntry c (Some (neighbor_ip n)) (Some (neighbor_mac m)) t) in
  let look c '(n, t) :=
    snd (fst (RTNET_ND_Lookup c (Some (neighbor_ip n)) (Some zero_mac) t)) in
  foldl look
    (foldl add fresh_ctx
       [(32, 32, 100); (33, 33, 110); (34, 34, 120); (35, 35, 130);
        (36, 36, 140); (37, 37, 150); (38, 38, 150); (39, 39, 160);
        (40, 40, 170); (41, 41, 180); (42, 42, 190); (43, 43, 200);
        (41, 99, 210); (45, 45, 220); (46, 46, 230); (47, 47, 240)])
    [(32, 300); (33, 310); (34, 320); (35, 330); (36, 340)].

(** ** Vocabulary of the further properties *)

(** The operation is a tcp_connect call. *)
Definition is_tcp_connect (op : operation) : bool :=
  match op with
  | OpTcpConnect _ _ _ _ => true
  | _ => false
  end.

(** An address as the C type has it: 16 bytes. *)
Definition addr_wf (a : RTNET_IPv6Addr_t) : Prop :=
  length (addr a) = RTNET_IPV6_ADDR_LEN /\ Forall (fun b => 0 <= b < 256) (addr a).

(** Bit [k] of an address, counted from the most significant bit of the
    first byte. *)
Definition addr_bit (a : RTNET_IPv6Addr_t) (k : Z) : bool :=
  Z.testbit (nth (Z.to_nat (k / 8)) (addr a) 0) (7 - k mod 8).

(** The tables have their declared sizes. *)
Definition sizes_ok (ctx : RTNET_Context_t) : Prop :=
  length (rx_buffers ctx) = RTNET_MAX_RX_BUFFERS
  /\ length (tx_buffers ctx) = RTNET_MAX_TX_BUFFERS
  /\ length (tcp_connections ctx) = RTNET_MAX_TCP_CONNECTIONS
  /\ length (routing_table ctx) = RTNET_MAX_ROUTING_ENTRIES
  /\ length (neighbor_cache ctx) = RTNET_MAX_NEIGHBOR_CACHE
  /\ length (mdns_cache ctx) = RTNET_MAX_MDNS_CACHE.

(** The sum of the first [words] 16-bit words of a buffer as an unbounded
    integer. *)
Fixpoint word_sum (order : byte_order) (data : list Z) (words : nat) {struct words} : Z :=
  match words with
  | O => 0
  | S words' =>
    match data with
    | b0 :: b1 :: rest => load16 order b0 b1 + word_sum order rest words'
    | _ => 0
    end
  end.

(** The 16-bit one's-complement sum a 32-bit accumulator folds to: 0 for
    0, otherwise the representative of the accumulator modulo 0xFFFF in
    1..0xFFFF. *)
Definition end_around_fold (sum : Z) : Z :=
  if sum =? 0 then 0 else (sum - 1) mod 65535 + 1.

(** The argument checks of udp_send pass. *)
Definition udp_send_accepts (ctx : RTNET_Context_t)
    (dest_addr : option RTNET_IPv6Addr_t) (dest_port : Z)
    (payload : option (list Z)) (payload_len : Z) : Prop :=
  initialized ctx = true /\ is_Some dest_addr /\ is_Some payload
  /\ dest_port <> 0 /\ payload_len <> 0 /\ payload_len <= RTNET_MTU_SIZE.

(** Routine case analysis for the outcome tables: break the hypotheses
    up, then close each goal by one of its alternatives. *)
Ltac pick_alternative :=
  solve [ done | by eexists | left; pick_alternative | right; pick_alternative ].

Ltac outcome_cases :=
  repeat match goal with
         | |- _ /\ _ => split
         | |- _ <-> _ => split
         | |- _ -> _ => intro
         | H : _ \/ _ |- _ => destruct H
         | H : _ /\ _ |- _ => destruct H
         | H : is_Some None |- _ => destruct H as [? ?]
         end;
  try pick_alternative.

(** ** Vocabulary of the statements *)

(** [dest] is covered by the valid entry [entry]. *)
Definition route_matches (dest : RTNET_IPv6Addr_t) (entry : RTNET_RouteEntry_t) : Prop :=
  rt_valid entry = true
  /\ RTNET_IPv6_PrefixMatch (Some dest) (Some (destination entry)) (prefix_len entry) = true.

(** The preference of the lookup: a longer prefix, or the same prefix
    length with a lower metric. *)
Definition route_better (plen1 metric1 plen2 metric2 : Z) : Prop :=
  plen1 > plen2 \/ (plen1 = plen2 /\ metric1 < metric2).

(** A connection slot is either free and CLOSED or in use and
    ESTABLISHED. *)
Definition conn_closed_or_established (conn : RTNET_TCPConnection_t) : Prop :=
  (conn_in_use conn = false /\ conn_state conn = RTNET_TCP_CLOSED)
  \/ (conn_in_use conn = true /\ conn_state conn = RTNET_TCP_ESTABLISHED).

(** * Properties *)

(** ** The scan idiom *)

Section FirstIndex.
Context {A : Type} (test : A -> bool).

Lemma first_index_Some (l : list A) (i : nat) :
  first_index test l = Some i ->
  exists x, l !! i = Some x /\ test x = true /\
            forall j y, (j < i)%nat -> l !! j = Some y -> test y = false.
Proof.
  revert i. induction l as [|a l IH]; intros i H; simpl in H; [done|].
  destruct (test a) eqn:Ha.
  - injection H as <-. exists a. repeat split; try done.
    intros j y Hj. lia.
  - destruct (first_index test l) as [k|] eqn:Hk; simpl in H; [|done].
    injection H as <-. destruct (IH k eq_refl) as (x & Hx & Htx & Hlt).
    exists x. repeat split; try done.
    intros [|j] y Hj Hy; simpl in Hy.
    + by simplify_eq.
    + apply (Hlt j); [lia|done].
Qed.

Lemma first_index_None (l : list A) :
  first_index test l = None -> forall x, x ∈ l -> test x = false.
Proof.
  induction l as [|a l IH]; intros H x Hx; [by apply elem_of_nil in Hx|].
  simpl in H. destruct (test a) eqn:Ha; [done|].
  destruct (first_index test l) eqn:Hk; [done|].
  apply elem_of_cons in Hx as [->|Hx]; [done|by apply IH].
Qed.

Lemma first_index_found (l : list A) (x : A) :
  x ∈ l -> test x = true -> is_Some (first_index test l).
Proof.
  intros Hx Ht. destruct (first_index test l) eqn:H; [by eexists|].
  rewrite (first_index_None l H x Hx) in Ht. done.
Qed.

Lemma first_index_lt (l : list A) (i : nat) :
  first_index test l = Some i -> (i < length l)%nat.
Proof.
  intros H. destruct (first_index_Some l i H) as (x & Hx & _).
  by eapply lookup_lt_Some.
Qed.
End FirstIndex.

(** ** What the lookup depends on *)

Lemma FindRoute_routing_table (c1 c2 : RTNET_Context_t) dest_addr :
  routing_table c1 = routing_table c2 ->
  RTNET_FindRoute c1 dest_addr = RTNET_FindRoute c2 dest_addr.
Proof. intros H. unfold RTNET_FindRoute. by rewrite H. Qed.

Lemma udp_assign_port_routing_table ctx src_port :
  routing_table (snd (udp_assign_port ctx src_port)) = routing_table ctx.
Proof. unfold udp_assign_port. by destruct (src_port =? 0). Qed.

Lemma udp_assign_port_tx_buffers ctx src_port :
  tx_buffers (snd (udp_assign_port ctx src_port)) = tx_buffers ctx.
Proof. unfold udp_assign_port. by destruct (src_port =? 0). Qed.

Lemma udp_assign_port_stats ctx src_port :
  stats (snd (udp_assign_port ctx src_port)) = stats ctx.
Proof. unfold udp_assign_port. by destruct (src_port =? 0). Qed.

(** ** Receive path *)

(** C10: a call of process_rx with a non-null frame pointer and a length
    of at least 1 increments rx_packets by exactly one (as a 32-bit
    counter), also when the frame is shorter than 54 bytes and the call
    returns invalid_param. *)
Theorem C10_process_rx_counts_every_frame
    (ctx : RTNET_Context_t) (frame : list Z) (len : Z) :
  1 <= len ->
  rx_packets (stats (snd (RTNET_ProcessRxPacket ctx (Some frame) len)))
    = u32 (rx_packets (stats ctx) + 1)
  /\ (0 <= rx_packets (stats ctx) < UINT32_MAX ->
      rx_packets (stats (snd (RTNET_ProcessRxPacket ctx (Some frame) len)))
        = rx_packets (stats ctx) + 1)
  /\ (len < 54 ->
      fst (RTNET_ProcessRxPacket ctx (Some frame) len) = RTNET_ERR_INVALID_PARAM).
Proof.
  intros Hlen. unfold RTNET_ProcessRxPacket.
  destruct (len =? 0) eqn:H0; [lia|].
  assert (Hcount :
    rx_packets (stats (snd (if len <? 14 + 40
       then (RTNET_ERR_INVALID_PARAM, set_stats ctx (incr_rx_packets (stats ctx)))
       else (RTNET_ERR_CHECKSUM, set_stats ctx (incr_rx_packets (stats ctx))))))
    = u32 (rx_packets (stats ctx) + 1)).
  { by destruct (len <? 14 + 40). }
  split; [exact Hcount|]. split.
  - intros Hrange. rewrite Hcount. unfold u32, UINT32_MAX in *.
    apply Z.mod_small. lia.
  - intros Hshort. destruct (len <? 14 + 40) eqn:H54; [done|lia].
Qed.

Lemma C10_process_rx_counts_every_frame_witness :
  1 <= 10
  /\ rx_packets (stats (snd (RTNET_ProcessRxPacket fresh_ctx (Some [1; 2; 3]) 10))) = 1
  /\ fst (RTNET_ProcessRxPacket fresh_ctx (Some [1; 2; 3]) 10) = RTNET_ERR_INVALID_PARAM.
Proof.
  split; [lia|].
  destruct (C10_process_rx_counts_every_frame fresh_ctx [1; 2; 3] 10) as (_ & H1 & H2);
    [lia|].
  split.
  - rewrite H1; [reflexivity|]. vm_compute. split; [discriminate|reflexivity].
  - apply H2. lia.
Defined.

(** C7, evaluated on the code: no call of process_rx changes
    checksum_errors.  The 62-byte echo-request frame with a missing
    checksum is answered with the checksum error kind while the counter
    stays at 0; only rx_packets moves. *)
Theorem C7_checksum_error_is_not_counted :
  (forall ctx data len,
     checksum_errors (stats (snd (RTNET_ProcessRxPacket ctx data len)))
       = checksum_errors (stats ctx))
  /\ fst (RTNET_ProcessRxPacket fresh_ctx (Some echo_request_frame) 62)
       = RTNET_ERR_CHECKSUM
  /\ stats (snd (RTNET_ProcessRxPacket fresh_ctx (Some echo_request_frame) 62))
       = mkStats 1 0 0 0 0 0 0 0.
Proof.
  split; [|split; reflexivity].
  intros ctx data len. unfold RTNET_ProcessRxPacket.
  destruct data; [|done].
  destruct (len =? 0); [done|]. by destruct (len <? 14 + 40).
Qed.

(** ** UDP transmit path *)

Lemma UDP_Send_checked ctx dest dest_port src_port bytes payload_len qos :
  initialized ctx = true -> dest_port <> 0 -> payload_len <> 0 ->
  payload_len <= RTNET_MTU_SIZE ->
  RTNET_UDP_Send ctx (Some dest) dest_port src_port (Some bytes) payload_len qos
    = udp_send_tail ctx dest src_port payload_len qos.
Proof.
  intros Hinit Hport Hlen Hmtu. unfold RTNET_UDP_Send. rewrite Hinit. simpl.
  destruct (dest_port =? 0) eqn:E1; [lia|].
  destruct (payload_len =? 0) eqn:E2; [lia|]. simpl.
  destruct (payload_len >? RTNET_MTU_SIZE) eqn:E3; [lia|]. reflexivity.
Qed.

Lemma udp_send_tail_not_invalid ctx dest src_port payload_len qos :
  fst (udp_send_tail ctx dest src_port payload_len qos) <> RTNET_ERR_INVALID_PARAM.
Proof.
  unfold udp_send_tail.
  destruct (RTNET_FindRoute _ _); [|done].
  by destruct (first_index _ _).
Qed.

Lemma udp_send_tail_ok ctx dest src_port payload_len qos :
  is_Some (RTNET_FindRoute ctx (Some dest)) ->
  (exists buf, buf ∈ tx_buffers ctx /\ buf_in_use buf = false) ->
  fst (udp_send_tail ctx dest src_port payload_len qos) = RTNET_OK.
Proof.
  intros [r Hr] (buf & Hin & Hfree). unfold udp_send_tail.
  rewrite (FindRoute_routing_table _ ctx) by apply udp_assign_port_routing_table.
  rewrite Hr, udp_assign_port_tx_buffers.
  destruct (first_index_found (fun b => negb (buf_in_use b)) _ buf Hin) as [i ->];
    [by rewrite Hfree|done].
Qed.

(** udp_send returns invalid_param exactly when the context is
    uninitialized, the destination or payload pointer is absent, dport is
    0, or the payload length is 0 or above the MTU of 1500.  When the
    lookup returns a route and a TX buffer is free, payload lengths 1 and
    1500 succeed and 1501 fails with invalid_param. *)
Lemma UDP_Send_argument_checks
    (ctx : RTNET_Context_t) (dest_addr : option RTNET_IPv6Addr_t)
    (dest_port src_port : Z) (payload : option (list Z))
    (payload_len qos : Z) :
  (fst (RTNET_UDP_Send ctx dest_addr dest_port src_port payload payload_len qos)
     = RTNET_ERR_INVALID_PARAM
   <-> initialized ctx = false \/ dest_addr = None \/ payload = None
       \/ dest_port = 0 \/ payload_len = 0 \/ payload_len > 1500)
  /\ (initialized ctx = true -> is_Some dest_addr -> is_Some payload ->
      dest_port <> 0 ->
      is_Some (RTNET_FindRoute ctx dest_addr) ->
      (exists buf, buf ∈ tx_buffers ctx /\ buf_in_use buf = false) ->
      fst (RTNET_UDP_Send ctx dest_addr dest_port src_port payload 1 qos) = RTNET_OK
      /\ fst (RTNET_UDP_Send ctx dest_addr dest_port src_port payload 1500 qos) = RTNET_OK
      /\ fst (RTNET_UDP_Send ctx dest_addr dest_port src_port payload 1501 qos)
           = RTNET_ERR_INVALID_PARAM).
Proof.
  split.
  - destruct (initialized ctx) eqn:Hinit.
    2:{ unfold RTNET_UDP_Send. rewrite Hinit. simpl. split; [by left|done]. }
    destruct dest_addr as [dest|].
    2:{ unfold RTNET_UDP_Send. rewrite Hinit. simpl. split; [by right; left|done]. }
    destruct payload as [bytes|].
    2:{ unfold RTNET_UDP_Send. rewrite Hinit. simpl.
        split; [by right; right; left|done]. }
    destruct (decide (dest_port = 0)) as [->|Hport].
    { unfold RTNET_UDP_Send. rewrite Hinit. simpl.
      split; [by right; right; right; left|done]. }
    destruct (decide (payload_len = 0)) as [->|Hlen].
    { unfold RTNET_UDP_Send. rewrite Hinit. simpl.
      destruct (dest_port =? 0); simpl; (split; [by do 4 right; left|done]). }
    destruct (decide (payload_len > 1500)) as [Hbig|Hsmall].
    { unfold RTNET_UDP_Send. rewrite Hinit. simpl.
      destruct (dest_port =? 0); simpl; [split; [by do 5 right|done]|].
      destruct (payload_len =? 0); simpl; [split; [by do 5 right|done]|].
      destruct (payload_len >? RTNET_MTU_SIZE) eqn:E; [|unfold RTNET_MTU_SIZE in E; lia].
      split; [by do 5 right|done]. }
    rewrite UDP_Send_checked by (try done; unfold RTNET_MTU_SIZE; lia).
    split.
    + intros H. by apply udp_send_tail_not_invalid in H.
    + intros [H|[H|[H|[H|[H|H]]]]]; done.
  - intros Hinit [dest ->] [bytes ->] Hport Hroute Hfree.
    rewrite !UDP_Send_checked by (try done; unfold RTNET_MTU_SIZE; lia).
    split; [by apply udp_send_tail_ok|]. split; [by apply udp_send_tail_ok|].
    unfold RTNET_UDP_Send. rewrite Hinit. simpl.
    destruct (dest_port =? 0); simpl; done.
Qed.

Lemma UDP_Send_argument_checks_at_fresh_ctx :
  fst (RTNET_UDP_Send fresh_ctx (Some peer_link_local) 12345 0 (Some hello_payload) 1
                      RTNET_QOS_NORMAL) = RTNET_OK
  /\ fst (RTNET_UDP_Send fresh_ctx (Some peer_link_local) 12345 0 (Some hello_payload) 1500
                         RTNET_QOS_NORMAL) = RTNET_OK
  /\ fst (RTNET_UDP_Send fresh_ctx (Some peer_link_local) 12345 0 (Some hello_payload) 1501
                         RTNET_QOS_NORMAL) = RTNET_ERR_INVALID_PARAM.
Proof.
  apply (UDP_Send_argument_checks fresh_ctx (Some peer_link_local) 12345 0
           (Some hello_payload) 15 RTNET_QOS_NORMAL).
  - reflexivity.
  - by eexists.
  - by eexists.
  - discriminate.
  - exists 0%nat. reflexivity.
  - exists zero_buffer. split; [|reflexivity]. vm_compute. apply list_elem_of_here.
Qed.

(** C8, evaluated on the code: after initialization and
    add_route(::/0, metric 0xFFFF) the context is initialized, slot 1 of
    the routing table holds a valid route whose prefix covers
    2001:db8::1, and all TX buffers are free; yet udp_send to
    2001:db8::1 port 12345 fails with no_route for the payload lengths 1
    and 1500.  The lengths 0 and 1501 are rejected with invalid_param. *)
Theorem C8_udp_send_no_route_with_matching_default_route :
  let ctx := snd (RTNET_AddRoute fresh_ctx (Some zero_addr) 0 None UINT16_MAX 30) in
  let send len :=
    fst (RTNET_UDP_Send ctx (Some peer_global) 12345 0 (Some (replicate 1500%nat 0)) len
                        RTNET_QOS_NORMAL) in
  initialized ctx = true
  /\ (exists e, routing_table ctx !! 1%nat = Some e /\ route_matches peer_global e)
  /\ Forall (fun buf => buf_in_use buf = false) (tx_buffers ctx)
  /\ length (tx_buffers ctx) = RTNET_MAX_TX_BUFFERS
  /\ send 1 = RTNET_ERR_NO_ROUTE
  /\ send 1500 = RTNET_ERR_NO_ROUTE
  /\ send 0 = RTNET_ERR_INVALID_PARAM
  /\ send 1501 = RTNET_ERR_INVALID_PARAM.
Proof.
  cbv zeta. split_and!; try reflexivity.
  - exists (mkRoute zero_addr zero_addr zero_addr 0 UINT16_MAX 30 true).
    split; [reflexivity|]. split; reflexivity.
  - change (tx_buffers (snd (RTNET_AddRoute fresh_ctx (Some zero_addr) 0 None UINT16_MAX 30)))
      with (replicate 8%nat zero_buffer).
    by apply Forall_replicate.
Qed.

(** What a successful run of the send tail leaves in the TX pool. *)
Lemma udp_send_tail_claims_buffer ctx dest src_port payload_len qos :
  fst (udp_send_tail ctx dest src_port payload_len qos) = RTNET_OK ->
  exists i buf,
    tx_buffers ctx !! i = Some buf /\ buf_in_use buf = false
    /\ (forall j b, (j < i)%nat -> tx_buffers ctx !! j = Some b -> buf_in_use b = true)
    /\ tx_buffers (snd (udp_send_tail ctx dest src_port payload_len qos)) !! i
         = Some (mkBuffer payload_len (buf_offset buf) qos true (buf_timestamp_ms buf))
    /\ (forall j, j <> i ->
          tx_buffers (snd (udp_send_tail ctx dest src_port payload_len qos)) !! j
            = tx_buffers ctx !! j)
    /\ tx_packets (stats (snd (udp_send_tail ctx dest src_port payload_len qos)))
         = u32 (tx_packets (stats ctx) + 1).
Proof.
  unfold udp_send_tail. intros Hok.
  destruct (RTNET_FindRoute _ _); [|done].
  rewrite udp_assign_port_tx_buffers in *.
  destruct (first_index _ _) as [i|] eqn:Hi; [|done].
  destruct (first_index_Some _ _ _ Hi) as (buf & Hbuf & Hfree & Hbefore).
  exists i, buf. simpl. rewrite udp_assign_port_stats.
  repeat split; try done.
  - by destruct (buf_in_use buf).
  - intros j b Hj Hb. specialize (Hbefore j b Hj Hb). by destruct (buf_in_use b).
  - by rewrite list_lookup_alter_eq, Hbuf.
  - intros j Hj. by rewrite list_lookup_alter_ne.
Qed.

(** [RTNET_FreeBuffer] clears the flag of the descriptor it is given and
    nothing else. *)
Lemma FreeBuffer_releases ctx i buf :
  tx_buffers ctx !! i = Some buf ->
  tx_buffers (RTNET_FreeBuffer ctx (Some i)) !! i
    = Some (mkBuffer (buf_length buf) (buf_offset buf) (buf_qos_priority buf)
                     false (buf_timestamp_ms buf))
  /\ forall j, j <> i ->
       tx_buffers (RTNET_FreeBuffer ctx (Some i)) !! j = tx_buffers ctx !! j.
Proof.
  intros Hbuf. simpl. split.
  - by rewrite list_lookup_alter_eq, Hbuf.
  - intros j Hj. by rewrite list_lookup_alter_ne.
Qed.

(** No public operation other than initialization releases a TX buffer:
    a descriptor that is in use stays in use. *)
Lemma step_keeps_buffer_in_use op ctx i buf :
  (forall ip mac now_seq now_route, op <> OpInitialize ip mac now_seq now_route) ->
  tx_buffers ctx !! i = Some buf -> buf_in_use buf = true ->
  exists buf', tx_buffers (step op ctx) !! i = Some buf' /\ buf_in_use buf' = true.
Proof.
  intros Hop Hbuf Huse.
  assert (Hsame : forall c, tx_buffers c = tx_buffers ctx ->
            exists buf', tx_buffers c !! i = Some buf' /\ buf_in_use buf' = true).
  { intros c ->. by exists buf. }
  destruct op; simpl.
  - by destruct (Hop ip mac now_seq now_route).
  - apply Hsame. unfold RTNET_ProcessRxPacket. destruct data; [|done].
    destruct (len =? 0); [done|]. by destruct (len <? 14 + 40).
  - unfold RTNET_UDP_Send. destruct (negb (initialized ctx)); [by apply Hsame|].
    destruct dest_addr; [|by apply Hsame]. destruct payload; [|by apply Hsame].
    destruct (_ || _); [by apply Hsame|].
    destruct (payload_len >? RTNET_MTU_SIZE); [by apply Hsame|].
    unfold udp_send_tail.
    destruct (RTNET_FindRoute _ _);
      [|apply Hsame; simpl; apply udp_assign_port_tx_buffers].
    rewrite udp_assign_port_tx_buffers.
    destruct (first_index _ _) as [k|];
      [|apply Hsame; simpl; apply udp_assign_port_tx_buffers].
    simpl. rewrite list_lookup_alter. destruct (decide (k = i)) as [->|Hne].
    + rewrite Hbuf. simpl. by eexists.
    + by exists buf.
  - apply Hsame. unfold RTNET_TCP_Connect. destruct (negb (initialized ctx)); [done|].
    destruct dest_addr; [|done]. destruct connection_id; [|done].
    destruct (dest_port =? 0); [done|]. destruct (RTNET_FindRoute _ _); [|done].
    by destruct (first_index _ _).
  - apply Hsame. unfold RTNET_TCP_Send. destruct data; [|done].
    destruct (len =? 0); [done|]. destruct (_ >=? _); [done|].
    destruct (tcp_connections ctx !! Z.to_nat connection_id) as [conn|]; [|done].
    by destruct (negb (conn_in_use conn)).
  - apply Hsame. unfold RTNET_TCP_Close. destruct (_ >=? _); [done|].
    destruct (tcp_connections ctx !! Z.to_nat connection_id) as [conn|]; [|done].
    by destruct (negb (conn_in_use conn)).
  - apply Hsame. unfold RTNET_AddRoute. destruct dst; [|done].
    destruct (plen >? 128); [done|]. by destruct (first_index _ _).
  - by apply Hsame.
  - apply Hsame. unfold RTNET_mDNS_Announce. destruct name; [|done].
    by destruct (_ || _).
  - by apply Hsame.
  - by apply Hsame.
Qed.

(** Eight sends use up the pool of the fresh context; the ninth is
    refused with no_buffer. *)
Lemma udp_send_exhausts_the_pool :
  let send :=
    OpUdpSend (Some peer_link_local) 12345 0 (Some hello_payload) 15 RTNET_QOS_NORMAL in
  let ctx8 := run (replicate RTNET_MAX_TX_BUFFERS send) fresh_ctx in
  tx_packets (stats ctx8) = 8
  /\ Forall (fun buf => buf_in_use buf = true) (tx_buffers ctx8)
  /\ fst (RTNET_UDP_Send ctx8 (Some peer_link_local) 12345 0 (Some hello_payload) 15
                         RTNET_QOS_NORMAL) = RTNET_ERR_NO_BUFFER.
Proof. vm_compute. split; [reflexivity|]. split; [repeat constructor|reflexivity]. Qed.

(** C1, the claim as stated fails: starting from a pool in which every
    TX buffer is free, the scenario send succeeds and returns with buffer
    0 still marked in use, although no operation is in progress. *)
Lemma C1_udp_send_leaves_buffer_in_use :
  Forall (fun buf => buf_in_use buf = false) (tx_buffers fresh_ctx)
  /\ fst (RTNET_UDP_Send fresh_ctx (Some peer_link_local) 12345 0
                         (Some hello_payload) 15 RTNET_QOS_NORMAL) = RTNET_OK
  /\ buf_in_use <$>
       tx_buffers (snd (RTNET_UDP_Send fresh_ctx (Some peer_link_local) 12345 0
                                       (Some hello_payload) 15 RTNET_QOS_NORMAL))
         !! 0%nat
     = Some true.
Proof.
  split; [|split; reflexivity].
  vm_compute. repeat constructor.
Qed.

(** C1, amended: a successful udp_send takes the first free TX buffer,
    records the payload length and the QoS class in it and marks it in
    use; when the call returns that buffer is still in use, every other
    TX buffer is as before, and tx_packets has advanced by one. *)
Theorem C1_udp_send_claims_first_free_buffer
    (ctx : RTNET_Context_t) (dest_addr : option RTNET_IPv6Addr_t)
    (dest_port src_port : Z) (payload : option (list Z))
    (payload_len qos : Z) :
  fst (RTNET_UDP_Send ctx dest_addr dest_port src_port payload payload_len qos)
    = RTNET_OK ->
  exists i buf,
    tx_buffers ctx !! i = Some buf /\ buf_in_use buf = false
    /\ (forall j b, (j < i)%nat -> tx_buffers ctx !! j = Some b -> buf_in_use b = true)
    /\ tx_buffers
         (snd (RTNET_UDP_Send ctx dest_addr dest_port src_port payload payload_len qos))
         !! i
       = Some (mkBuffer payload_len (buf_offset buf) qos true (buf_timestamp_ms buf))
    /\ (forall j, j <> i ->
          tx_buffers
            (snd (RTNET_UDP_Send ctx dest_addr dest_port src_port payload payload_len qos))
            !! j
          = tx_buffers ctx !! j)
    /\ tx_packets
         (stats (snd (RTNET_UDP_Send ctx dest_addr dest_port src_port payload payload_len qos)))
       = u32 (tx_packets (stats ctx) + 1).
Proof.
  unfold RTNET_UDP_Send.
  destruct (negb (initialized ctx)); [done|].
  destruct dest_addr as [dest|]; [|done].
  destruct payload as [bytes|]; [|done].
  destruct ((dest_port =? 0) || (payload_len =? 0)); [done|].
  destruct (payload_len >? RTNET_MTU_SIZE); [done|].
  apply udp_send_tail_claims_buffer.
Qed.

Lemma C1_udp_send_claims_first_free_buffer_witness :
  exists i buf,
    tx_buffers fresh_ctx !! i = Some buf /\ buf_in_use buf = false
    /\ (forall j b, (j < i)%nat -> tx_buffers fresh_ctx !! j = Some b ->
                    buf_in_use b = true)
    /\ tx_buffers
         (snd (RTNET_UDP_Send fresh_ctx (Some peer_link_local) 12345 0
                              (Some hello_payload) 15 RTNET_QOS_NORMAL)) !! i
       = Some (mkBuffer 15 (buf_offset buf) RTNET_QOS_NORMAL true (buf_timestamp_ms buf))
    /\ (forall j, j <> i ->
          tx_buffers
            (snd (RTNET_UDP_Send fresh_ctx (Some peer_link_local) 12345 0
                                 (Some hello_payload) 15 RTNET_QOS_NORMAL)) !! j
          = tx_buffers fresh_ctx !! j)
    /\ tx_packets
         (stats (snd (RTNET_UDP_Send fresh_ctx (Some peer_link_local) 12345 0
                                     (Some hello_payload) 15 RTNET_QOS_NORMAL)))
       = u32 (tx_packets (stats fresh_ctx) + 1).
Proof.
  apply (C1_udp_send_claims_first_free_buffer fresh_ctx (Some peer_link_local) 12345 0
           (Some hello_payload) 15 RTNET_QOS_NORMAL).
  reflexivity.
Defined.

(** ** Route aging *)

Lemma Initialize_routing_table ctx ip mac now_seq now_route :
  routing_table (snd (RTNET_Initialize ctx (Some ip) (Some mac) now_seq now_route))
    = mkRoute link_local_prefix zero_addr zero_addr 10 1 now_route true
      :: replicate 31%nat zero_route.
Proof. reflexivity. Qed.

Lemma age_route_fields now entry :
  age_route now entry
    = mkRoute (destination entry) (next_hop entry) (netmask entry)
              (prefix_len entry) (metric entry) (last_used_ms entry)
              (rt_valid entry && (u32 (now - last_used_ms entry) <=? 300000)).
Proof.
  unfold age_route. destruct entry as [d h m p k t v]; simpl.
  destruct v; simpl; [|done].
  destruct (u32 (now - t) >? 300000) eqn:E1, (u32 (now - t) <=? 300000) eqn:E2;
    try done; lia.
Qed.

(** C2, the claim as stated fails: the context right after
    initialization is reachable and holds the link-local route fe80::/10
    with metric 1, stamped 20 ms; a periodic_task at 300021 ms
    invalidates it. *)
Lemma C2_link_local_route_is_aged :
  reachable fresh_ctx
  /\ routing_table fresh_ctx !! 0%nat
       = Some (mkRoute link_local_prefix zero_addr zero_addr 10 1 20 true)
  /\ routing_table (RTNET_PeriodicTask fresh_ctx 300021) !! 0%nat
       = Some (mkRoute link_local_prefix zero_addr zero_addr 10 1 20 false).
Proof.
  split; [apply reachable_init|]. split; reflexivity.
Qed.

(** C2, amended: the periodic ager treats the link-local route like every
    other entry.  In any state and at any time of invocation, a route
    entry stays valid exactly when it was valid and has been unused for
    at most 300000 ms (now - last_used as a 32-bit difference), and is
    invalid afterwards otherwise; its other fields are kept.  For the
    route fe80::/10, metric 1, that initialization puts in slot 0 this
    means: valid after the task iff at most 300000 ms have passed since
    initialization. *)
Theorem C2_periodic_task_ages_every_route (ctx : RTNET_Context_t) (now : Z) :
  (forall i entry,
     routing_table ctx !! i = Some entry ->
     routing_table (RTNET_PeriodicTask ctx now) !! i
       = Some (mkRoute (destination entry) (next_hop entry) (netmask entry)
                       (prefix_len entry) (metric entry) (last_used_ms entry)
                       (rt_valid entry && (u32 (now - last_used_ms entry) <=? 300000))))
  /\ (forall ip mac now_seq now_route,
        routing_table
          (RTNET_PeriodicTask
             (snd (RTNET_Initialize ctx (Some ip) (Some mac) now_seq now_route)) now)
          !! 0%nat
        = Some (mkRoute link_local_prefix zero_addr zero_addr 10 1 now_route
                        (u32 (now - now_route) <=? 300000))).
Proof.
  assert (Hgen : forall c i entry,
             routing_table c !! i = Some entry ->
             routing_table (RTNET_PeriodicTask c now) !! i
             = Some (age_route now entry)).
  { intros c i entry H. unfold RTNET_PeriodicTask. simpl.
    by rewrite list_lookup_fmap, H. }
  split.
  - intros i entry H. rewrite (Hgen _ _ _ H). by rewrite age_route_fields.
  - intros ip mac now_seq now_route.
    erewrite Hgen; [|by rewrite Initialize_routing_table].
    by rewrite age_route_fields.
Qed.

Lemma C2_periodic_task_ages_every_route_witness :
  routing_table fresh_ctx !! 0%nat
    = Some (mkRoute link_local_prefix zero_addr zero_addr 10 1 20 true)
  /\ routing_table (RTNET_PeriodicTask fresh_ctx 300020) !! 0%nat
     = Some (mkRoute link_local_prefix zero_addr zero_addr 10 1 20 true).
Proof.
  split; [reflexivity|].
  apply (proj1 (C2_periodic_task_ages_every_route fresh_ctx 300020) 0%nat
           (mkRoute link_local_prefix zero_addr zero_addr 10 1 20 true)).
  reflexivity.
Defined.

(** ** Route lookup and the last-used stamp *)

Lemma UDP_Send_routing_table ctx dest_addr dest_port src_port payload payload_len qos :
  routing_table
    (snd (RTNET_UDP_Send ctx dest_addr dest_port src_port payload payload_len qos))
    = routing_table ctx.
Proof.
  unfold RTNET_UDP_Send.
  destruct (negb (initialized ctx)); [done|].
  destruct dest_addr; [|done]. destruct payload; [|done].
  destruct ((dest_port =? 0) || (payload_len =? 0)); [done|].
  destruct (payload_len >? RTNET_MTU_SIZE); [done|].
  unfold udp_send_tail.
  destruct (RTNET_FindRoute _ _); simpl; [|apply udp_assign_port_routing_table].
  destruct (first_index _ _); simpl; apply udp_assign_port_routing_table.
Qed.

Lemma TCP_Connect_routing_table ctx dest_addr dest_port cell now :
  routing_table (snd (fst (RTNET_TCP_Connect ctx dest_addr dest_port cell now)))
    = routing_table ctx.
Proof.
  unfold RTNET_TCP_Connect.
  destruct (negb (initialized ctx)); [done|].
  destruct dest_addr; [|done]. destruct cell; [|done].
  destruct (dest_port =? 0); [done|].
  destruct (RTNET_FindRoute _ _); [|done].
  by destruct (first_index _ _).
Qed.

(** C5, evaluated on the code: the two callers of the lookup, udp_send
    and tcp_connect, leave the whole routing table as it was, stamps
    included.  After initialization (route stamped 20 ms) a tcp_connect
    at 300000 ms finds the link-local route in slot 0 and succeeds, the
    stamp of that route is still 20, and the periodic task 21 ms later
    invalidates the route that was just used. *)
Theorem C5_lookup_does_not_stamp_the_route :
  (forall ctx dest_addr dest_port src_port payload payload_len qos,
     routing_table
       (snd (RTNET_UDP_Send ctx dest_addr dest_port src_port payload payload_len qos))
       = routing_table ctx)
  /\ (forall ctx dest_addr dest_port cell now,
        routing_table (snd (fst (RTNET_TCP_Connect ctx dest_addr dest_port cell now)))
          = routing_table ctx)
  /\ RTNET_FindRoute fresh_ctx (Some peer_link_local) = Some 0%nat
  /\ fst (fst (RTNET_TCP_Connect fresh_ctx (Some peer_link_local) 80 (Some 0) 300000))
       = RTNET_OK
  /\ last_used_ms <$>
       routing_table
         (snd (fst (RTNET_TCP_Connect fresh_ctx (Some peer_link_local) 80 (Some 0) 300000)))
         !! 0%nat
     = Some 20
  /\ rt_valid <$>
       routing_table
         (RTNET_PeriodicTask
            (snd (fst (RTNET_TCP_Connect fresh_ctx (Some peer_link_local) 80 (Some 0) 300000)))
            300021)
         !! 0%nat
     = Some false.
Proof.
  split; [apply UDP_Send_routing_table|].
  split; [apply TCP_Connect_routing_table|].
  repeat split; reflexivity.
Qed.

(** ** Ephemeral ports *)

(** The auto-assignment of udp_send keeps the counter inside 49152..65535
    and hands out the counter value, so it never yields 0 as long as the
    counter is inside the range when it runs. *)
Lemma udp_assign_port_in_range ctx :
  49152 <= next_ephemeral_port ctx <= 65535 ->
  fst (udp_assign_port ctx 0) = next_ephemeral_port ctx
  /\ 49152 <= next_ephemeral_port (snd (udp_assign_port ctx 0)) <= 65535
  /\ (next_ephemeral_port ctx = 65535 ->
      next_ephemeral_port (snd (udp_assign_port ctx 0)) = 49152).
Proof.
  intros Hrange. unfold udp_assign_port. simpl. split; [done|].
  unfold u16.
  destruct (decide (next_ephemeral_port ctx = 65535)) as [->|Hne]; [done|].
  rewrite Z.mod_small by lia.
  destruct (next_ephemeral_port ctx + 1 =? 0) eqn:E; [lia|]. simpl. lia.
Qed.

(** tcp_connect advances the counter without the wrap test. *)
Lemma TCP_Connect_counter ctx dest_addr dest_port cell now :
  fst (fst (RTNET_TCP_Connect ctx dest_addr dest_port cell now)) = RTNET_OK ->
  next_ephemeral_port (snd (fst (RTNET_TCP_Connect ctx dest_addr dest_port cell now)))
    = u16 (next_ephemeral_port ctx + 1).
Proof.
  unfold RTNET_TCP_Connect.
  destruct (negb (initialized ctx)); [done|].
  destruct dest_addr; [|done]. destruct cell; [|done].
  destruct (dest_port =? 0); [done|].
  destruct (RTNET_FindRoute _ _); [|done].
  by destruct (first_index _ _).
Qed.

(** C3, evaluated on the code: after initialization, 16383 udp_send calls
    with sport = 0 bring the counter to 0xFFFF.  The next tcp_connect
    takes local port 0xFFFF and leaves the counter at 0 instead of 49152;
    the tcp_connect after it takes local port 0, and a udp_send with
    sport = 0 at that point would be assigned port 0 as well. *)
Theorem C3_tcp_connect_yields_port_zero :
  let sends :=
    replicate (Z.to_nat 16383)
              (OpUdpSend (Some peer_link_local) 12345 0 (Some hello_payload) 15
                         RTNET_QOS_NORMAL) in
  let ctx1 := run sends fresh_ctx in
  let first := RTNET_TCP_Connect ctx1 (Some peer_link_local) 80 (Some 0) 40 in
  let ctx2 := snd (fst first) in
  let second := RTNET_TCP_Connect ctx2 (Some peer_link_local) 81 (Some 0) 50 in
  let ctx3 := snd (fst second) in
  next_ephemeral_port fresh_ctx = 49152
  /\ next_ephemeral_port ctx1 = 65535
  /\ fst (fst first) = RTNET_OK
  /\ local_port <$> tcp_connections ctx2 !! 0%nat = Some 65535
  /\ next_ephemeral_port ctx2 = 0
  /\ fst (udp_assign_port ctx2 0) = 0
  /\ fst (fst second) = RTNET_OK
  /\ snd second = Some 1
  /\ local_port <$> tcp_connections ctx3 !! 1%nat = Some 0.
Proof. vm_compute. repeat split; reflexivity. Qed.

(** ** Prefix match *)

Lemma memcmp_eq_take (a b : list Z) (n : nat) :
  memcmp_eq a b n = true <->
  take n a = take n b /\ (n <= length a)%nat /\ (n <= length b)%nat.
Proof.
  revert a b. induction n as [|n IH]; intros a b; simpl.
  - split; [intros _; repeat split; lia|done].
  - destruct a as [|x a], b as [|y b]; simpl;
      try (split; [done|intros (_ & ? & ?); lia]).
    rewrite andb_true_iff, IH, Z.eqb_eq. split.
    + intros (-> & -> & ? & ?). repeat split; first [done|lia].
    + intros (Heq & ? & ?). injection Heq as -> ->. repeat split; first [done|lia].
Qed.

(** A prefix of length 0 covers every address. *)
Lemma PrefixMatch_zero (a p : RTNET_IPv6Addr_t) :
  RTNET_IPv6_PrefixMatch (Some a) (Some p) 0 = true.
Proof. reflexivity. Qed.

(** A prefix of length 128 covers the exact address only. *)
Lemma PrefixMatch_full (a p : RTNET_IPv6Addr_t) :
  length (addr a) = RTNET_IPV6_ADDR_LEN -> length (addr p) = RTNET_IPV6_ADDR_LEN ->
  RTNET_IPv6_PrefixMatch (Some a) (Some p) 128 = true <-> a = p.
Proof.
  intros Ha Hp. unfold RTNET_IPv6_PrefixMatch.
  change (128 >? 128) with false. change (128 mod 8 >? 0) with false.
  change (Z.to_nat (128 / 8)) with 16%nat. cbv iota.
  destruct (memcmp_eq (addr a) (addr p) 16) eqn:E; simpl.
  - split; [intros _|done].
    apply memcmp_eq_take in E as (Heq & _ & _).
    rewrite !take_ge in Heq by (rewrite ?Ha, ?Hp; unfold RTNET_IPV6_ADDR_LEN; lia).
    destruct a, p; simpl in *. by subst.
  - split; [done|]. intros ->.
    assert (memcmp_eq (addr p) (addr p) 16 = true) as Hrefl; [|congruence].
    apply memcmp_eq_take. rewrite Hp. unfold RTNET_IPV6_ADDR_LEN. repeat split; lia.
Qed.

(** ** Longest-prefix match *)

#[local] Arguments RTNET_IPv6_PrefixMatch : simpl never.

Lemma route_better_test (plen1 metric1 plen2 metric2 : Z) :
  (plen1 >? plen2) || ((plen1 =? plen2) && (metric1 <? metric2)) = true
  <-> route_better plen1 metric1 plen2 metric2.
Proof.
  unfold route_better.
  rewrite orb_true_iff, andb_true_iff, Z.gtb_gt, Z.eqb_eq, Z.ltb_lt. lia.
Qed.

(** Invariant of the lookup loop.  Either no entry of the remaining table
    beats the running best and the running best is returned, or the
    result is the first entry of the remaining table that no covering
    entry beats, and that entry beats the running best. *)
Lemma FindRoute_loop_spec dest tbl :
  forall i best bpl bm,
    (FindRoute_loop dest tbl i best bpl bm = best
     /\ forall j e, tbl !! j = Some e -> route_matches dest e ->
                    ~ route_better (prefix_len e) (metric e) bpl bm)
    \/ (exists k e,
          FindRoute_loop dest tbl i best bpl bm = Some (i + k)%nat
          /\ tbl !! k = Some e /\ route_matches dest e
          /\ route_better (prefix_len e) (metric e) bpl bm
          /\ (forall j e', tbl !! j = Some e' -> route_matches dest e' ->
                ~ route_better (prefix_len e') (metric e') (prefix_len e) (metric e))
          /\ (forall j e', (j < k)%nat -> tbl !! j = Some e' -> route_matches dest e' ->
                route_better (prefix_len e) (metric e) (prefix_len e') (metric e'))).
Proof.
  induction tbl as [|entry rest IH]; intros i best bpl bm.
  { left. split; [done|]. intros j e H. by rewrite lookup_nil in H. }
  assert (Hskip :
    ~ (route_matches dest entry /\ route_better (prefix_len entry) (metric entry) bpl bm) ->
    FindRoute_loop dest (entry :: rest) i best bpl bm
      = FindRoute_loop dest rest (S i) best bpl bm).
  { intros Hno. simpl. unfold route_matches in Hno.
    destruct (rt_valid entry); simpl; [|done].
    destruct (RTNET_IPv6_PrefixMatch _ _ _); [|done].
    destruct (_ || _) eqn:E; [|done].
    apply route_better_test in E. tauto. }
  destruct (rt_valid entry) eqn:Hvalid.
  2:{ rewrite Hskip by (unfold route_matches; rewrite Hvalid; intros [[? _] _]; done).
      destruct (IH (S i) best bpl bm) as [[Hr Hno]|(k & e & Hr & Hk & Hm & Hb & Hopt & Hfirst)].
      - left. split; [done|]. intros [|j] e' He' [Hv' Hm']; simpl in He'.
        + simplify_eq. congruence.
        + by apply (Hno j).
      - right. exists (S k), e. replace (i + S k)%nat with (S i + k)%nat by lia.
        split_and!; [done|done|done|done|..].
        + intros [|j] e' He' [Hv' Hm']; simpl in He'.
          * simplify_eq. congruence.
          * by apply (Hopt j).
        + intros [|j] e' Hj He' [Hv' Hm']; simpl in He'.
          * simplify_eq. congruence.
          * apply (Hfirst j); [lia|done|done]. }
  destruct (RTNET_IPv6_PrefixMatch (Some dest) (Some (destination entry)) (prefix_len entry))
    eqn:Hmatch.
  2:{ rewrite Hskip by (unfold route_matches; rewrite Hmatch; intros [[_ ?] _]; done).
      destruct (IH (S i) best bpl bm) as [[Hr Hno]|(k & e & Hr & Hk & Hm & Hb & Hopt & Hfirst)].
      - left. split; [done|]. intros [|j] e' He' [Hv' Hm']; simpl in He'.
        + simplify_eq. congruence.
        + by apply (Hno j).
      - right. exists (S k), e. replace (i + S k)%nat with (S i + k)%nat by lia.
        split_and!; [done|done|done|done|..].
        + intros [|j] e' He' [Hv' Hm']; simpl in He'.
          * simplify_eq. congruence.
          * by apply (Hopt j).
        + intros [|j] e' Hj He' [Hv' Hm']; simpl in He'.
          * simplify_eq. congruence.
          * apply (Hfirst j); [lia|done|done]. }
  assert (Hentry : route_matches dest entry) by done.
  destruct (decide (route_better (prefix_len entry) (metric entry) bpl bm)) as [Hbetter|Hworse].
  - assert (Htake :
      FindRoute_loop dest (entry :: rest) i best bpl bm
        = FindRoute_loop dest rest (S i) (Some i) (prefix_len entry) (metric entry)).
    { simpl. rewrite Hvalid, Hmatch. simpl.
      apply route_better_test in Hbetter. by rewrite Hbetter. }
    rewrite Htake. right.
    destruct (IH (S i) (Some i) (prefix_len entry) (metric entry))
      as [[Hr Hno]|(k & e & Hr & Hk & Hm & Hb & Hopt & Hfirst)].
    + exists 0%nat, entry. rewrite Hr. replace (i + 0)%nat with i by lia.
      split_and!; [done|done|done|done|..].
      * intros [|j] e' He' Hm'; simpl in He'.
        -- simplify_eq. unfold route_better. lia.
        -- by apply (Hno j).
      * intros j e' Hj. lia.
    + exists (S k), e. replace (i + S k)%nat with (S i + k)%nat by lia.
      split_and!; [done|done|done|..].
      * unfold route_better in *. lia.
      * intros [|j] e' He' Hm'; simpl in He'.
        -- simplify_eq. unfold route_better in *. lia.
        -- by apply (Hopt j).
      * intros [|j] e' Hj He' Hm'; simpl in He'.
        -- by simplify_eq.
        -- apply (Hfirst j); [lia|done|done].
  - rewrite Hskip by tauto.
    destruct (IH (S i) best bpl bm) as [[Hr Hno]|(k & e & Hr & Hk & Hm & Hb & Hopt & Hfirst)].
    + left. split; [done|]. intros [|j] e' He' Hm'; simpl in He'.
      * by simplify_eq.
      * by apply (Hno j).
    + right. exists (S k), e. replace (i + S k)%nat with (S i + k)%nat by lia.
      split_and!; [done|done|done|done|..].
      * intros [|j] e' He' Hm'; simpl in He'.
        -- simplify_eq. unfold route_better in *. lia.
        -- by apply (Hopt j).
      * intros [|j] e' Hj He' Hm'; simpl in He'.
        -- simplify_eq. unfold route_better in *. lia.
        -- apply (Hfirst j); [lia|done|done].
Qed.

(** Whatever the lookup returns is a valid entry that covers the
    destination; no valid covering entry has a longer prefix, or the same
    prefix length and a lower metric; and every earlier covering entry is
    strictly less preferred (table order decides among equals). *)
Lemma FindRoute_sound ctx dest k :
  RTNET_FindRoute ctx (Some dest) = Some k ->
  exists e,
    routing_table ctx !! k = Some e /\ route_matches dest e
    /\ (forall j e', routing_table ctx !! j = Some e' -> route_matches dest e' ->
          prefix_len e' < prefix_len e
          \/ (prefix_len e' = prefix_len e /\ metric e <= metric e'))
    /\ (forall j e', (j < k)%nat -> routing_table ctx !! j = Some e' ->
          route_matches dest e' ->
          prefix_len e' < prefix_len e
          \/ (prefix_len e' = prefix_len e /\ metric e < metric e')).
Proof.
  unfold RTNET_FindRoute. intros H.
  destruct (FindRoute_loop_spec dest (routing_table ctx) 0 None 0 UINT16_MAX)
    as [[Hr _]|(k' & e & Hr & Hk & Hm & _ & Hopt & Hfirst)]; [congruence|].
  rewrite H in Hr. injection Hr as ->. exists e. split_and!; [done|done|..].
  - intros j e' He' Hm'. specialize (Hopt j e' He' Hm'). unfold route_better in Hopt. lia.
  - intros j e' Hj He' Hm'. specialize (Hfirst j e' Hj He' Hm').
    unfold route_better in Hfirst. lia.
Qed.

(** When the lookup returns nothing, every valid covering entry has
    prefix length at most 0 and, at prefix length 0, a metric of at least
    0xFFFF. *)
Lemma FindRoute_None ctx dest :
  RTNET_FindRoute ctx (Some dest) = None ->
  forall j e, routing_table ctx !! j = Some e -> route_matches dest e ->
              prefix_len e <= 0 /\ (prefix_len e = 0 -> UINT16_MAX <= metric e).
Proof.
  unfold RTNET_FindRoute. intros H j e He Hm.
  destruct (FindRoute_loop_spec dest (routing_table ctx) 0 None 0 UINT16_MAX)
    as [[_ Hno]|(k' & e' & Hr & _)]; [|congruence].
  specialize (Hno j e He Hm). unfold route_better in Hno. lia.
Qed.

(** The lookup succeeds as soon as some valid covering entry has a
    non-empty prefix or a metric below 0xFFFF (the prefix length being
    an unsigned byte). *)
Lemma FindRoute_complete ctx dest j e :
  routing_table ctx !! j = Some e -> route_matches dest e ->
  0 <= prefix_len e ->
  0 < prefix_len e \/ metric e < UINT16_MAX ->
  is_Some (RTNET_FindRoute ctx (Some dest)).
Proof.
  intros He Hm Hu8 Hpref.
  destruct (RTNET_FindRoute ctx (Some dest)) eqn:H; [by eexists|].
  destruct (FindRoute_None ctx dest H j e He Hm) as [H1 H2].
  assert (prefix_len e <> 0 \/ prefix_len e = 0) as [?|H0] by lia; [lia|].
  specialize (H2 H0). lia.
Qed.

(** C4, evaluated on the code: after initialization, add_route installs
    the default route ::/0 with metric 0xFFFF in slot 1.  The entry is
    valid and its prefix covers 2001:db8::1 (as it covers every address),
    it is the only valid entry that does, yet the lookup for 2001:db8::1
    returns no route and udp_send fails with no_route. *)
Theorem C4_default_route_with_max_metric_is_not_found :
  let added := RTNET_AddRoute fresh_ctx (Some zero_addr) 0 None UINT16_MAX 30 in
  let ctx := snd added in
  fst added = RTNET_OK
  /\ routing_table ctx !! 1%nat
       = Some (mkRoute zero_addr zero_addr zero_addr 0 UINT16_MAX 30 true)
  /\ route_matches peer_global (mkRoute zero_addr zero_addr zero_addr 0 UINT16_MAX 30 true)
  /\ RTNET_FindRoute ctx (Some peer_global) = None
  /\ fst (RTNET_UDP_Send ctx (Some peer_global) 12345 0 (Some hello_payload) 15
                         RTNET_QOS_NORMAL) = RTNET_ERR_NO_ROUTE.
Proof. vm_compute. repeat split; reflexivity. Qed.

(** ** TCP-Lite connection table *)




(** Every public operation keeps each slot free and CLOSED or in use and
    ESTABLISHED. *)
Lemma age_conn_closed_or_established now conn :
  conn_closed_or_established conn -> conn_closed_or_established (age_conn now conn).
Proof.
  intros H. unfold age_conn. destruct (_ && _); [|done]. by left.
Qed.

Lemma zero_ctx_closed_or_established :
  Forall conn_closed_or_established (tcp_connections zero_ctx).
Proof. repeat constructor. Qed.

Lemma Initialize_closed_or_established ctx ip mac now_seq now_route :
  Forall conn_closed_or_established
    (tcp_connections (snd (RTNET_Initialize ctx (Some ip) (Some mac) now_seq now_route))).
Proof. exact zero_ctx_closed_or_established. Qed.

Lemma step_closed_or_established op ctx :
  Forall conn_closed_or_established (tcp_connections ctx) ->
  Forall conn_closed_or_established (tcp_connections (step op ctx)).
Proof.
  intros Hinv. destruct op; simpl.
  - destruct ip as [ip|], mac as [mac|]; try done.
    apply Initialize_closed_or_established.
  - unfold RTNET_ProcessRxPacket. destruct data; [|done].
    destruct (len =? 0); [done|]. by destruct (len <? 14 + 40).
  - unfold RTNET_UDP_Send. destruct (negb (initialized ctx)); [done|].
    destruct dest_addr; [|done]. destruct payload; [|done].
    destruct (_ || _); [done|]. destruct (payload_len >? RTNET_MTU_SIZE); [done|].
    unfold udp_send_tail, udp_assign_port.
    destruct (RTNET_FindRoute _ _); [|by destruct (src_port =? 0)].
    destruct (first_index _ _); by destruct (src_port =? 0).
  - unfold RTNET_TCP_Connect. destruct (negb (initialized ctx)); [done|].
    destruct dest_addr; [|done]. destruct connection_id; [|done].
    destruct (dest_port =? 0); [done|]. destruct (RTNET_FindRoute _ _); [|done].
    destruct (first_index _ _); [|done]. simpl.
    apply Forall_insert; [done|]. by right.
  - unfold RTNET_TCP_Send. destruct data; [|done]. destruct (len =? 0); [done|].
    destruct (_ >=? _); [done|].
    destruct (tcp_connections ctx !! Z.to_nat connection_id) as [conn|] eqn:Hconn; [|done].
    destruct (negb (conn_in_use conn)); [done|]. simpl.
    apply Forall_insert; [done|].
    by apply (Forall_lookup_1 _ _ _ _ Hinv Hconn).
  - unfold RTNET_TCP_Close. destruct (_ >=? _); [done|].
    destruct (tcp_connections ctx !! Z.to_nat connection_id) as [conn|] eqn:Hconn; [|done].
    destruct (negb (conn_in_use conn)); [done|]. simpl.
    apply Forall_insert; [done|]. by left.
  - unfold RTNET_AddRoute. destruct dst; [|done]. destruct (plen >? 128); [done|].
    by destruct (first_index _ _).
  - done.
  - unfold RTNET_mDNS_Announce. destruct name; [|done]. by destruct (_ || _).
  - done.
  - unfold RTNET_PeriodicTask. simpl. apply Forall_fmap.
    eapply Forall_impl; [|exact Hinv]. intros conn. apply age_conn_closed_or_established.
Qed.

Lemma reachable_closed_or_established ctx :
  reachable ctx -> Forall conn_closed_or_established (tcp_connections ctx).
Proof.
  induction 1 as [ctx ip mac now_seq now_route|ctx op _ IH].
  - apply Initialize_closed_or_established.
  - by apply step_closed_or_established.
Qed.

(** C9: in every state reachable through the public operations from a
    freshly initialized context, a TCP connection slot that is in use is
    in state ESTABLISHED, and no slot is ever in state SYN_SENT,
    SYN_RCVD, FIN_WAIT, CLOSE_WAIT, CLOSING or TIME_WAIT. *)
Theorem C9_in_use_slots_are_established (ctx : RTNET_Context_t) :
  reachable ctx ->
  forall i conn,
    tcp_connections ctx !! i = Some conn ->
    (conn_in_use conn = true -> conn_state conn = RTNET_TCP_ESTABLISHED)
    /\ conn_state conn <> RTNET_TCP_SYN_SENT
    /\ conn_state conn <> RTNET_TCP_SYN_RCVD
    /\ conn_state conn <> RTNET_TCP_FIN_WAIT
    /\ conn_state conn <> RTNET_TCP_CLOSE_WAIT
    /\ conn_state conn <> RTNET_TCP_CLOSING
    /\ conn_state conn <> RTNET_TCP_TIME_WAIT.
Proof.
  intros Hreach i conn Hconn.
  pose proof (Forall_lookup_1 _ _ _ _ (reachable_closed_or_established ctx Hreach) Hconn)
    as [[Hfree Hstate]|[Huse Hstate]]; rewrite Hstate; split_and!; try done.
  intros. congruence.
Qed.

Lemma C9_in_use_slots_are_established_witness :
  let ctx :=
    step (OpTcpConnect (Some peer_link_local) 80 (Some 0) 40) fresh_ctx in
  reachable ctx
  /\ (exists conn,
        tcp_connections ctx !! 0%nat = Some conn
        /\ conn_in_use conn = true
        /\ conn_state conn = RTNET_TCP_ESTABLISHED).
Proof.
  assert (Hreach :
    reachable (step (OpTcpConnect (Some peer_link_local) 80 (Some 0) 40) fresh_ctx)).
  { apply reachable_step. apply reachable_init. }
  split; [exact Hreach|].
  eexists. split; [reflexivity|]. split; [reflexivity|].
  eapply (C9_in_use_slots_are_established _ Hreach 0%nat); reflexivity.
Defined.

(** * Further properties of the code *)

(** ** Bytes and bits *)

Lemma byte_bits_high (x m : Z) : 0 <= x < 256 -> 8 <= m -> Z.testbit x m = false.
Proof.
  intros Hx Hm.
  apply (proj1 (Z.bounded_iff_bits_nonneg' 8 x ltac:(lia) ltac:(lia))); [|done].
  change (2 ^ 8) with 256. lia.
Qed.

Lemma byte_of_bits (x : Z) :
  0 <= x -> (forall m, 8 <= m -> Z.testbit x m = false) -> 0 <= x < 256.
Proof.
  intros Hx Hbits. change 256 with (2 ^ 8).
  by apply (proj2 (Z.bounded_iff_bits_nonneg' 8 x ltac:(lia) Hx)).
Qed.

Lemma byte_lor_range (x y : Z) : 0 <= x < 256 -> 0 <= y < 256 -> 0 <= Z.lor x y < 256.
Proof.
  intros Hx Hy. apply byte_of_bits.
  - apply Z.lor_nonneg. lia.
  - intros m Hm. by rewrite Z.lor_spec, !byte_bits_high.
Qed.

Lemma byte_lxor_range (x y : Z) : 0 <= x < 256 -> 0 <= y < 256 -> 0 <= Z.lxor x y < 256.
Proof.
  intros Hx Hy. apply byte_of_bits.
  - apply Z.lxor_nonneg. lia.
  - intros m Hm. by rewrite Z.lxor_spec, !byte_bits_high.
Qed.

Lemma byte_eq_bits (x y : Z) :
  0 <= x < 256 -> 0 <= y < 256 ->
  x = y <-> forall j, 0 <= j < 8 -> Z.testbit x j = Z.testbit y j.
Proof.
  intros Hx Hy. split; [by intros ->|]. intros Hbits.
  apply Z.bits_inj'. intros m Hm.
  destruct (decide (m < 8)); [apply Hbits; lia|].
  by rewrite !byte_bits_high by lia.
Qed.

Lemma nth_byte_range (l : list Z) (i : nat) :
  Forall (fun b => 0 <= b < 256) l -> 0 <= nth i l 0 < 256.
Proof.
  intros Hl. destruct (nth_lookup_or_length l i 0) as [Hi|Hi].
  - by apply (Forall_lookup_1 _ _ _ _ Hl Hi).
  - rewrite nth_overflow by lia. lia.
Qed.

Lemma addr_eq_nth (a b : RTNET_IPv6Addr_t) :
  length (addr a) = RTNET_IPV6_ADDR_LEN -> length (addr b) = RTNET_IPV6_ADDR_LEN ->
  a = b <-> forall i, (i < RTNET_IPV6_ADDR_LEN)%nat -> nth i (addr a) 0 = nth i (addr b) 0.
Proof.
  intros Ha Hb. split; [by intros ->|]. intros Hnth.
  destruct a as [la], b as [lb]; simpl in *. f_equal.
  apply (nth_ext _ _ 0 0); [congruence|]. intros i Hi. apply Hnth. lia.
Qed.

(** ** Address comparison *)

Lemma AddressEqual_fold (la lb : list Z) (idxs : list nat) (d : Z) :
  Forall (fun b => 0 <= b < 256) la -> Forall (fun b => 0 <= b < 256) lb ->
  0 <= d < 256 ->
  foldl (fun diff i => u8 (Z.lor diff (Z.lxor (nth i la 0) (nth i lb 0)))) d idxs = 0
  <-> d = 0 /\ forall i, i ∈ idxs -> nth i la 0 = nth i lb 0.
Proof.
  intros Hla Hlb. revert d. induction idxs as [|i idxs IH]; intros d Hd; simpl.
  - split; [intros ->; split; [done|]|by intros [-> _]].
    intros i Hi. by apply elem_of_nil in Hi.
  - pose proof (nth_byte_range la i Hla) as Hai.
    pose proof (nth_byte_range lb i Hlb) as Hbi.
    pose proof (byte_lxor_range _ _ Hai Hbi) as Hx.
    pose proof (byte_lor_range _ _ Hd Hx) as Ho.
    assert (Hu8 : u8 (Z.lor d (Z.lxor (nth i la 0) (nth i lb 0)))
                  = Z.lor d (Z.lxor (nth i la 0) (nth i lb 0))).
    { unfold u8. apply Z.mod_small. lia. }
    rewrite Hu8, IH by done.
    rewrite Z.lor_eq_0_iff, Z.lxor_eq_0_iff. split.
    + intros [[-> Heq] Hrest]. split; [done|].
      intros j Hj. apply elem_of_cons in Hj as [->|Hj]; [done|by apply Hrest].
    + intros [-> Hall]. split; [split; [done|]|].
      * apply Hall. apply elem_of_cons. by left.
      * intros j Hj. apply Hall. apply elem_of_cons. by right.
Qed.

(** X1: on two addresses of 16 bytes each, the constant-time comparison
    returns true exactly when the addresses are equal; with a NULL
    argument it returns false. *)
Theorem X1_address_equal_decides_equality (a b : RTNET_IPv6Addr_t) :
  addr_wf a -> addr_wf b ->
  (RTNET_IPv6_AddressEqual (Some a) (Some b) = true <-> a = b)
  /\ RTNET_IPv6_AddressEqual None (Some b) = false
  /\ RTNET_IPv6_AddressEqual (Some a) None = false.
Proof.
  intros [Hla Hba] [Hlb Hbb]. split; [|done].
  unfold RTNET_IPv6_AddressEqual. rewrite Z.eqb_eq.
  rewrite AddressEqual_fold by (try done; lia).
  rewrite (addr_eq_nth a b Hla Hlb). split.
  - intros [_ H] i Hi. apply H. apply elem_of_seq. lia.
  - intros H. split; [done|]. intros i Hi. apply H. apply elem_of_seq in Hi. lia.
Qed.

Lemma X1_address_equal_decides_equality_witness :
  RTNET_IPv6_AddressEqual (Some peer_global) (Some peer_global) = true
  /\ RTNET_IPv6_AddressEqual (Some peer_global) (Some peer_link_local) = false.
Proof.
  assert (Hg : addr_wf peer_global).
  { split; [reflexivity|]. repeat constructor; lia. }
  assert (Hl : addr_wf peer_link_local).
  { split; [reflexivity|]. repeat constructor; lia. }
  split.
  - by apply (proj1 (X1_address_equal_decides_equality peer_global peer_global Hg Hg)).
  - destruct (RTNET_IPv6_AddressEqual (Some peer_global) (Some peer_link_local)) eqn:E;
      [|done].
    apply (proj1 (X1_address_equal_decides_equality peer_global peer_link_local Hg Hl)) in E.
    discriminate E.
Defined.

(** ** Prefix match, bit by bit *)

Lemma memcmp_eq_nth (a b : list Z) (n : nat) :
  (n <= length a)%nat -> (n <= length b)%nat ->
  memcmp_eq a b n = true <-> forall i, (i < n)%nat -> nth i a 0 = nth i b 0.
Proof.
  revert a b. induction n as [|n IH]; intros a b Ha Hb; simpl.
  - split; [intros _ i Hi; lia|done].
  - destruct a as [|x a]; [simpl in Ha; lia|].
    destruct b as [|y b]; [simpl in Hb; lia|]. simpl in Ha, Hb.
    rewrite andb_true_iff, Z.eqb_eq, IH by lia. split.
    + intros [-> Hrest] [|i] Hi; simpl; [done|]. apply Hrest. lia.
    + intros Hall. split; [apply (Hall 0%nat); lia|].
      intros i Hi. apply (Hall (S i)). lia.
Qed.

(** The mask [(uint8_t)(0xFF << (8 - r))] has exactly the [r] most
    significant bits of a byte set. *)
Lemma prefix_mask_bits (r m : Z) :
  0 < r < 8 -> 0 <= m ->
  Z.testbit (u8 (Z.shiftl 255 (8 - r))) m = (8 - r <=? m) && (m <? 8).
Proof.
  intros Hr Hm. unfold u8. change 256 with (2 ^ 8).
  destruct (decide (m < 8)) as [Hlt|Hge].
  - rewrite Z.mod_pow2_bits_low by lia. rewrite Z.shiftl_spec by lia.
    change 255 with (Z.ones 8). rewrite Z.testbit_ones by lia.
    destruct (8 - r <=? m) eqn:E1, (0 <=? m - (8 - r)) eqn:E2,
             (m - (8 - r) <? 8) eqn:E3, (m <? 8) eqn:E4; simpl; try done; lia.
  - rewrite Z.mod_pow2_bits_high by lia.
    destruct (m <? 8) eqn:E; [lia|]. by rewrite andb_false_r.
Qed.

Lemma prefix_mask_eq (r x y : Z) :
  0 < r < 8 -> 0 <= x < 256 -> 0 <= y < 256 ->
  Z.land x (u8 (Z.shiftl 255 (8 - r))) = Z.land y (u8 (Z.shiftl 255 (8 - r)))
  <-> forall j, 8 - r <= j < 8 -> Z.testbit x j = Z.testbit y j.
Proof.
  intros Hr Hx Hy. split.
  - intros Heq j Hj.
    assert (Hbit : Z.testbit (Z.land x (u8 (Z.shiftl 255 (8 - r)))) j
                   = Z.testbit (Z.land y (u8 (Z.shiftl 255 (8 - r)))) j) by congruence.
    rewrite !Z.land_spec, prefix_mask_bits in Hbit by lia.
    destruct (8 - r <=? j) eqn:E1; [|lia]. destruct (j <? 8) eqn:E2; [|lia].
    by rewrite !andb_true_r in Hbit.
  - intros Hbits. apply Z.bits_inj'. intros m Hm.
    rewrite !Z.land_spec, prefix_mask_bits by lia.
    destruct (8 - r <=? m) eqn:E1; [|by rewrite !andb_false_r].
    destruct (m <? 8) eqn:E2; [|by rewrite !andb_false_r].
    rewrite !andb_true_r. apply Hbits. lia.
Qed.

(** X2: for addresses of 16 bytes and a prefix length n of at most 128,
    the prefix match succeeds exactly when the first n bits of the two
    addresses, counted from the most significant bit of byte 0, agree. *)
Theorem X2_prefix_match_compares_leading_bits
    (a p : RTNET_IPv6Addr_t) (n : Z) :
  addr_wf a -> addr_wf p -> 0 <= n <= 128 ->
  RTNET_IPv6_PrefixMatch (Some a) (Some p) n = true
  <-> forall k, 0 <= k < n -> addr_bit a k = addr_bit p k.
Proof.
  intros [Hla Hba] [Hlp Hbp] Hn. unfold RTNET_IPv6_PrefixMatch, RTNET_IPV6_ADDR_LEN in *.
  destruct (n >? 128) eqn:E128; [lia|]. cbv zeta.
  pose proof (Z.div_mod n 8 ltac:(lia)) as Hdm.
  pose proof (Z.mod_pos_bound n 8 ltac:(lia)) as Hr.
  set (q := n / 8) in *. set (r := n mod 8) in *.
  assert (Hq : 0 <= q <= 16) by lia.
  assert (Hfull :
    memcmp_eq (addr a) (addr p) (Z.to_nat q) = true
    <-> forall k, 0 <= k < 8 * q -> addr_bit a k = addr_bit p k).
  { rewrite memcmp_eq_nth by lia. split.
    - intros Hbytes k Hk. unfold addr_bit.
      rewrite (Hbytes (Z.to_nat (k / 8))); [done|].
      assert (k / 8 < q) by (apply Z.div_lt_upper_bound; lia).
      assert (0 <= k / 8) by (apply Z.div_pos; lia). lia.
    - intros Hbits i Hi.
      apply byte_eq_bits; [by apply nth_byte_range|by apply nth_byte_range|].
      intros j Hj. specialize (Hbits (8 * Z.of_nat i + (7 - j)) ltac:(lia)).
      unfold addr_bit in Hbits.
      replace ((8 * Z.of_nat i + (7 - j)) / 8) with (Z.of_nat i) in Hbits
        by (apply (Z.div_unique _ 8 _ (7 - j)); lia).
      replace ((8 * Z.of_nat i + (7 - j)) mod 8) with (7 - j) in Hbits
        by (apply (Z.mod_unique _ 8 (Z.of_nat i) (7 - j)); lia).
      rewrite Nat2Z.id in Hbits. by replace (7 - (7 - j)) with j in Hbits by lia. }
  assert (Hsplit : forall k, 0 <= k < n -> 0 <= k < 8 * q \/ (k / 8 = q /\ k mod 8 < r)).
  { intros k Hk. destruct (decide (k < 8 * q)); [left; lia|right].
    pose proof (Z.div_mod k 8 ltac:(lia)). pose proof (Z.mod_pos_bound k 8 ltac:(lia)).
    assert (q = k / 8) by (apply (Z.div_unique _ 8 _ (k - 8 * q)); lia). lia. }
  destruct (memcmp_eq (addr a) (addr p) (Z.to_nat q)) eqn:Ecmp; simpl.
  2:{ split; [done|]. intros Hbits.
      assert (false = true); [|done]. apply Hfull. intros k Hk. apply Hbits. lia. }
  pose proof (proj1 Hfull eq_refl) as Hlow.
  destruct (r >? 0) eqn:Er.
  2:{ split; [|done]. intros _ k Hk. apply Hlow. lia. }
  assert (Hr' : 0 < r < 8) by lia.
  pose proof (prefix_mask_eq r (nth (Z.to_nat q) (addr a) 0) (nth (Z.to_nat q) (addr p) 0)
                Hr' (nth_byte_range _ _ Hba) (nth_byte_range _ _ Hbp)) as Hmask.
  destruct (Z.land (nth (Z.to_nat q) (addr a) 0) (u8 (Z.shiftl 255 (8 - r)))
            =? Z.land (nth (Z.to_nat q) (addr p) 0) (u8 (Z.shiftl 255 (8 - r)))) eqn:Eland;
    simpl.
  - apply Z.eqb_eq in Eland. split; [|done]. intros _ k Hk.
    destruct (Hsplit k Hk) as [Hk1|[Hk1 Hk2]]; [by apply Hlow|].
    unfold addr_bit. rewrite Hk1.
    pose proof (Z.mod_pos_bound k 8 ltac:(lia)).
    apply (proj1 Hmask Eland). lia.
  - apply Z.eqb_neq in Eland. split; [done|]. intros Hbits. exfalso. apply Eland.
    apply Hmask. intros j Hj. specialize (Hbits (8 * q + (7 - j)) ltac:(lia)).
    unfold addr_bit in Hbits.
    replace ((8 * q + (7 - j)) / 8) with q in Hbits
      by (apply (Z.div_unique _ 8 _ (7 - j)); lia).
    replace ((8 * q + (7 - j)) mod 8) with (7 - j) in Hbits
      by (apply (Z.mod_unique _ 8 q (7 - j)); lia).
    by replace (7 - (7 - j)) with j in Hbits by lia.
Qed.

Lemma X2_prefix_match_compares_leading_bits_witness :
  RTNET_IPv6_PrefixMatch (Some peer_link_local) (Some link_local_prefix) 10 = true
  /\ forall k, 0 <= k < 10 -> addr_bit peer_link_local k = addr_bit link_local_prefix k.
Proof.
  assert (Ha : addr_wf peer_link_local).
  { split; [reflexivity|]. repeat constructor; lia. }
  assert (Hp : addr_wf link_local_prefix).
  { split; [reflexivity|]. repeat constructor; lia. }
  split; [reflexivity|].
  apply (proj1 (X2_prefix_match_compares_leading_bits peer_link_local link_local_prefix 10
                  Ha Hp ltac:(lia))).
  reflexivity.
Defined.

(** X3: a prefix of length 0 covers every address, a prefix of length
    128 covers exactly the address equal to it, and a prefix length
    above 128 or a NULL argument never matches. *)
Theorem X3_prefix_match_boundaries (a p : RTNET_IPv6Addr_t) (n : Z) :
  RTNET_IPv6_PrefixMatch (Some a) (Some p) 0 = true
  /\ (length (addr a) = RTNET_IPV6_ADDR_LEN -> length (addr p) = RTNET_IPV6_ADDR_LEN ->
      (RTNET_IPv6_PrefixMatch (Some a) (Some p) 128 = true <-> a = p))
  /\ (128 < n -> RTNET_IPv6_PrefixMatch (Some a) (Some p) n = false)
  /\ RTNET_IPv6_PrefixMatch None (Some p) n = false
  /\ RTNET_IPv6_PrefixMatch (Some a) None n = false.
Proof.
  split; [reflexivity|]. split; [apply PrefixMatch_full|]. split; [|done].
  intros Hn. unfold RTNET_IPv6_PrefixMatch. destruct (n >? 128) eqn:E; [done|lia].
Qed.

Lemma X3_prefix_match_boundaries_witness :
  RTNET_IPv6_PrefixMatch (Some peer_global) (Some peer_global) 128 = true
  /\ RTNET_IPv6_PrefixMatch (Some peer_global) (Some peer_link_local) 129 = false.
Proof.
  destruct (X3_prefix_match_boundaries peer_global peer_global 129) as (_ & H128 & _).
  destruct (X3_prefix_match_boundaries peer_global peer_link_local 129) as (_ & _ & H129 & _).
  split.
  - by apply (H128 eq_refl eq_refl).
  - apply H129. lia.
Defined.

(** ** Internet checksum *)

Lemma load16_range order b0 b1 :
  0 <= b0 < 256 -> 0 <= b1 < 256 -> 0 <= load16 order b0 b1 <= 65535.
Proof. intros H0 H1. destruct order; simpl; lia. Qed.

Lemma load16_store16 order w :
  0 <= w <= 65535 ->
  exists b0 b1, store16 order w = [b0; b1] /\ 0 <= b0 < 256 /\ 0 <= b1 < 256
                /\ load16 order b0 b1 = w.
Proof.
  intros Hw. pose proof (Z.div_mod w 256 ltac:(lia)).
  pose proof (Z.mod_pos_bound w 256 ltac:(lia)).
  assert (0 <= w / 256 < 256).
  { split; [apply Z.div_pos; lia|apply Z.div_lt_upper_bound; lia]. }
  destruct order; simpl; do 2 eexists; (split; [reflexivity|]); lia.
Qed.

Lemma word_sum_range order data words :
  Forall (fun b => 0 <= b < 256) data ->
  0 <= word_sum order data words <= 65535 * Z.of_nat words.
Proof.
  revert data. induction words as [|w IH]; intros data Hdata; simpl; [lia|].
  destruct data as [|b0 [|b1 rest]]; [lia|lia|].
  inversion Hdata as [|? ? Hb0 Hrest0]; subst.
  inversion Hrest0 as [|? ? Hb1 Hrest]; subst.
  pose proof (load16_range order b0 b1 Hb0 Hb1). specialize (IH rest Hrest). lia.
Qed.

(** Without wrap-around the accumulation loop adds the plain word sum. *)
Lemma sum_words_no_wrap order data words sum :
  Forall (fun b => 0 <= b < 256) data ->
  0 <= sum -> sum + 65535 * Z.of_nat words < 4294967296 ->
  sum_words order data words sum = sum + word_sum order data words.
Proof.
  revert data sum. induction words as [|w IH]; intros data sum Hdata H0 Hmax; simpl; [lia|].
  destruct data as [|b0 [|b1 rest]]; [lia|lia|].
  inversion Hdata as [|? ? Hb0 Hrest0]; subst.
  inversion Hrest0 as [|? ? Hb1 Hrest]; subst.
  pose proof (load16_range order b0 b1 Hb0 Hb1).
  unfold u32. rewrite Z.mod_small by lia. rewrite IH by (try done; lia). lia.
Qed.

Lemma sum_words_range order data words sum :
  0 <= sum < 4294967296 -> 0 <= sum_words order data words sum < 4294967296.
Proof.
  revert data sum. induction words as [|w IH]; intros data sum Hsum; simpl; [done|].
  destruct data as [|b0 [|b1 rest]]; [done|done|].
  apply IH. unfold u32. apply Z.mod_pos_bound. lia.
Qed.

Lemma word_sum_app order d1 d2 w1 w2 :
  length d1 = (2 * w1)%nat ->
  word_sum order (d1 ++ d2) (w1 + w2) = word_sum order d1 w1 + word_sum order d2 w2.
Proof.
  revert d1. induction w1 as [|w1 IH]; intros d1 Hlen; simpl.
  - by destruct d1.
  - destruct d1 as [|b0 [|b1 rest]]; simpl in Hlen; [lia|lia|]. simpl.
    rewrite IH by lia. lia.
Qed.

(** The carry-folding loop ends within two iterations on any 32-bit
    accumulator and leaves its end-around-carry sum. *)
Lemma fold_carries_step fuel sum :
  fold_carries (S fuel) sum
    = if Z.shiftr sum 16 =? 0 then Some sum
      else fold_carries fuel (u32 (Z.land sum 65535 + Z.shiftr sum 16)).
Proof. reflexivity. Qed.

Lemma fold_carries_spec fuel sum :
  0 <= sum < 4294967296 ->
  fold_carries (S (S fuel)) sum = Some (end_around_fold sum).
Proof.
  intros Hsum.
  assert (Hshr : forall s, Z.shiftr s 16 = s / 65536).
  { intros s. by rewrite Z.shiftr_div_pow2 by lia. }
  assert (Hland : forall s, Z.land s 65535 = s mod 65536).
  { intros s. change 65535 with (Z.ones 16). by rewrite Z.land_ones by lia. }
  assert (Hsmall : forall f s, 0 <= s < 65536 ->
            fold_carries f s = Some (end_around_fold s)).
  { intros f s Hs. assert (H0 : s / 65536 = 0) by (apply Z.div_small; lia).
    destruct f; simpl; rewrite Hshr, H0; simpl; f_equal; unfold end_around_fold;
      (destruct (s =? 0) eqn:E; [lia|rewrite Z.mod_small; lia]). }
  destruct (decide (sum < 65536)) as [Hlt|Hge]; [apply Hsmall; lia|].
  pose proof (Z.div_mod sum 65536 ltac:(lia)) as Hdm.
  pose proof (Z.mod_pos_bound sum 65536 ltac:(lia)) as Hl.
  assert (Hh : 1 <= sum / 65536 < 65536).
  { split; [apply Z.div_le_lower_bound; lia|apply Z.div_lt_upper_bound; lia]. }
  set (h := sum / 65536) in *. set (l := sum mod 65536) in *.
  assert (Hne : (h =? 0) = false) by lia.
  rewrite fold_carries_step, Hshr, Hland. fold h l. rewrite Hne.
  unfold u32. rewrite (Z.mod_small (l + h)) by lia.
  assert (Hfold : end_around_fold sum = end_around_fold (l + h)).
  { unfold end_around_fold.
    destruct (sum =? 0) eqn:E1; [lia|]. destruct (l + h =? 0) eqn:E2; [lia|].
    f_equal. destruct (decide (l + h < 65536)) as [Hs|Hs].
    - rewrite (Z.mod_small (l + h - 1)) by lia.
      symmetry. apply (Z.mod_unique _ _ h); lia.
    - transitivity (l + h - 65536).
      + symmetry. apply (Z.mod_unique _ _ (h + 1)); lia.
      + apply (Z.mod_unique _ _ 1); lia. }
  rewrite Hfold.
  destruct (decide (l + h < 65536)) as [Hs|Hs]; [apply Hsmall; lia|].
  pose proof (Z.div_mod (l + h) 65536 ltac:(lia)) as Hdm2.
  pose proof (Z.mod_pos_bound (l + h) 65536 ltac:(lia)) as Hl2.
  assert (Hh2 : (l + h) / 65536 = 1).
  { symmetry. apply (Z.div_unique _ _ _ (l + h - 65536)); lia. }
  rewrite fold_carries_step, Hshr, Hland, Hh2. simpl (1 =? 0).
  cbv iota. unfold u32. rewrite (Z.mod_small ((l + h) mod 65536 + 1)) by lia.
  assert (Hfold2 : end_around_fold (l + h) = end_around_fold ((l + h) mod 65536 + 1)).
  { unfold end_around_fold.
    destruct (l + h =? 0) eqn:E1; [lia|].
    destruct ((l + h) mod 65536 + 1 =? 0) eqn:E2; [lia|].
    f_equal. rewrite (Z.mod_small ((l + h) mod 65536 + 1 - 1)) by lia.
    symmetry. apply (Z.mod_unique _ _ 1); lia. }
  rewrite Hfold2. apply Hsmall. lia.
Qed.

Lemma end_around_fold_range sum :
  0 <= sum -> 0 <= end_around_fold sum <= 65535.
Proof.
  intros Hsum. unfold end_around_fold. destruct (sum =? 0); [lia|].
  pose proof (Z.mod_pos_bound (sum - 1) 65535 ltac:(lia)). lia.
Qed.

Lemma complement16 r : 0 <= r <= 65535 -> u16 (Z.lnot r) = 65535 - r.
Proof.
  intros Hr. unfold u16. rewrite Z.lnot_eq_pred_opp.
  symmetry. apply (Z.mod_unique _ _ (-1)); lia.
Qed.

(** X4: for every buffer, every length and every 32-bit initial sum the
    checksum routine ends after at most two carry folds and returns a
    value in 0..0xFFFF; a NULL buffer gives 0, and an empty buffer with
    initial sum 0 gives 0xFFFF. *)
Theorem X4_checksum_is_total_and_16_bit
    (order : byte_order) (fuel : nat) (data : list Z) (len initial : Z) :
  0 <= initial < 4294967296 ->
  (exists c, RTNET_ComputeChecksum order (S (S fuel)) (Some data) len initial = Some c
             /\ 0 <= c <= 65535)
  /\ RTNET_ComputeChecksum order (S (S fuel)) None len initial = Some 0
  /\ RTNET_ComputeChecksum order (S (S fuel)) (Some data) 0 0 = Some 65535.
Proof.
  intros Hinit. split; [|split; reflexivity].
  unfold RTNET_ComputeChecksum.
  pose proof (sum_words_range order data (Z.to_nat (len / 2)) initial Hinit) as H1.
  set (sum1 := sum_words order data (Z.to_nat (len / 2)) initial) in *.
  set (sum2 := if negb (Z.land len 1 =? 0)
               then u32 (sum1 + u16 (Z.shiftl (nth (Z.to_nat (len - 1)) data 0) 8))
               else sum1).
  assert (H2 : 0 <= sum2 < 4294967296).
  { unfold sum2. destruct (negb _); [|done]. unfold u32. apply Z.mod_pos_bound. lia. }
  rewrite fold_carries_spec by done.
  pose proof (end_around_fold_range sum2 ltac:(lia)) as Hr.
  eexists. split; [reflexivity|]. rewrite complement16 by done. lia.
Qed.

Lemma X4_checksum_is_total_and_16_bit_witness :
  exists c,
    RTNET_ComputeChecksum BigEndian 2 (Some [0; 1; 242; 3; 244; 245; 246; 247]) 8 0 = Some c
    /\ 0 <= c <= 65535.
Proof.
  apply (X4_checksum_is_total_and_16_bit BigEndian 0
           [0; 1; 242; 3; 244; 245; 246; 247] 8 0).
  lia.
Defined.

(** X5: verification round trip.  Take a buffer of w 16-bit words with
    bytes in 0..255 and an initial sum small enough for the 32-bit
    accumulator not to wrap; store the computed checksum behind the
    buffer as a 16-bit word in host order; the checksum of the extended
    buffer, with the same initial sum, is 0. *)
Theorem X5_checksum_of_data_with_its_checksum_is_zero
    (order : byte_order) (fuel : nat) (data : list Z) (w : nat) (initial c : Z) :
  Forall (fun b => 0 <= b < 256) data ->
  length data = (2 * w)%nat ->
  0 <= initial -> initial + 65535 * (Z.of_nat w + 1) < 4294967296 ->
  RTNET_ComputeChecksum order (S (S fuel)) (Some data) (2 * Z.of_nat w) initial = Some c ->
  RTNET_ComputeChecksum order (S (S fuel)) (Some (data ++ store16 order c))
                        (2 * Z.of_nat w + 2) initial = Some 0.
Proof.
  intros Hbytes Hlen H0 Hmax Hc.
  assert (Heven : forall k, 0 <= k -> negb (Z.land (2 * k) 1 =? 0) = false).
  { intros k Hk. change 1 with (Z.ones 1). rewrite Z.land_ones by lia.
    change (2 ^ 1) with 2. rewrite Z.mul_comm, Z.mod_mul by lia. done. }
  pose proof (word_sum_range order data w Hbytes) as Hws.
  unfold RTNET_ComputeChecksum in Hc.
  rewrite Heven in Hc by lia.
  replace (2 * Z.of_nat w / 2) with (Z.of_nat w) in Hc
    by (rewrite Z.mul_comm, Z.div_mul; lia).
  rewrite Nat2Z.id, sum_words_no_wrap in Hc by (try done; lia).
  rewrite fold_carries_spec in Hc by lia.
  set (S0 := initial + word_sum order data w) in *.
  pose proof (end_around_fold_range S0 ltac:(lia)) as Hr.
  rewrite complement16 in Hc by done. injection Hc as Hc.
  destruct (load16_store16 order c ltac:(lia)) as (b0 & b1 & Hst & Hb0 & Hb1 & Hld).
  unfold RTNET_ComputeChecksum.
  replace (2 * Z.of_nat w + 2) with (2 * (Z.of_nat w + 1)) by lia.
  rewrite Heven by lia.
  replace (2 * (Z.of_nat w + 1) / 2) with (Z.of_nat w + 1)
    by (rewrite Z.mul_comm, Z.div_mul; lia).
  replace (Z.to_nat (Z.of_nat w + 1)) with (w + 1)%nat by lia.
  assert (Hall : Forall (fun b => 0 <= b < 256) (data ++ store16 order c)).
  { apply Forall_app. split; [done|]. rewrite Hst.
    constructor; [done|constructor; [done|constructor]]. }
  rewrite sum_words_no_wrap by (try done; lia).
  rewrite word_sum_app by done. rewrite Hst. simpl (word_sum order [b0; b1] 1).
  rewrite Hld, Z.add_0_r.
  assert (Htotal : end_around_fold (initial + (word_sum order data w + c)) = 65535).
  { replace (initial + (word_sum order data w + c)) with (S0 + c) by (unfold S0; lia).
    subst c. unfold end_around_fold in *.
    destruct (S0 =? 0) eqn:E0.
    - apply Z.eqb_eq in E0. rewrite E0. reflexivity.
    - pose proof (Z.div_mod (S0 - 1) 65535 ltac:(lia)) as Hdm.
      pose proof (Z.mod_pos_bound (S0 - 1) 65535 ltac:(lia)) as Hm.
      destruct (S0 + (65535 - ((S0 - 1) mod 65535 + 1)) =? 0) eqn:E1; [lia|].
      assert (Hmod : 65534 = (S0 + (65535 - ((S0 - 1) mod 65535 + 1)) - 1) mod 65535).
      { apply (Z.mod_unique _ _ ((S0 - 1) / 65535)); lia. }
      lia. }
  rewrite fold_carries_spec by lia. rewrite Htotal. reflexivity.
Qed.

Lemma X5_checksum_of_data_with_its_checksum_is_zero_witness :
  RTNET_ComputeChecksum BigEndian 2 (Some [0; 1; 242; 3; 244; 245; 246; 247]) 8 0
    = Some 8717
  /\ RTNET_ComputeChecksum BigEndian 2
       (Some ([0; 1; 242; 3; 244; 245; 246; 247] ++ store16 BigEndian 8717)) 10 0
     = Some 0.
Proof.
  split; [reflexivity|].
  apply (X5_checksum_of_data_with_its_checksum_is_zero BigEndian 0
           [0; 1; 242; 3; 244; 245; 246; 247] 4 0 8717).
  - repeat constructor; lia.
  - reflexivity.
  - lia.
  - lia.
  - reflexivity.
Defined.

(** X6: for 16-byte addresses, a payload length below 2^16 and a next
    header below 2^8 the pseudo-header sum is the plain sum of the
    sixteen address words, the length and the next header, without
    32-bit wrap-around (at most 17 * 0xFFFF + 0xFF); so it is the same
    when source and destination are exchanged. *)
Theorem X6_pseudo_header_sum
    (order : byte_order) (src dst : RTNET_IPv6Addr_t) (payload_len next_header : Z) :
  addr_wf src -> addr_wf dst ->
  0 <= payload_len <= 65535 -> 0 <= next_header <= 255 ->
  RTNET_IPv6_PseudoHeaderChecksum order src dst payload_len next_header
    = word_sum order (addr src) 8 + word_sum order (addr dst) 8 + payload_len + next_header
  /\ 0 <= RTNET_IPv6_PseudoHeaderChecksum order src dst payload_len next_header <= 1114350
  /\ RTNET_IPv6_PseudoHeaderChecksum order src dst payload_len next_header
     = RTNET_IPv6_PseudoHeaderChecksum order dst src payload_len next_header.
Proof.
  intros [_ Hs] [_ Hd] Hlen Hnh.
  pose proof (word_sum_range order (addr src) 8 Hs) as Hws.
  pose proof (word_sum_range order (addr dst) 8 Hd) as Hwd.
  assert (Hval : forall a b, Forall (fun x => 0 <= x < 256) (addr a) ->
            Forall (fun x => 0 <= x < 256) (addr b) ->
            RTNET_IPv6_PseudoHeaderChecksum order a b payload_len next_header
            = word_sum order (addr a) 8 + word_sum order (addr b) 8
              + payload_len + next_header).
  { intros a b Ha Hb. unfold RTNET_IPv6_PseudoHeaderChecksum.
    pose proof (word_sum_range order (addr a) 8 Ha).
    pose proof (word_sum_range order (addr b) 8 Hb).
    rewrite (sum_words_no_wrap order (addr a)) by (try done; lia).
    rewrite sum_words_no_wrap by (try done; lia).
    change (Z.of_nat 8) with 8 in *. unfold u32.
    rewrite (Z.mod_small (0 + word_sum order (addr a) 8 + word_sum order (addr b) 8
                          + payload_len)) by lia.
    rewrite Z.mod_small by lia. lia. }
  rewrite !Hval by done. change (Z.of_nat 8) with 8 in *. split; [done|]. split; lia.
Qed.

Lemma X6_pseudo_header_sum_witness :
  RTNET_IPv6_PseudoHeaderChecksum BigEndian peer_global scenario_ip 23 17
    = RTNET_IPv6_PseudoHeaderChecksum BigEndian scenario_ip peer_global 23 17.
Proof.
  apply (X6_pseudo_header_sum BigEndian peer_global scenario_ip 23 17).
  - split; [reflexivity|]. repeat constructor; lia.
  - split; [reflexivity|]. repeat constructor; lia.
  - lia.
  - lia.
Defined.

(** ** Routing table: lookup *)

(** X7: whenever the route lookup returns an entry, that entry is valid
    and covers the destination, no valid covering entry has a longer
    prefix or the same prefix length with a lower metric, and every
    covering entry at a lower index is strictly less preferred (among
    equally good entries the first in table order is returned). *)
Theorem X7_lookup_returns_best_covering_entry
    (ctx : RTNET_Context_t) (dest : RTNET_IPv6Addr_t) (k : nat) :
  RTNET_FindRoute ctx (Some dest) = Some k ->
  exists e,
    routing_table ctx !! k = Some e /\ route_matches dest e
    /\ (forall j e', routing_table ctx !! j = Some e' -> route_matches dest e' ->
          prefix_len e' < prefix_len e
          \/ (prefix_len e' = prefix_len e /\ metric e <= metric e'))
    /\ (forall j e', (j < k)%nat -> routing_table ctx !! j = Some e' ->
          route_matches dest e' ->
          prefix_len e' < prefix_len e
          \/ (prefix_len e' = prefix_len e /\ metric e < metric e')).
Proof. apply FindRoute_sound. Qed.

Lemma X7_lookup_returns_best_covering_entry_witness :
  RTNET_FindRoute multi_route_ctx (Some peer_global) = Some 4%nat
  /\ (prefix_len <$> routing_table multi_route_ctx !! 3%nat = Some 64
      /\ metric <$> routing_table multi_route_ctx !! 3%nat = Some 7)
  /\ (prefix_len <$> routing_table multi_route_ctx !! 5%nat = Some 64
      /\ metric <$> routing_table multi_route_ctx !! 5%nat = Some 3)
  /\ exists e,
       routing_table multi_route_ctx !! 4%nat = Some e /\ route_matches peer_global e
       /\ (forall j e', routing_table multi_route_ctx !! j = Some e' ->
             route_matches peer_global e' ->
             prefix_len e' < prefix_len e
             \/ (prefix_len e' = prefix_len e /\ metric e <= metric e'))
       /\ (forall j e', (j < 4)%nat -> routing_table multi_route_ctx !! j = Some e' ->
             route_matches peer_global e' ->
             prefix_len e' < prefix_len e
             \/ (prefix_len e' = prefix_len e /\ metric e < metric e')).
Proof.
  split; [vm_compute; reflexivity|].
  split; [split; vm_compute; reflexivity|]. split; [split; vm_compute; reflexivity|].
  apply (X7_lookup_returns_best_covering_entry multi_route_ctx peer_global 4).
  vm_compute. reflexivity.
Defined.

(** X8: the lookup returns no route exactly when no valid covering entry
    has a prefix length above 0 or prefix length 0 with a metric below
    0xFFFF; a NULL destination gives no route.  So a table without a
    covering entry gives none, and so does a table whose only covering
    entries are default routes with metric 0xFFFF. *)
Theorem X8_lookup_miss_characterised (ctx : RTNET_Context_t) (dest : RTNET_IPv6Addr_t) :
  (RTNET_FindRoute ctx (Some dest) = None
   <-> forall j e, routing_table ctx !! j = Some e -> route_matches dest e ->
                   ~ route_better (prefix_len e) (metric e) 0 UINT16_MAX)
  /\ RTNET_FindRoute ctx None = None.
Proof.
  split; [|done]. unfold RTNET_FindRoute.
  destruct (FindRoute_loop_spec dest (routing_table ctx) 0 None 0 UINT16_MAX)
    as [[Hr Hno]|(k & e & Hr & Hk & Hm & Hb & _)]; rewrite Hr.
  - split; [by intros _|done].
  - split; [done|]. intros Hall. by destruct (Hall k e Hk Hm).
Qed.

Lemma X8_lookup_miss_characterised_witness :
  RTNET_FindRoute fresh_ctx (Some peer_global) = None.
Proof.
  apply (proj1 (X8_lookup_miss_characterised fresh_ctx peer_global)).
  intros j e He [Hv Hm] _.
  destruct j as [|j].
  - vm_compute in He. injection He as <-. vm_compute in Hm. discriminate Hm.
  - change (replicate 31%nat zero_route !! j = Some e) in He.
    apply lookup_replicate_1 in He as [-> _]. discriminate Hv.
Defined.

(** ** Routing table: insertion *)

Lemma AddRoute_ok ctx d plen nhop mtr now ctx' :
  RTNET_AddRoute ctx (Some d) plen nhop mtr now = (RTNET_OK, ctx') ->
  exists i old,
    plen <= 128
    /\ routing_table ctx !! i = Some old /\ rt_valid old = false
    /\ (forall j e, (j < i)%nat -> routing_table ctx !! j = Some e -> rt_valid e = true)
    /\ ctx' = set_routing_table ctx
                (alter (fun entry =>
                          mkRoute d (match nhop with Some h => h | None => zero_addr end)
                                  (netmask entry) plen mtr now true)
                       i (routing_table ctx))
    /\ routing_table ctx' !! i
       = Some (mkRoute d (match nhop with Some h => h | None => zero_addr end)
                       (netmask old) plen mtr now true)
    /\ (forall j, j <> i -> routing_table ctx' !! j = routing_table ctx !! j).
Proof.
  unfold RTNET_AddRoute. destruct (plen >? 128) eqn:E; [done|].
  destruct (first_index _ _) as [i|] eqn:Hi; [|done].
  intros H. injection H as <-.
  destruct (first_index_Some _ _ _ Hi) as (old & Hold & Htest & Hbefore).
  exists i, old. split_and!; [lia|done| | |done| |].
  - by destruct (rt_valid old).
  - intros j e Hj He. specialize (Hbefore j e Hj He). by destruct (rt_valid e).
  - simpl. by rewrite list_lookup_alter_eq, Hold.
  - intros j Hj. simpl. by rewrite list_lookup_alter_ne.
Qed.

(** X9: after a successful add_route of prefix d/plen with metric m
    (plen at least 1, or metric below 0xFFFF), the lookup of any
    destination the prefix covers returns a valid covering entry whose
    prefix is at least as long as plen and, at equal length, whose
    metric is at most m. *)
Theorem X9_added_route_is_found
    (ctx ctx' : RTNET_Context_t) (d dest : RTNET_IPv6Addr_t)
    (plen mtr now : Z) (nhop : option RTNET_IPv6Addr_t) :
  RTNET_AddRoute ctx (Some d) plen nhop mtr now = (RTNET_OK, ctx') ->
  0 <= plen -> 0 < plen \/ mtr < UINT16_MAX ->
  RTNET_IPv6_PrefixMatch (Some dest) (Some d) plen = true ->
  exists k e,
    RTNET_FindRoute ctx' (Some dest) = Some k
    /\ routing_table ctx' !! k = Some e /\ route_matches dest e
    /\ (plen < prefix_len e \/ (prefix_len e = plen /\ metric e <= mtr)).
Proof.
  intros Hadd Hplen Hpref Hcover.
  destruct (AddRoute_ok _ _ _ _ _ _ _ Hadd) as (i & old & _ & _ & _ & _ & _ & Hnew & _).
  set (new := mkRoute d (match nhop with Some h => h | None => zero_addr end)
                      (netmask old) plen mtr now true) in *.
  assert (Hm : route_matches dest new) by done.
  destruct (FindRoute_complete ctx' dest i new Hnew Hm Hplen Hpref) as [k Hk].
  destruct (FindRoute_sound ctx' dest k Hk) as (e & He & Hme & Hopt & _).
  exists k, e. split_and!; [done|done|done|].
  specialize (Hopt i new Hnew Hm). simpl in Hopt. lia.
Qed.

Lemma X9_added_route_is_found_witness :
  exists k e,
    RTNET_FindRoute
      (snd (RTNET_AddRoute fresh_ctx (Some peer_global) 128 None 1 30)) (Some peer_global)
      = Some k
    /\ routing_table (snd (RTNET_AddRoute fresh_ctx (Some peer_global) 128 None 1 30)) !! k
       = Some e
    /\ route_matches peer_global e
    /\ (128 < prefix_len e \/ (prefix_len e = 128 /\ metric e <= 1)).
Proof.
  apply (X9_added_route_is_found fresh_ctx _ peer_global peer_global 128 1 30 None).
  - reflexivity.
  - lia.
  - left. lia.
  - reflexivity.
Defined.

(** X10: add_route returns invalid_param exactly for a NULL destination
    or a prefix length above 128, and overflow exactly when the
    arguments are valid and every slot holds a valid route; in both
    cases the context is unchanged.  It returns ok exactly when the
    arguments are valid and some slot is invalid; it then fills the
    first invalid slot (destination, next hop or zeros, prefix length,
    metric, stamp, valid) and leaves every other slot as it was. *)
Theorem X10_add_route_outcomes
    (ctx : RTNET_Context_t) (dst nhop : option RTNET_IPv6Addr_t) (plen mtr now : Z) :
  (fst (RTNET_AddRoute ctx dst plen nhop mtr now) = RTNET_ERR_INVALID_PARAM
   <-> dst = None \/ 128 < plen)
  /\ (fst (RTNET_AddRoute ctx dst plen nhop mtr now) = RTNET_ERR_OVERFLOW
      <-> is_Some dst /\ plen <= 128
          /\ Forall (fun e => rt_valid e = true) (routing_table ctx))
  /\ (fst (RTNET_AddRoute ctx dst plen nhop mtr now) = RTNET_OK
      <-> is_Some dst /\ plen <= 128
          /\ exists e, e ∈ routing_table ctx /\ rt_valid e = false)
  /\ (fst (RTNET_AddRoute ctx dst plen nhop mtr now) <> RTNET_OK ->
      snd (RTNET_AddRoute ctx dst plen nhop mtr now) = ctx)
  /\ (fst (RTNET_AddRoute ctx dst plen nhop mtr now) = RTNET_OK ->
      exists d i old,
        dst = Some d
        /\ routing_table ctx !! i = Some old /\ rt_valid old = false
        /\ (forall j e, (j < i)%nat -> routing_table ctx !! j = Some e ->
                        rt_valid e = true)
        /\ routing_table (snd (RTNET_AddRoute ctx dst plen nhop mtr now)) !! i
           = Some (mkRoute d (match nhop with Some h => h | None => zero_addr end)
                           (netmask old) plen mtr now true)
        /\ (forall j, j <> i ->
              routing_table (snd (RTNET_AddRoute ctx dst plen nhop mtr now)) !! j
              = routing_table ctx !! j)).
Proof.
  destruct dst as [d|].
  2:{ simpl. split_and!; try done.
      - split; [by left|done].
      - split; [done|]. by intros [[? ?] _].
      - split; [done|]. by intros [[? ?] _]. }
  destruct (decide (128 < plen)) as [Hbig|Hok].
  { unfold RTNET_AddRoute. destruct (plen >? 128) eqn:E; [|lia]. simpl.
    split_and!; try done.
    - split; [by right|done].
    - split; [done|]. intros (_ & ? & _). lia.
    - split; [done|]. intros (_ & ? & _). lia. }
  destruct (RTNET_AddRoute ctx (Some d) plen nhop mtr now) as [err ctx'] eqn:Hcall.
  simpl.
  assert (err = RTNET_OK \/ err <> RTNET_OK) as [->|Herr]
    by (destruct err; [by left|by right..]).
  - destruct (AddRoute_ok _ _ _ _ _ _ _ Hcall)
      as (i & old & _ & Hold & Hinv & Hbefore & _ & Hnew & Hothers).
    split_and!; try done.
    + split; [done|]. intros [?|?]; [done|lia].
    + split; [done|]. intros (_ & _ & Hall).
      pose proof (Forall_lookup_1 _ _ _ _ Hall Hold) as Hv. simpl in Hv. congruence.
    + split; [intros _|done]. split_and!; [by eexists|lia|].
      exists old. split; [by eapply list_elem_of_lookup_2|done].
    + intros _. by exists d, i, old.
  - unfold RTNET_AddRoute in Hcall. destruct (plen >? 128) eqn:E; [lia|].
    destruct (first_index _ _) as [i|] eqn:Hi; [by injection Hcall as <- _|].
    injection Hcall as <- <-. split_and!; try done.
    + split; [done|]. intros [?|?]; [done|lia].
    + split; [intros _|done]. split_and!; [by eexists|lia|].
      apply Forall_lookup_2. intros k e He. apply list_elem_of_lookup_2 in He.
      pose proof (first_index_None _ _ Hi e He) as Ht. simpl in Ht.
      by destruct (rt_valid e).
    + split; [done|]. intros (_ & _ & e & He & Hv).
      pose proof (first_index_None _ _ Hi e He) as Ht. simpl in Ht.
      by rewrite Hv in Ht.
Qed.

Lemma X10_add_route_outcomes_witness :
  let r := RTNET_AddRoute fresh_ctx (Some prefix_db8) 64 None 5 30 in
  fst r = RTNET_OK
  /\ routing_table (snd r) !! 1%nat
     = Some (mkRoute prefix_db8 zero_addr zero_addr 64 5 30 true)
  /\ (exists d i old,
        Some prefix_db8 = Some d
        /\ routing_table fresh_ctx !! i = Some old /\ rt_valid old = false
        /\ (forall j e, (j < i)%nat -> routing_table fresh_ctx !! j = Some e ->
                        rt_valid e = true)
        /\ routing_table (snd r) !! i
           = Some (mkRoute d zero_addr (netmask old) 64 5 30 true)
        /\ (forall j, j <> i -> routing_table (snd r) !! j = routing_table fresh_ctx !! j))
  /\ fst (RTNET_AddRoute fresh_ctx None 64 None 1 30) = RTNET_ERR_INVALID_PARAM
  /\ snd (RTNET_AddRoute fresh_ctx (Some peer_global) 129 None 1 30) = fresh_ctx.
Proof.
  cbv zeta.
  destruct (X10_add_route_outcomes fresh_ctx (Some prefix_db8) None 64 5 30)
    as (_ & _ & Hok & _ & Hfill).
  assert (Hsucc : fst (RTNET_AddRoute fresh_ctx (Some prefix_db8) 64 None 5 30) = RTNET_OK).
  { apply Hok. split_and!; [by eexists|lia|].
    exists zero_route. split; [|reflexivity].
    apply (list_elem_of_lookup_2 _ 1%nat). reflexivity. }
  split_and!.
  - exact Hsucc.
  - reflexivity.
  - exact (Hfill Hsucc).
  - apply (proj1 (X10_add_route_outcomes fresh_ctx None None 64 1 30)). by left.
  - apply (X10_add_route_outcomes fresh_ctx (Some peer_global) None 129 1 30).
    discriminate.
Defined.

(** Every public operation keeps the prefix lengths of the valid routes
    at or below 128. *)
Lemma step_valid_prefix_len op ctx :
  Forall (fun e => rt_valid e = true -> prefix_len e <= 128) (routing_table ctx) ->
  Forall (fun e => rt_valid e = true -> prefix_len e <= 128) (routing_table (step op ctx)).
Proof.
  intros Hinv.
  assert (Hinit : forall ip mac t1 t2,
    Forall (fun e => rt_valid e = true -> prefix_len e <= 128)
           (routing_table (snd (RTNET_Initialize ctx (Some ip) (Some mac) t1 t2)))).
  { intros. rewrite Initialize_routing_table. constructor; [simpl; lia|].
    apply Forall_replicate. done. }
  destruct op; simpl.
  - destruct ip as [ip|], mac as [mac|]; try done; apply Hinit.
  - unfold RTNET_ProcessRxPacket. destruct data; [|done].
    destruct (len =? 0); [done|]. by destruct (len <? 14 + 40).
  - by rewrite UDP_Send_routing_table.
  - by rewrite TCP_Connect_routing_table.
  - unfold RTNET_TCP_Send. destruct data; [|done]. destruct (len =? 0); [done|].
    destruct (_ >=? _); [done|].
    destruct (tcp_connections ctx !! Z.to_nat connection_id) as [conn|]; [|done].
    by destruct (negb (conn_in_use conn)).
  - unfold RTNET_TCP_Close. destruct (_ >=? _); [done|].
    destruct (tcp_connections ctx !! Z.to_nat connection_id) as [conn|]; [|done].
    by destruct (negb (conn_in_use conn)).
  - unfold RTNET_AddRoute. destruct dst; [|done].
    destruct (plen >? 128) eqn:E; [done|].
    destruct (first_index _ _); [|done]. simpl.
    apply Forall_alter; [done|]. intros e _ _. simpl. lia.
  - done.
  - unfold RTNET_mDNS_Announce. destruct name; [|done]. by destruct (_ || _).
  - done.
  - unfold RTNET_PeriodicTask. simpl. apply Forall_fmap.
    eapply Forall_impl; [|exact Hinv]. intros e He. simpl.
    rewrite age_route_fields. simpl. intros Hv. apply He.
    by destruct (rt_valid e).
Qed.

(** X11: in every state reachable through the public operations, a valid
    route entry has a prefix length of at most 128. *)
Theorem X11_valid_routes_have_prefix_len_at_most_128 (ctx : RTNET_Context_t) :
  reachable ctx ->
  forall i e, routing_table ctx !! i = Some e -> rt_valid e = true -> prefix_len e <= 128.
Proof.
  intros Hreach.
  assert (Hall : Forall (fun e => rt_valid e = true -> prefix_len e <= 128)
                        (routing_table ctx)).
  { induction Hreach as [ctx ip mac t1 t2|ctx op _ IH].
    - rewrite Initialize_routing_table. constructor; [simpl; lia|].
      apply Forall_replicate. done.
    - by apply step_valid_prefix_len. }
  intros i e He. by apply (Forall_lookup_1 _ _ _ _ Hall He).
Qed.

Lemma X11_valid_routes_have_prefix_len_at_most_128_witness :
  reachable (step (OpAddRoute (Some peer_global) 128 None 1 30) fresh_ctx)
  /\ forall i e,
       routing_table (step (OpAddRoute (Some peer_global) 128 None 1 30) fresh_ctx) !! i
         = Some e ->
       rt_valid e = true -> prefix_len e <= 128.
Proof.
  assert (Hreach :
    reachable (step (OpAddRoute (Some peer_global) 128 None 1 30) fresh_ctx)).
  { apply reachable_step. apply reachable_init. }
  split; [exact Hreach|].
  exact (X11_valid_routes_have_prefix_len_at_most_128 _ Hreach).
Defined.

(** X12: a route that add_route has just inserted at clock reading t
    survives every periodic_task whose clock reading is at most 300000
    ms later (as a 32-bit difference): the entry is still in its slot,
    valid and unchanged. *)
Theorem X12_fresh_route_survives_the_ager
    (ctx ctx' : RTNET_Context_t) (d : RTNET_IPv6Addr_t)
    (plen mtr t now : Z) (nhop : option RTNET_IPv6Addr_t) :
  RTNET_AddRoute ctx (Some d) plen nhop mtr t = (RTNET_OK, ctx') ->
  u32 (now - t) <= 300000 ->
  exists i e,
    routing_table ctx' !! i = Some e
    /\ destination e = d /\ prefix_len e = plen /\ metric e = mtr
    /\ last_used_ms e = t /\ rt_valid e = true
    /\ routing_table (RTNET_PeriodicTask ctx' now) !! i = Some e.
Proof.
  intros Hadd Hage.
  destruct (AddRoute_ok _ _ _ _ _ _ _ Hadd) as (i & old & _ & _ & _ & _ & _ & Hnew & _).
  eexists i, _. split; [exact Hnew|]. split_and!; try reflexivity.
  unfold RTNET_PeriodicTask. simpl. rewrite list_lookup_fmap, Hnew. simpl.
  unfold age_route. simpl. destruct (u32 (now - t) >? 300000) eqn:E; [lia|done].
Qed.

Lemma X12_fresh_route_survives_the_ager_witness :
  exists i e,
    routing_table (snd (RTNET_AddRoute fresh_ctx (Some peer_global) 128 None 1 30)) !! i
      = Some e
    /\ destination e = peer_global /\ prefix_len e = 128 /\ metric e = 1
    /\ last_used_ms e = 30 /\ rt_valid e = true
    /\ routing_table
         (RTNET_PeriodicTask
            (snd (RTNET_AddRoute fresh_ctx (Some peer_global) 128 None 1 30)) 300030) !! i
       = Some e.
Proof.
  apply (X12_fresh_route_survives_the_ager fresh_ctx _ peer_global 128 1 30 300030 None).
  - reflexivity.
  - vm_compute. discriminate.
Defined.

(** ** TX buffer pool *)

Lemma first_index_unique {A : Type} (test : A -> bool) (l : list A) (i : nat) (x : A) :
  l !! i = Some x -> test x = true ->
  (forall j y, (j < i)%nat -> l !! j = Some y -> test y = false) ->
  first_index test l = Some i.
Proof.
  revert i. induction l as [|a l IH]; intros i Hx Ht Hbefore; [done|].
  destruct i as [|i]; simpl in *.
  - simplify_eq. by rewrite Ht.
  - rewrite (Hbefore 0%nat a) by (done || lia).
    rewrite (IH i Hx Ht); [done|].
    intros j y Hj Hy. apply (Hbefore (S j)); [lia|done].
Qed.

Lemma first_index_all_false {A : Type} (test : A -> bool) (l : list A) :
  (forall x, x ∈ l -> test x = false) -> first_index test l = None.
Proof.
  intros Hall. destruct (first_index test l) as [i|] eqn:Hi; [|done].
  destruct (first_index_Some _ _ _ Hi) as (x & Hx & Ht & _).
  rewrite (Hall x) in Ht; [done|]. by eapply list_elem_of_lookup_2.
Qed.

(** Outcomes of the allocator. *)
Lemma AllocTxBuffer_outcomes (ctx : RTNET_Context_t) (qos now : Z) :
  (fst (RTNET_AllocTxBuffer ctx qos now) = None
   <-> Forall (fun buf => buf_in_use buf = true) (tx_buffers ctx))
  /\ (fst (RTNET_AllocTxBuffer ctx qos now) = None ->
      snd (RTNET_AllocTxBuffer ctx qos now) = ctx)
  /\ (forall i,
        fst (RTNET_AllocTxBuffer ctx qos now) = Some i ->
        exists old,
          tx_buffers ctx !! i = Some old /\ buf_in_use old = false
          /\ tx_buffers (snd (RTNET_AllocTxBuffer ctx qos now)) !! i
             = Some (mkBuffer 0 0 qos true now)
          /\ (forall j, j <> i ->
                tx_buffers (snd (RTNET_AllocTxBuffer ctx qos now)) !! j
                = tx_buffers ctx !! j)
          /\ ((buf_qos_priority old = qos
               /\ forall j b, (j < i)%nat -> tx_buffers ctx !! j = Some b ->
                              buf_in_use b = true \/ buf_qos_priority b <> qos)
              \/ ((forall b, b ∈ tx_buffers ctx -> buf_in_use b = false ->
                             buf_qos_priority b <> qos)
                  /\ forall j b, (j < i)%nat -> tx_buffers ctx !! j = Some b ->
                                 buf_in_use b = true))).
Proof.
  unfold RTNET_AllocTxBuffer.
  destruct (first_index (fun buf => negb (buf_in_use buf) && (buf_qos_priority buf =? qos))
                        (tx_buffers ctx)) as [i|] eqn:H1.
  - destruct (first_index_Some _ _ _ H1) as (old & Hold & Htest & Hbefore).
    apply andb_true_iff in Htest as [Hfree Hqos]. apply Z.eqb_eq in Hqos.
    assert (Hf : buf_in_use old = false) by (by destruct (buf_in_use old)).
    simpl. split_and!.
    + split; [done|]. intros Hall.
      pose proof (Forall_lookup_1 _ _ _ _ Hall Hold) as Hu. simpl in Hu. congruence.
    + done.
    + intros ? [= <-]. exists old. split_and!; [done|done| | |].
      * by rewrite list_lookup_alter_eq, Hold.
      * intros j Hj. by rewrite list_lookup_alter_ne.
      * left. split; [done|]. intros j b Hj Hb.
        specialize (Hbefore j b Hj Hb). apply andb_false_iff in Hbefore as [Hb1|Hb2].
        -- left. by destruct (buf_in_use b).
        -- right. by apply Z.eqb_neq.
  - pose proof (first_index_None _ _ H1) as Hnone.
    destruct (first_index (fun buf => negb (buf_in_use buf)) (tx_buffers ctx))
      as [i|] eqn:H2.
    + destruct (first_index_Some _ _ _ H2) as (old & Hold & Htest & Hbefore).
      assert (Hf : buf_in_use old = false) by (by destruct (buf_in_use old)).
      simpl. split_and!.
      * split; [done|]. intros Hall.
        pose proof (Forall_lookup_1 _ _ _ _ Hall Hold) as Hu. simpl in Hu. congruence.
      * done.
      * intros ? [= <-]. exists old. split_and!; [done|done| | |].
        -- by rewrite list_lookup_alter_eq, Hold.
        -- intros j Hj. by rewrite list_lookup_alter_ne.
        -- right. split.
           ++ intros b Hb Hbf. specialize (Hnone b Hb). simpl in Hnone.
              rewrite Hbf in Hnone. simpl in Hnone. by apply Z.eqb_neq.
           ++ intros j b Hj Hb. specialize (Hbefore j b Hj Hb).
              by destruct (buf_in_use b).
    + pose proof (first_index_None _ _ H2) as Hnone2. simpl. split_and!.
      * split; [intros _|done]. apply Forall_lookup_2. intros k b Hb.
        apply list_elem_of_lookup_2 in Hb. specialize (Hnone2 b Hb). simpl in Hnone2.
        by destruct (buf_in_use b).
      * done.
      * done.
Qed.

(** X13: the allocator fails exactly when every TX buffer is in use, and
    then changes nothing.  Otherwise it returns a buffer that was free
    and leaves it in use with length 0, offset 0, the requested QoS
    class and the clock reading, every other buffer unchanged.  The
    buffer is the first free one whose previous QoS tag equals the
    request if there is one, else the first free one. *)
Theorem X13_alloc_tx_buffer (ctx : RTNET_Context_t) (qos now : Z) :
  (fst (RTNET_AllocTxBuffer ctx qos now) = None
   <-> Forall (fun buf => buf_in_use buf = true) (tx_buffers ctx))
  /\ (fst (RTNET_AllocTxBuffer ctx qos now) = None ->
      snd (RTNET_AllocTxBuffer ctx qos now) = ctx)
  /\ (forall i,
        fst (RTNET_AllocTxBuffer ctx qos now) = Some i ->
        exists old,
          tx_buffers ctx !! i = Some old /\ buf_in_use old = false
          /\ tx_buffers (snd (RTNET_AllocTxBuffer ctx qos now)) !! i
             = Some (mkBuffer 0 0 qos true now)
          /\ (forall j, j <> i ->
                tx_buffers (snd (RTNET_AllocTxBuffer ctx qos now)) !! j
                = tx_buffers ctx !! j)
          /\ ((buf_qos_priority old = qos
               /\ forall j b, (j < i)%nat -> tx_buffers ctx !! j = Some b ->
                              buf_in_use b = true \/ buf_qos_priority b <> qos)
              \/ ((forall b, b ∈ tx_buffers ctx -> buf_in_use b = false ->
                             buf_qos_priority b <> qos)
                  /\ forall j b, (j < i)%nat -> tx_buffers ctx !! j = Some b ->
                                 buf_in_use b = true))).
Proof. apply AllocTxBuffer_outcomes. Qed.

Lemma X13_alloc_tx_buffer_witness :
  exists old,
    tx_buffers fresh_ctx !! 0%nat = Some old /\ buf_in_use old = false
    /\ tx_buffers (snd (RTNET_AllocTxBuffer fresh_ctx RTNET_QOS_NORMAL 50)) !! 0%nat
       = Some (mkBuffer 0 0 RTNET_QOS_NORMAL true 50)
    /\ (forall j, j <> 0%nat ->
          tx_buffers (snd (RTNET_AllocTxBuffer fresh_ctx RTNET_QOS_NORMAL 50)) !! j
          = tx_buffers fresh_ctx !! j)
    /\ ((buf_qos_priority old = RTNET_QOS_NORMAL
         /\ forall j b, (j < 0)%nat -> tx_buffers fresh_ctx !! j = Some b ->
                        buf_in_use b = true \/ buf_qos_priority b <> RTNET_QOS_NORMAL)
        \/ ((forall b, b ∈ tx_buffers fresh_ctx -> buf_in_use b = false ->
                       buf_qos_priority b <> RTNET_QOS_NORMAL)
            /\ forall j b, (j < 0)%nat -> tx_buffers fresh_ctx !! j = Some b ->
                           buf_in_use b = true)).
Proof.
  apply (X13_alloc_tx_buffer fresh_ctx RTNET_QOS_NORMAL 50).
  reflexivity.
Defined.

(** X14: allocate then free is a round trip on the occupancy of the
    pool: after freeing the buffer the allocator returned, the in-use
    flag of every TX buffer is what it was before the allocation; the
    freed buffer keeps the QoS tag of the request, so the next
    allocation for the same QoS class returns the same buffer. *)
Theorem X14_alloc_free_round_trip (ctx : RTNET_Context_t) (qos now now' : Z) (i : nat) :
  fst (RTNET_AllocTxBuffer ctx qos now) = Some i ->
  buf_in_use <$> tx_buffers (RTNET_FreeBuffer (snd (RTNET_AllocTxBuffer ctx qos now)) (Some i))
    = buf_in_use <$> tx_buffers ctx
  /\ fst (RTNET_AllocTxBuffer
            (RTNET_FreeBuffer (snd (RTNET_AllocTxBuffer ctx qos now)) (Some i)) qos now')
     = Some i.
Proof.
  intros Halloc.
  destruct (proj2 (proj2 (AllocTxBuffer_outcomes ctx qos now)) i Halloc)
    as (old & Hold & Hfree & Hnew & Hothers & Hpref).
  set (ctx1 := snd (RTNET_AllocTxBuffer ctx qos now)) in *.
  assert (Hlook : forall j,
    tx_buffers (RTNET_FreeBuffer ctx1 (Some i)) !! j
    = if decide (j = i) then Some (mkBuffer 0 0 qos false now) else tx_buffers ctx !! j).
  { intros j. simpl. destruct (decide (j = i)) as [->|Hne].
    - by rewrite list_lookup_alter_eq, Hnew.
    - by rewrite list_lookup_alter_ne, Hothers. }
  split.
  - apply list_eq. intros j. rewrite !list_lookup_fmap, Hlook.
    destruct (decide (j = i)) as [->|Hne]; [|done]. by rewrite Hold, <- Hfree.
  - unfold RTNET_AllocTxBuffer.
    assert (Hfirst :
      first_index (fun buf => negb (buf_in_use buf) && (buf_qos_priority buf =? qos))
                  (tx_buffers (RTNET_FreeBuffer ctx1 (Some i))) = Some i).
    { apply (first_index_unique _ _ i (mkBuffer 0 0 qos false now)).
      - rewrite Hlook. by destruct (decide (i = i)).
      - simpl. by rewrite Z.eqb_refl.
      - intros j b Hj Hb. rewrite Hlook in Hb.
        destruct (decide (j = i)) as [->|Hne]; [lia|].
        destruct Hpref as [[_ Hbefore]|[_ Hbefore]].
        + destruct (Hbefore j b Hj Hb) as [Hu|Hq]; [by rewrite Hu|].
          apply Z.eqb_neq in Hq. rewrite Hq. by rewrite andb_false_r.
        + by rewrite (Hbefore j b Hj Hb). }
    by rewrite Hfirst.
Qed.

Lemma X14_alloc_free_round_trip_witness :
  buf_in_use <$>
    tx_buffers (RTNET_FreeBuffer (snd (RTNET_AllocTxBuffer fresh_ctx RTNET_QOS_HIGH 50))
                                 (Some 0%nat))
    = buf_in_use <$> tx_buffers fresh_ctx
  /\ fst (RTNET_AllocTxBuffer
            (RTNET_FreeBuffer (snd (RTNET_AllocTxBuffer fresh_ctx RTNET_QOS_HIGH 50))
                              (Some 0%nat))
            RTNET_QOS_HIGH 60)
     = Some 0%nat.
Proof.
  apply (X14_alloc_free_round_trip fresh_ctx RTNET_QOS_HIGH 50 60 0).
  reflexivity.
Defined.

(** ** Neighbor cache *)

Lemma AddressEqual_refl (a : RTNET_IPv6Addr_t) :
  RTNET_IPv6_AddressEqual (Some a) (Some a) = true.
Proof.
  unfold RTNET_IPv6_AddressEqual. apply Z.eqb_eq.
  induction (seq 0 RTNET_IPV6_ADDR_LEN) as [|i idxs IH] using rev_ind; [done|].
  rewrite foldl_snoc, IH, Z.lxor_nilpotent. reflexivity.
Qed.

(** Where the slot search ends: at the first invalid slot if there is
    one; otherwise at the running candidate if no stamp is below the
    running minimum, else at the first slot that holds the least
    stamp. *)
Lemma ND_AddEntry_scan_spec cache :
  forall i oi ot,
    (exists j e,
       ND_AddEntry_scan cache i oi ot = (i + j)%nat
       /\ cache !! j = Some e /\ nb_valid e = false
       /\ forall j' e', (j' < j)%nat -> cache !! j' = Some e' -> nb_valid e' = true)
    \/ (Forall (fun e => nb_valid e = true) cache
        /\ ((ND_AddEntry_scan cache i oi ot = oi
             /\ forall e, e ∈ cache -> ot <= last_confirmed_ms e)
            \/ (exists j e,
                  ND_AddEntry_scan cache i oi ot = (i + j)%nat
                  /\ cache !! j = Some e /\ last_confirmed_ms e < ot
                  /\ (forall e', e' ∈ cache -> last_confirmed_ms e <= last_confirmed_ms e')
                  /\ forall j' e', (j' < j)%nat -> cache !! j' = Some e' ->
                                   last_confirmed_ms e < last_confirmed_ms e'))).
Proof.
  induction cache as [|entry rest IH]; intros i oi ot.
  { right. split; [constructor|]. left. split; [done|].
    intros e He. by apply elem_of_nil in He. }
  simpl. destruct (nb_valid entry) eqn:Hv; simpl.
  2:{ left. exists 0%nat, entry. split_and!; [lia|done|done|].
      intros j' e' Hj'. lia. }
  destruct (last_confirmed_ms entry <? ot) eqn:Hlt.
  - apply Z.ltb_lt in Hlt.
    destruct (IH (S i) i (last_confirmed_ms entry))
      as [(j & e & Hr & Hj & Hinv & Hbefore)
         |[Hall [[Hr Hmin]|(j & e & Hr & Hj & Hlt' & Hmin & Hfirst)]]].
    + left. exists (S j), e. rewrite Hr. split_and!; [lia|done|done|].
      intros [|j'] e' Hj' He'; simpl in He'; [by simplify_eq|].
      apply (Hbefore j'); [lia|done].
    + right. split; [by constructor|]. right. exists 0%nat, entry.
      rewrite Hr. split_and!; [lia|done|done| |].
      * intros e' He'. apply elem_of_cons in He' as [->|He']; [lia|by apply Hmin].
      * intros j' e' Hj'. lia.
    + right. split; [by constructor|]. right. exists (S j), e.
      rewrite Hr. split_and!; [lia|done|lia| |].
      * intros e' He'. apply elem_of_cons in He' as [->|He']; [lia|by apply Hmin].
      * intros [|j'] e' Hj' He'; simpl in He'; [by simplify_eq|].
        apply (Hfirst j'); [lia|done].
  - apply Z.ltb_ge in Hlt.
    destruct (IH (S i) oi ot)
      as [(j & e & Hr & Hj & Hinv & Hbefore)
         |[Hall [[Hr Hmin]|(j & e & Hr & Hj & Hlt' & Hmin & Hfirst)]]].
    + left. exists (S j), e. rewrite Hr. split_and!; [lia|done|done|].
      intros [|j'] e' Hj' He'; simpl in He'; [by simplify_eq|].
      apply (Hbefore j'); [lia|done].
    + right. split; [by constructor|]. left. split; [done|].
      intros e' He'. apply elem_of_cons in He' as [->|He']; [lia|by apply Hmin].
    + right. split; [by constructor|]. right. exists (S j), e.
      rewrite Hr. split_and!; [lia|done|lia| |].
      * intros e' He'. apply elem_of_cons in He' as [->|He']; [lia|by apply Hmin].
      * intros [|j'] e' Hj' He'; simpl in He'; [simplify_eq; lia|].
        apply (Hfirst j'); [lia|done].
Qed.

Lemma ND_AddEntry_scan_lt cache :
  cache <> [] -> (ND_AddEntry_scan cache 0 0 UINT32_MAX < length cache)%nat.
Proof.
  intros Hne.
  destruct (ND_AddEntry_scan_spec cache 0 0 UINT32_MAX)
    as [(j & e & Hr & Hj & _)|[_ [[Hr _]|(j & e & Hr & Hj & _)]]]; rewrite Hr.
  - apply lookup_lt_Some in Hj. lia.
  - destruct cache; [done|]. simpl. lia.
  - apply lookup_lt_Some in Hj. lia.
Qed.

(** X16: replacement policy of the neighbor cache.  add_entry with
    non-NULL arguments always returns true and rewrites exactly one
    slot, keeping the reachability tag of that slot: the first invalid
    slot if the cache has one; otherwise, with 32-bit stamps, the first
    slot among those with the least last-confirmed stamp. *)
Theorem X16_neighbor_add_replaces_oldest
    (ctx : RTNET_Context_t) (ip : RTNET_IPv6Addr_t) (mac : RTNET_MACAddr_t) (now : Z) :
  neighbor_cache ctx <> [] ->
  Forall (fun e => last_confirmed_ms e <= UINT32_MAX) (neighbor_cache ctx) ->
  exists i old,
    RTNET_ND_AddEntry ctx (Some ip) (Some mac) now
      = (true, set_neighbor_cache ctx
                 (<[i := mkNeighbor ip mac (nb_state old) now true]> (neighbor_cache ctx)))
    /\ neighbor_cache ctx !! i = Some old
    /\ ((nb_valid old = false
         /\ forall j e, (j < i)%nat -> neighbor_cache ctx !! j = Some e -> nb_valid e = true)
        \/ (Forall (fun e => nb_valid e = true) (neighbor_cache ctx)
            /\ (forall e, e ∈ neighbor_cache ctx ->
                          last_confirmed_ms old <= last_confirmed_ms e)
            /\ forall j e, (j < i)%nat -> neighbor_cache ctx !! j = Some e ->
                           last_confirmed_ms old < last_confirmed_ms e)).
Proof.
  intros Hne Hstamps. unfold RTNET_ND_AddEntry.
  pose proof (ND_AddEntry_scan_lt _ Hne) as Hlt.
  set (i := ND_AddEntry_scan (neighbor_cache ctx) 0 0 UINT32_MAX) in *.
  destruct (lookup_lt_is_Some_2 _ _ Hlt) as [old Hold].
  exists i, old. split_and!; [|done|].
  - do 2 f_equal. apply list_eq. intros j.
    destruct (decide (j = i)) as [->|Hji].
    + by rewrite list_lookup_alter_eq, list_lookup_insert_eq, Hold by done.
    + by rewrite list_lookup_alter_ne, list_lookup_insert_ne by done.
  - destruct (ND_AddEntry_scan_spec (neighbor_cache ctx) 0 0 UINT32_MAX)
      as [(j & e & Hr & Hj & Hinv & Hbefore)
         |[Hall [[Hr Hmin]|(j & e & Hr & Hj & Hlt' & Hmin & Hfirst)]]]; fold i in Hr.
    + simpl in Hr. subst j. left. split; [congruence|done].
    + right. split; [done|].
      assert (Hmax : forall e, e ∈ neighbor_cache ctx -> last_confirmed_ms e = UINT32_MAX).
      { intros e He. specialize (Hmin e He).
        apply list_elem_of_lookup_1 in He as [k Hk].
        pose proof (Forall_lookup_1 _ _ _ _ Hstamps Hk) as Hle. simpl in Hle. lia. }
      rewrite (Hmax old) by (by eapply list_elem_of_lookup_2).
      split.
      * intros e He. rewrite (Hmax e He). lia.
      * intros j e Hj. lia.
    + simpl in Hr. subst j. assert (e = old) as -> by congruence.
      right. split_and!; done.
Qed.

Lemma X16_neighbor_add_replaces_oldest_witness :
  last_confirmed_ms <$> neighbor_cache full_neighbor_ctx
    = [300; 310; 320; 330; 340; 150; 150; 160; 170; 180; 190; 200; 210; 220; 230; 240]
  /\ RTNET_ND_AddEntry full_neighbor_ctx (Some peer_link_local) (Some scenario_mac) 500
     = (true, set_neighbor_cache full_neighbor_ctx
                (<[5%nat := mkNeighbor peer_link_local scenario_mac 0 500 true]>
                   (neighbor_cache full_neighbor_ctx)))
  /\ exists i old,
       RTNET_ND_AddEntry full_neighbor_ctx (Some peer_link_local) (Some scenario_mac) 500
         = (true, set_neighbor_cache full_neighbor_ctx
                    (<[i := mkNeighbor peer_link_local scenario_mac (nb_state old) 500 true]>
                       (neighbor_cache full_neighbor_ctx)))
       /\ neighbor_cache full_neighbor_ctx !! i = Some old
       /\ ((nb_valid old = false
            /\ forall j e, (j < i)%nat -> neighbor_cache full_neighbor_ctx !! j = Some e ->
                           nb_valid e = true)
           \/ (Forall (fun e => nb_valid e = true) (neighbor_cache full_neighbor_ctx)
               /\ (forall e, e ∈ neighbor_cache full_neighbor_ctx ->
                             last_confirmed_ms old <= last_confirmed_ms e)
               /\ forall j e, (j < i)%nat -> neighbor_cache full_neighbor_ctx !! j = Some e ->
                              last_confirmed_ms old < last_confirmed_ms e)).
Proof.
  split; [vm_compute; reflexivity|]. split; [vm_compute; reflexivity|].
  apply (X16_neighbor_add_replaces_oldest full_neighbor_ctx peer_link_local scenario_mac 500).
  - vm_compute. discriminate.
  - apply Forall_lookup_2. intros k e Hk.
    assert (Hs : (last_confirmed_ms <$> neighbor_cache full_neighbor_ctx) !! k
                 = Some (last_confirmed_ms e)) by (by rewrite list_lookup_fmap, Hk).
    clear Hk. revert Hs. cbv beta. unfold UINT32_MAX.
    generalize (last_confirmed_ms e). intros t Hs. vm_compute in Hs.
    do 16 (destruct k as [|k]; [injection Hs as <-; lia|]). discriminate Hs.
Defined.

#[local] Arguments RTNET_IPv6_AddressEqual : simpl never.

(** The slot add_entry writes. *)
Lemma ND_AddEntry_slot ctx ip mac now :
  neighbor_cache ctx <> [] ->
  exists i old,
    (i < length (neighbor_cache ctx))%nat
    /\ neighbor_cache ctx !! i = Some old
    /\ neighbor_cache (snd (RTNET_ND_AddEntry ctx (Some ip) (Some mac) now)) !! i
       = Some (mkNeighbor ip mac (nb_state old) now true)
    /\ forall j, j <> i ->
         neighbor_cache (snd (RTNET_ND_AddEntry ctx (Some ip) (Some mac) now)) !! j
         = neighbor_cache ctx !! j.
Proof.
  intros Hne. pose proof (ND_AddEntry_scan_lt _ Hne) as Hlt.
  unfold RTNET_ND_AddEntry. simpl.
  set (i := ND_AddEntry_scan (neighbor_cache ctx) 0 0 UINT32_MAX) in *.
  destruct (lookup_lt_is_Some_2 _ _ Hlt) as [old Hold].
  exists i, old. split_and!; [done|done| |].
  - by rewrite list_lookup_alter_eq, Hold.
  - intros j Hj. by rewrite list_lookup_alter_ne.
Qed.

(** What a neighbor lookup does to the cache and to the caller's cell. *)
Lemma ND_Lookup_outcomes ctx ip cell now :
  (fst (fst (RTNET_ND_Lookup ctx (Some ip) (Some cell) now)) = false
   /\ RTNET_ND_Lookup ctx (Some ip) (Some cell) now = (false, ctx, Some cell)
   /\ forall e, e ∈ neighbor_cache ctx -> nb_valid e = true ->
                RTNET_IPv6_AddressEqual (Some (nb_ipv6_addr e)) (Some ip) = false)
  \/ (exists i e,
        neighbor_cache ctx !! i = Some e /\ nb_valid e = true
        /\ RTNET_IPv6_AddressEqual (Some (nb_ipv6_addr e)) (Some ip) = true
        /\ (forall j e', (j < i)%nat -> neighbor_cache ctx !! j = Some e' ->
              nb_valid e' && RTNET_IPv6_AddressEqual (Some (nb_ipv6_addr e')) (Some ip)
              = false)
        /\ RTNET_ND_Lookup ctx (Some ip) (Some cell) now
           = (true,
              set_neighbor_cache ctx
                (<[i := mkNeighbor (nb_ipv6_addr e) (nb_mac_addr e) (nb_state e) now true]>
                   (neighbor_cache ctx)),
              Some (nb_mac_addr e))).
Proof.
  unfold RTNET_ND_Lookup.
  destruct (first_index _ _) as [i|] eqn:Hi.
  - right. destruct (first_index_Some _ _ _ Hi) as (e & He & Htest & Hbefore).
    apply andb_true_iff in Htest as [Hv Heq].
    exists i, e. split_and!; [done|done|done|done|].
    rewrite He. simpl. do 3 f_equal. apply list_eq. intros j.
    destruct (decide (j = i)) as [->|Hji].
    + rewrite list_lookup_alter_eq, list_lookup_insert_eq, He by (by eapply lookup_lt_Some).
      simpl. by rewrite Hv.
    + by rewrite list_lookup_alter_ne, list_lookup_insert_ne by done.
  - left. split_and!; [done|done|].
    intros e He Hv. pose proof (first_index_None _ _ Hi e He) as Ht. cbv beta in Ht.
    rewrite Hv, andb_true_l in Ht. exact Ht.
Qed.

(** X15: insert then look up.  After add_entry(ip, mac) on a non-empty
    cache, a lookup of ip is a hit.  When the cache held no valid entry
    for ip before, the MAC address the lookup delivers is the one just
    added. *)
Theorem X15_neighbor_add_then_lookup
    (ctx : RTNET_Context_t) (ip : RTNET_IPv6Addr_t) (mac cell : RTNET_MACAddr_t)
    (now now' : Z) :
  neighbor_cache ctx <> [] ->
  fst (RTNET_ND_AddEntry ctx (Some ip) (Some mac) now) = true
  /\ fst (fst (RTNET_ND_Lookup (snd (RTNET_ND_AddEntry ctx (Some ip) (Some mac) now))
                               (Some ip) (Some cell) now')) = true
  /\ ((forall e, e ∈ neighbor_cache ctx -> nb_valid e = true ->
                 RTNET_IPv6_AddressEqual (Some (nb_ipv6_addr e)) (Some ip) = false) ->
      snd (RTNET_ND_Lookup (snd (RTNET_ND_AddEntry ctx (Some ip) (Some mac) now))
                           (Some ip) (Some cell) now') = Some mac).
Proof.
  intros Hne. split; [done|].
  destruct (ND_AddEntry_slot ctx ip mac now Hne) as (i & old & Hi & Hold & Hnew & Hothers).
  set (ctx1 := snd (RTNET_ND_AddEntry ctx (Some ip) (Some mac) now)) in *.
  destruct (ND_Lookup_outcomes ctx1 ip cell now')
    as [(_ & _ & Hmiss)|(k & e & Hk & Hv & Heq & Hbefore & Hcall)].
  - exfalso.
    assert (Hin : mkNeighbor ip mac (nb_state old) now true ∈ neighbor_cache ctx1)
      by (by eapply list_elem_of_lookup_2).
    specialize (Hmiss _ Hin eq_refl). simpl in Hmiss.
    by rewrite AddressEqual_refl in Hmiss.
  - rewrite Hcall. split; [done|]. intros Hfresh. simpl.
    destruct (decide (k = i)) as [->|Hki].
    + rewrite Hnew in Hk. by injection Hk as <-.
    + exfalso. rewrite Hothers in Hk by done.
      rewrite (Hfresh e) in Heq; [done| |done]. by eapply list_elem_of_lookup_2.
Qed.

Lemma X15_neighbor_add_then_lookup_witness :
  fst (RTNET_ND_AddEntry fresh_ctx (Some peer_link_local) (Some scenario_mac) 50) = true
  /\ fst (fst (RTNET_ND_Lookup
                 (snd (RTNET_ND_AddEntry fresh_ctx (Some peer_link_local)
                                         (Some scenario_mac) 50))
                 (Some peer_link_local) (Some zero_mac) 60)) = true
  /\ snd (RTNET_ND_Lookup
            (snd (RTNET_ND_AddEntry fresh_ctx (Some peer_link_local) (Some scenario_mac) 50))
            (Some peer_link_local) (Some zero_mac) 60) = Some scenario_mac.
Proof.
  destruct (X15_neighbor_add_then_lookup fresh_ctx peer_link_local scenario_mac zero_mac
              50 60) as (H1 & H2 & H3); [discriminate|].
  split; [exact H1|]. split; [exact H2|]. apply H3.
  intros e He Hv. exfalso.
  change (neighbor_cache fresh_ctx) with (replicate 16%nat zero_neighbor) in He.
  apply list_elem_of_lookup_1 in He as [k Hk].
  apply lookup_replicate_1 in Hk as [-> _]. discriminate Hv.
Defined.



(** ** TCP-Lite: handles *)

Lemma TCP_Connect_ok ctx dest_addr dest_port cell now ctx1 h :
  RTNET_TCP_Connect ctx dest_addr dest_port cell now = (RTNET_OK, ctx1, h) ->
  exists dest i old,
    dest_addr = Some dest /\ h = Some (Z.of_nat i)
    /\ tcp_connections ctx !! i = Some old /\ conn_in_use old = false
    /\ tcp_connections ctx1
       = <[i := mkConn (local_ipv6 ctx) dest (next_ephemeral_port ctx) dest_port
                       RTNET_TCP_ESTABLISHED 0 0 0 0 0 0 now true]> (tcp_connections ctx).
Proof.
  unfold RTNET_TCP_Connect. destruct (negb (initialized ctx)); [done|].
  destruct dest_addr as [dest|]; [|done]. destruct cell; [|done].
  destruct (dest_port =? 0); [done|]. destruct (RTNET_FindRoute _ _); [|done].
  destruct (first_index _ _) as [i|] eqn:Hi; [|done].
  intros [= <- <-]. destruct (first_index_Some _ _ _ Hi) as (old & Hold & Htest & _).
  exists dest, i, old. split_and!; try done. by destruct (conn_in_use old).
Qed.

Lemma TCP_Send_in_use ctx i conn data len now :
  (i < RTNET_MAX_TCP_CONNECTIONS)%nat ->
  tcp_connections ctx !! i = Some conn -> conn_in_use conn = true -> len <> 0 ->
  fst (RTNET_TCP_Send ctx (Z.of_nat i) (Some data) len now) = RTNET_OK
  /\ tcp_connections (snd (RTNET_TCP_Send ctx (Z.of_nat i) (Some data) len now))
     = <[i := mkConn (local_addr conn) (remote_addr conn) (local_port conn)
                     (remote_port conn) (conn_state conn)
                     (send_next conn) (send_unack conn) (recv_next conn)
                     (send_window conn) (recv_window conn) (retransmit_count conn)
                     now true]> (tcp_connections ctx).
Proof.
  intros Hi Hconn Huse Hlen. unfold RTNET_TCP_Send, RTNET_MAX_TCP_CONNECTIONS in *.
  destruct (len =? 0) eqn:E; [lia|].
  destruct (Z.of_nat i >=? Z.of_nat 4) eqn:E4; [apply Z.geb_le in E4; lia|].
  rewrite Nat2Z.id, Hconn, Huse. simpl. done.
Qed.

Lemma TCP_Send_free ctx i conn data len now :
  (i < RTNET_MAX_TCP_CONNECTIONS)%nat ->
  tcp_connections ctx !! i = Some conn -> conn_in_use conn = false -> len <> 0 ->
  RTNET_TCP_Send ctx (Z.of_nat i) (Some data) len now = (RTNET_ERR_CONNECTION, ctx).
Proof.
  intros Hi Hconn Huse Hlen. unfold RTNET_TCP_Send, RTNET_MAX_TCP_CONNECTIONS in *.
  destruct (len =? 0) eqn:E; [lia|].
  destruct (Z.of_nat i >=? Z.of_nat 4) eqn:E4; [apply Z.geb_le in E4; lia|].
  by rewrite Nat2Z.id, Hconn, Huse.
Qed.

Lemma TCP_Close_in_use ctx i conn :
  (i < RTNET_MAX_TCP_CONNECTIONS)%nat ->
  tcp_connections ctx !! i = Some conn -> conn_in_use conn = true ->
  fst (RTNET_TCP_Close ctx (Z.of_nat i)) = RTNET_OK
  /\ tcp_connections (snd (RTNET_TCP_Close ctx (Z.of_nat i)))
     = <[i := mkConn (local_addr conn) (remote_addr conn) (local_port conn)
                     (remote_port conn) RTNET_TCP_CLOSED
                     (send_next conn) (send_unack conn) (recv_next conn)
                     (send_window conn) (recv_window conn) (retransmit_count conn)
                     (last_activity_ms conn) false]> (tcp_connections ctx).
Proof.
  intros Hi Hconn Huse. unfold RTNET_TCP_Close, RTNET_MAX_TCP_CONNECTIONS in *.
  destruct (Z.of_nat i >=? Z.of_nat 4) eqn:E4; [apply Z.geb_le in E4; lia|].
  by rewrite Nat2Z.id, Hconn, Huse.
Qed.

Lemma TCP_Close_free ctx i conn :
  (i < RTNET_MAX_TCP_CONNECTIONS)%nat ->
  tcp_connections ctx !! i = Some conn -> conn_in_use conn = false ->
  RTNET_TCP_Close ctx (Z.of_nat i) = (RTNET_ERR_CONNECTION, ctx).
Proof.
  intros Hi Hconn Huse. unfold RTNET_TCP_Close, RTNET_MAX_TCP_CONNECTIONS in *.
  destruct (Z.of_nat i >=? Z.of_nat 4) eqn:E4; [apply Z.geb_le in E4; lia|].
  by rewrite Nat2Z.id, Hconn, Huse.
Qed.

(** A connection slot that is free stays free under every public
    operation other than tcp_connect. *)
Lemma step_keeps_slot_free op ctx i :
  is_tcp_connect op = false ->
  (i < RTNET_MAX_TCP_CONNECTIONS)%nat ->
  (exists c, tcp_connections ctx !! i = Some c /\ conn_in_use c = false) ->
  exists c, tcp_connections (step op ctx) !! i = Some c /\ conn_in_use c = false.
Proof.
  intros Hop Hi (c & Hc & Hfree). destruct op; simpl in *; try discriminate Hop.
  - destruct ip as [ip|], mac as [mac|]; try by exists c.
    exists zero_conn. split; [|done].
    change (tcp_connections (snd (RTNET_Initialize ctx (Some ip) (Some mac)
                                                   now_seq now_route)))
      with (replicate RTNET_MAX_TCP_CONNECTIONS zero_conn).
    by apply lookup_replicate_2.
  - exists c. split; [|done]. unfold RTNET_ProcessRxPacket. destruct data; [|done].
    destruct (len =? 0); [done|]. by destruct (len <? 14 + 40).
  - exists c. split; [|done]. unfold RTNET_UDP_Send.
    destruct (negb (initialized ctx)); [done|].
    destruct dest_addr; [|done]. destruct payload; [|done].
    destruct (_ || _); [done|]. destruct (payload_len >? RTNET_MTU_SIZE); [done|].
    unfold udp_send_tail, udp_assign_port.
    destruct (RTNET_FindRoute _ _); [|by destruct (src_port =? 0)].
    destruct (first_index _ _); by destruct (src_port =? 0).
  - unfold RTNET_TCP_Send. destruct data; [|by exists c].
    destruct (len =? 0); [by exists c|]. destruct (_ >=? _); [by exists c|].
    destruct (tcp_connections ctx !! Z.to_nat connection_id) as [conn|] eqn:Hk;
      [|by exists c].
    destruct (conn_in_use conn) eqn:Huse; simpl; [|by exists c].
    exists c. split; [|done]. rewrite list_lookup_insert_ne; [done|].
    intros Heq. rewrite Heq in Hk. congruence.
  - unfold RTNET_TCP_Close. destruct (_ >=? _); [by exists c|].
    destruct (tcp_connections ctx !! Z.to_nat connection_id) as [conn|] eqn:Hk;
      [|by exists c].
    destruct (conn_in_use conn) eqn:Huse; simpl; [|by exists c].
    destruct (decide (Z.to_nat connection_id = i)) as [->|Hne].
    + eexists. split; [apply list_lookup_insert_eq; by eapply lookup_lt_Some|done].
    + exists c. by rewrite list_lookup_insert_ne.
  - exists c. split; [|done]. unfold RTNET_AddRoute. destruct dst; [|done].
    destruct (plen >? 128); [done|]. by destruct (first_index _ _).
  - by exists c.
  - exists c. split; [|done]. unfold RTNET_mDNS_Announce. destruct name; [|done].
    by destruct (_ || _).
  - by exists c.
  - exists (age_conn now c). unfold RTNET_PeriodicTask. simpl.
    rewrite list_lookup_fmap, Hc. split; [done|]. unfold age_conn. by rewrite Hfree.
Qed.

Lemma run_keeps_slot_free ops ctx i :
  Forall (fun op => is_tcp_connect op = false) ops ->
  (i < RTNET_MAX_TCP_CONNECTIONS)%nat ->
  (exists c, tcp_connections ctx !! i = Some c /\ conn_in_use c = false) ->
  exists c, tcp_connections (run ops ctx) !! i = Some c /\ conn_in_use c = false.
Proof.
  intros Hops Hi. revert ctx. induction Hops as [|op ops Hop _ IH]; intros ctx Hfree.
  - exact Hfree.
  - apply (IH (step op ctx)). by apply step_keeps_slot_free.
Qed.

(** X18: life cycle of a handle.  When tcp_connect succeeds on a
    context whose connection table has its four slots, the handle it
    returns is below 4, a tcp_send of a non-empty buffer on it succeeds
    and a tcp_close after that succeeds.  After the close, tcp_send and
    tcp_close on the same handle fail with the connection error, directly
    and after any further sequence of public operations that contains
    no tcp_connect. *)
Theorem X18_tcp_handle_life_cycle
    (ctx ctx1 : RTNET_Context_t) (dest_addr : option RTNET_IPv6Addr_t)
    (dest_port h len t0 t1 t2 : Z) (cell : option Z) (data : list Z)
    (ops : list operation) :
  length (tcp_connections ctx) = RTNET_MAX_TCP_CONNECTIONS ->
  RTNET_TCP_Connect ctx dest_addr dest_port cell t0 = (RTNET_OK, ctx1, Some h) ->
  len <> 0 ->
  Forall (fun op => is_tcp_connect op = false) ops ->
  0 <= h < 4
  /\ fst (RTNET_TCP_Send ctx1 h (Some data) len t1) = RTNET_OK
  /\ fst (RTNET_TCP_Close (snd (RTNET_TCP_Send ctx1 h (Some data) len t1)) h) = RTNET_OK
  /\ fst (RTNET_TCP_Send
            (run ops
               (snd (RTNET_TCP_Close (snd (RTNET_TCP_Send ctx1 h (Some data) len t1)) h)))
            h (Some data) len t2) = RTNET_ERR_CONNECTION
  /\ fst (RTNET_TCP_Close
            (run ops
               (snd (RTNET_TCP_Close (snd (RTNET_TCP_Send ctx1 h (Some data) len t1)) h)))
            h)
     = RTNET_ERR_CONNECTION.
Proof.
  intros Hsize Hconnect Hlen Hops.
  destruct (TCP_Connect_ok _ _ _ _ _ _ _ Hconnect)
    as (dest & i & old & -> & [= ->] & Hold & _ & Htable).
  assert (Hi : (i < RTNET_MAX_TCP_CONNECTIONS)%nat).
  { rewrite <- Hsize. by eapply lookup_lt_Some. }
  assert (Hi' : (i < length (tcp_connections ctx))%nat) by (by eapply lookup_lt_Some).
  split; [unfold RTNET_MAX_TCP_CONNECTIONS in Hi; lia|].
  assert (H1 : tcp_connections ctx1 !! i
               = Some (mkConn (local_ipv6 ctx) dest (next_ephemeral_port ctx) dest_port
                              RTNET_TCP_ESTABLISHED 0 0 0 0 0 0 t0 true)).
  { rewrite Htable. by apply list_lookup_insert_eq. }
  destruct (TCP_Send_in_use ctx1 i _ data len t1 Hi H1 eq_refl Hlen) as [Hs1 Ht1].
  split; [done|].
  set (ctx2 := snd (RTNET_TCP_Send ctx1 (Z.of_nat i) (Some data) len t1)) in *.
  assert (H2 : tcp_connections ctx2 !! i
               = Some (mkConn (local_ipv6 ctx) dest (next_ephemeral_port ctx) dest_port
                              RTNET_TCP_ESTABLISHED 0 0 0 0 0 0 t1 true)).
  { rewrite Ht1. simpl. apply list_lookup_insert_eq.
    by rewrite Htable, length_insert. }
  destruct (TCP_Close_in_use ctx2 i _ Hi H2 eq_refl) as [Hc Ht2].
  split; [done|].
  set (ctx3 := snd (RTNET_TCP_Close ctx2 (Z.of_nat i))) in *.
  assert (H3 : tcp_connections ctx3 !! i
               = Some (mkConn (local_ipv6 ctx) dest (next_ephemeral_port ctx) dest_port
                              RTNET_TCP_CLOSED 0 0 0 0 0 0 t1 false)).
  { rewrite Ht2. simpl. apply list_lookup_insert_eq.
    by rewrite Ht1, length_insert, Htable, length_insert. }
  destruct (run_keeps_slot_free ops ctx3 i Hops Hi) as (c & H4 & Hfree); [by eexists|].
  split.
  - by rewrite (TCP_Send_free _ i c data len t2 Hi H4 Hfree Hlen).
  - by rewrite (TCP_Close_free _ i c Hi H4 Hfree).
Qed.

Lemma X18_tcp_handle_life_cycle_witness :
  let ctx1 := snd (fst (RTNET_TCP_Connect fresh_ctx (Some peer_link_local) 80 (Some 0) 40)) in
  let ops := [OpTcpSend 0 (Some hello_payload) 15 65;
              OpTcpClose 0;
              OpUdpSend (Some peer_link_local) 12345 0 (Some hello_payload) 15
                        RTNET_QOS_NORMAL;
              OpProcessRx (Some echo_request_frame) 62;
              OpAddRoute (Some prefix_db8) 32 None 5 70;
              OpPeriodicTask 6000] in
  0 <= 0 < 4
  /\ fst (RTNET_TCP_Send ctx1 0 (Some hello_payload) 15 50) = RTNET_OK
  /\ fst (RTNET_TCP_Close (snd (RTNET_TCP_Send ctx1 0 (Some hello_payload) 15 50)) 0)
     = RTNET_OK
  /\ fst (RTNET_TCP_Send
            (run ops
               (snd (RTNET_TCP_Close
                       (snd (RTNET_TCP_Send ctx1 0 (Some hello_payload) 15 50)) 0)))
            0 (Some hello_payload) 15 60) = RTNET_ERR_CONNECTION
  /\ fst (RTNET_TCP_Close
            (run ops
               (snd (RTNET_TCP_Close
                       (snd (RTNET_TCP_Send ctx1 0 (Some hello_payload) 15 50)) 0)))
            0)
     = RTNET_ERR_CONNECTION.
Proof.
  cbv zeta.
  apply (X18_tcp_handle_life_cycle fresh_ctx _ (Some peer_link_local) 80 0 15 40 50 60
           (Some 0) hello_payload).
  - reflexivity.
  - reflexivity.
  - discriminate.
  - repeat (constructor; [reflexivity|]). constructor.
Defined.

(** X19: outcomes of tcp_connect.  It returns invalid_param exactly when
    the context is uninitialized, a pointer is NULL or the destination
    port is 0; no_route exactly when the arguments are valid and the
    lookup finds no route; no_buffer exactly when the arguments are
    valid, a route is found and every connection slot is in use.
    invalid_param and no_buffer leave the context unchanged; no_route
    only increments routing_errors; no failure writes the handle. *)
Theorem X19_tcp_connect_outcomes
    (ctx : RTNET_Context_t) (dest_addr : option RTNET_IPv6Addr_t) (dest_port : Z)
    (cell : option Z) (now : Z) :
  let r := RTNET_TCP_Connect ctx dest_addr dest_port cell now in
  (fst (fst r) = RTNET_ERR_INVALID_PARAM
   <-> initialized ctx = false \/ dest_addr = None \/ cell = None \/ dest_port = 0)
  /\ (fst (fst r) = RTNET_ERR_NO_ROUTE
      <-> initialized ctx = true /\ is_Some dest_addr /\ is_Some cell /\ dest_port <> 0
          /\ RTNET_FindRoute ctx dest_addr = None)
  /\ (fst (fst r) = RTNET_ERR_NO_BUFFER
      <-> initialized ctx = true /\ is_Some dest_addr /\ is_Some cell /\ dest_port <> 0
          /\ is_Some (RTNET_FindRoute ctx dest_addr)
          /\ Forall (fun conn => conn_in_use conn = true) (tcp_connections ctx))
  /\ (fst (fst r) = RTNET_ERR_INVALID_PARAM \/ fst (fst r) = RTNET_ERR_NO_BUFFER ->
      snd (fst r) = ctx)
  /\ (fst (fst r) = RTNET_ERR_NO_ROUTE ->
      snd (fst r) = set_stats ctx (incr_routing_errors (stats ctx)))
  /\ (fst (fst r) <> RTNET_OK -> snd r = cell).
Proof.
  cbv zeta. unfold RTNET_TCP_Connect.
  destruct (initialized ctx) eqn:Hinit; simpl; [|outcome_cases].
  destruct dest_addr as [dest|]; simpl; [|outcome_cases].
  destruct cell as [c|]; simpl; [|outcome_cases].
  destruct (dest_port =? 0) eqn:Hport; simpl.
  { apply Z.eqb_eq in Hport. outcome_cases. }
  apply Z.eqb_neq in Hport.
  destruct (FindRoute_loop dest (routing_table ctx) 0 None 0 UINT16_MAX) as [k|] eqn:Hroute;
    simpl; [|outcome_cases].
  destruct (first_index (fun conn => negb (conn_in_use conn)) (tcp_connections ctx))
    as [i|] eqn:Hi; simpl.
  - destruct (first_index_Some _ _ _ Hi) as (old & Hold & Htest & _).
    assert (Hnot : ~ Forall (fun conn => conn_in_use conn = true) (tcp_connections ctx)).
    { intros Hall. pose proof (Forall_lookup_1 _ _ _ _ Hall Hold) as Hu. simpl in Hu.
      by rewrite Hu in Htest. }
    outcome_cases.
  - assert (Hall : Forall (fun conn => conn_in_use conn = true) (tcp_connections ctx)).
    { apply Forall_lookup_2. intros j conn Hconn. apply list_elem_of_lookup_2 in Hconn.
      pose proof (first_index_None _ _ Hi conn Hconn) as Ht. simpl in Ht.
      by destruct (conn_in_use conn). }
    outcome_cases.
Qed.

Lemma X19_tcp_connect_outcomes_witness :
  fst (fst (RTNET_TCP_Connect fresh_ctx (Some peer_global) 80 (Some 0) 40))
    = RTNET_ERR_NO_ROUTE
  /\ snd (fst (RTNET_TCP_Connect fresh_ctx (Some peer_global) 80 (Some 0) 40))
     = set_stats fresh_ctx (incr_routing_errors (stats fresh_ctx)).
Proof.
  destruct (X19_tcp_connect_outcomes fresh_ctx (Some peer_global) 80 (Some 0) 40)
    as (_ & Hroute & _ & _ & Hstats & _).
  assert (H : fst (fst (RTNET_TCP_Connect fresh_ctx (Some peer_global) 80 (Some 0) 40))
              = RTNET_ERR_NO_ROUTE).
  { apply Hroute. split_and!; [reflexivity|by eexists|by eexists|discriminate|reflexivity]. }
  split; [exact H|]. exact (Hstats H).
Defined.

(** X20: idle time-out.  For a connection slot that is in use, the
    periodic task keeps it when at most 5000 ms (as a 32-bit
    difference) have passed since its last activity, and a later
    tcp_send on its handle succeeds; when more than 5000 ms have passed
    the slot is marked free and CLOSED, and tcp_send on the handle fails
    with the connection error. *)
Theorem X20_tcp_idle_timeout
    (ctx : RTNET_Context_t) (i : nat) (conn : RTNET_TCPConnection_t)
    (now len t : Z) (data : list Z) :
  (i < RTNET_MAX_TCP_CONNECTIONS)%nat ->
  tcp_connections ctx !! i = Some conn -> conn_in_use conn = true -> len <> 0 ->
  (u32 (now - last_activity_ms conn) <= 5000 ->
   tcp_connections (RTNET_PeriodicTask ctx now) !! i = Some conn
   /\ fst (RTNET_TCP_Send (RTNET_PeriodicTask ctx now) (Z.of_nat i) (Some data) len t)
      = RTNET_OK)
  /\ (5000 < u32 (now - last_activity_ms conn) ->
      (exists conn',
         tcp_connections (RTNET_PeriodicTask ctx now) !! i = Some conn'
         /\ conn_in_use conn' = false /\ conn_state conn' = RTNET_TCP_CLOSED)
      /\ fst (RTNET_TCP_Send (RTNET_PeriodicTask ctx now) (Z.of_nat i) (Some data) len t)
         = RTNET_ERR_CONNECTION).
Proof.
  intros Hi Hconn Huse Hlen.
  assert (Hlook : tcp_connections (RTNET_PeriodicTask ctx now) !! i
                  = Some (age_conn now conn)).
  { unfold RTNET_PeriodicTask. simpl. by rewrite list_lookup_fmap, Hconn. }
  split; intros Hage.
  - assert (Hkeep : age_conn now conn = conn).
    { unfold age_conn, RTNET_TCP_TIMEOUT_MS. rewrite Huse. simpl.
      destruct (u32 (now - last_activity_ms conn) >? 5000) eqn:E; [lia|done]. }
    rewrite Hkeep in Hlook. split; [done|].
    by apply (TCP_Send_in_use _ i conn data len t Hi Hlook Huse Hlen).
  - unfold age_conn, RTNET_TCP_TIMEOUT_MS in Hlook. rewrite Huse in Hlook.
    cbn [andb] in Hlook.
    destruct (u32 (now - last_activity_ms conn) >? 5000) eqn:E; [|lia].
    split; [by eexists|].
    by rewrite (TCP_Send_free _ i _ data len t Hi Hlook eq_refl Hlen).
Qed.

Lemma X20_tcp_idle_timeout_witness :
  let ctx1 := snd (fst (RTNET_TCP_Connect fresh_ctx (Some peer_link_local) 80 (Some 0) 40)) in
  fst (RTNET_TCP_Send (RTNET_PeriodicTask ctx1 5040) 0 (Some hello_payload) 15 5050)
    = RTNET_OK
  /\ fst (RTNET_TCP_Send (RTNET_PeriodicTask ctx1 5041) 0 (Some hello_payload) 15 5050)
     = RTNET_ERR_CONNECTION.
Proof.
  set (conn := mkConn scenario_ip peer_link_local 49152 80 RTNET_TCP_ESTABLISHED
                      0 0 0 0 0 0 40 true).
  split.
  - apply (X20_tcp_idle_timeout _ 0 conn 5040 15 5050 hello_payload);
      [unfold RTNET_MAX_TCP_CONNECTIONS; lia|reflexivity|reflexivity|discriminate|].
    vm_compute. discriminate.
  - apply (X20_tcp_idle_timeout _ 0 conn 5041 15 5050 hello_payload);
      [unfold RTNET_MAX_TCP_CONNECTIONS; lia|reflexivity|reflexivity|discriminate|].
    reflexivity.
Defined.

(** ** UDP transmit path: outcomes *)

Lemma UDP_Send_rejected ctx dest_addr dest_port src_port payload payload_len qos :
  ~ udp_send_accepts ctx dest_addr dest_port payload payload_len ->
  RTNET_UDP_Send ctx dest_addr dest_port src_port payload payload_len qos
    = (RTNET_ERR_INVALID_PARAM, ctx).
Proof.
  unfold udp_send_accepts, RTNET_UDP_Send. intros Hno.
  destruct (initialized ctx); [|done]. simpl.
  destruct dest_addr as [dest|]; [|done]. destruct payload as [bytes|]; [|done].
  destruct (dest_port =? 0) eqn:E1; [done|]. destruct (payload_len =? 0) eqn:E2; [done|].
  simpl. destruct (payload_len >? RTNET_MTU_SIZE) eqn:E3; [done|].
  exfalso. apply Hno. split_and!; [done|by eexists|by eexists|lia|lia|lia].
Qed.

Lemma UDP_Send_accepted ctx dest_addr dest_port src_port payload payload_len qos :
  udp_send_accepts ctx dest_addr dest_port payload payload_len ->
  exists dest,
    dest_addr = Some dest
    /\ RTNET_UDP_Send ctx dest_addr dest_port src_port payload payload_len qos
       = udp_send_tail ctx dest src_port payload_len qos.
Proof.
  intros (Hinit & [dest ->] & [bytes ->] & Hport & Hlen & Hmtu).
  exists dest. split; [done|]. by apply UDP_Send_checked.
Qed.

Lemma udp_send_accepts_dec ctx dest_addr dest_port payload payload_len :
  udp_send_accepts ctx dest_addr dest_port payload payload_len
  \/ ~ udp_send_accepts ctx dest_addr dest_port payload payload_len.
Proof.
  unfold udp_send_accepts.
  destruct (initialized ctx); [|right; by intros [? _]].
  destruct dest_addr; [|right; by intros (_ & [? ?] & _)].
  destruct payload; [|right; by intros (_ & _ & [? ?] & _)].
  destruct (decide (dest_port = 0)); [right; by intros (_ & _ & _ & ? & _)|].
  destruct (decide (payload_len = 0)); [right; by intros (_ & _ & _ & _ & ? & _)|].
  destruct (decide (payload_len <= RTNET_MTU_SIZE));
    [|right; by intros (_ & _ & _ & _ & _ & ?)].
  left. split_and!; try done; by eexists.
Qed.

(** X22: outcomes of udp_send.  A call that returns invalid_param leaves
    the whole context unchanged.  With accepted arguments the call
    returns no_route exactly when the lookup finds no route, no_buffer
    exactly when a route is found and every TX buffer is in use, and ok
    exactly when a route is found and some TX buffer is free.  no_route
    adds one to routing_errors and no_buffer adds one to tx_dropped
    (32-bit counters); neither touches the TX pool or another
    counter. *)
Theorem X22_udp_send_outcomes
    (ctx : RTNET_Context_t) (dest_addr : option RTNET_IPv6Addr_t)
    (dest_port src_port : Z) (payload : option (list Z)) (payload_len qos : Z) :
  let r := RTNET_UDP_Send ctx dest_addr dest_port src_port payload payload_len qos in
  (fst r = RTNET_ERR_INVALID_PARAM -> snd r = ctx)
  /\ (fst r = RTNET_ERR_NO_ROUTE
      <-> udp_send_accepts ctx dest_addr dest_port payload payload_len
          /\ RTNET_FindRoute ctx dest_addr = None)
  /\ (fst r = RTNET_ERR_NO_BUFFER
      <-> udp_send_accepts ctx dest_addr dest_port payload payload_len
          /\ is_Some (RTNET_FindRoute ctx dest_addr)
          /\ Forall (fun buf => buf_in_use buf = true) (tx_buffers ctx))
  /\ (fst r = RTNET_OK
      <-> udp_send_accepts ctx dest_addr dest_port payload payload_len
          /\ is_Some (RTNET_FindRoute ctx dest_addr)
          /\ exists buf, buf ∈ tx_buffers ctx /\ buf_in_use buf = false)
  /\ (fst r = RTNET_ERR_NO_ROUTE ->
      stats (snd r) = incr_routing_errors (stats ctx)
      /\ tx_buffers (snd r) = tx_buffers ctx)
  /\ (fst r = RTNET_ERR_NO_BUFFER ->
      stats (snd r) = incr_tx_dropped (stats ctx)
      /\ tx_buffers (snd r) = tx_buffers ctx).
Proof.
  cbv zeta.
  destruct (udp_send_accepts_dec ctx dest_addr dest_port payload payload_len)
    as [Hacc|Hrej].
  2:{ rewrite (UDP_Send_rejected _ _ _ _ _ _ _ Hrej). simpl. outcome_cases. }
  destruct (UDP_Send_accepted ctx dest_addr dest_port src_port payload payload_len qos Hacc)
    as (dest & -> & ->).
  pose proof (udp_send_tail_not_invalid ctx dest src_port payload_len qos) as Hni.
  unfold udp_send_tail in *.
  rewrite (FindRoute_routing_table _ ctx) in * by apply udp_assign_port_routing_table.
  rewrite udp_assign_port_tx_buffers in *.
  destruct (RTNET_FindRoute ctx (Some dest)) as [k|] eqn:Hroute.
  2:{ simpl. rewrite udp_assign_port_stats, udp_assign_port_tx_buffers. outcome_cases. }
  destruct (first_index (fun buf => negb (buf_in_use buf)) (tx_buffers ctx))
    as [i|] eqn:Hi.
  - destruct (first_index_Some _ _ _ Hi) as (old & Hold & Htest & _).
    assert (Hfree : exists buf, buf ∈ tx_buffers ctx /\ buf_in_use buf = false).
    { exists old. split; [by eapply list_elem_of_lookup_2|by destruct (buf_in_use old)]. }
    assert (Hnot : ~ Forall (fun buf => buf_in_use buf = true) (tx_buffers ctx)).
    { intros Hall. pose proof (Forall_lookup_1 _ _ _ _ Hall Hold) as Hu. simpl in Hu.
      by rewrite Hu in Htest. }
    simpl. outcome_cases.
  - assert (Hall : Forall (fun buf => buf_in_use buf = true) (tx_buffers ctx)).
    { apply Forall_lookup_2. intros j buf Hbuf. apply list_elem_of_lookup_2 in Hbuf.
      pose proof (first_index_None _ _ Hi buf Hbuf) as Ht. simpl in Ht.
      by destruct (buf_in_use buf). }
    assert (Hnone : ~ exists buf, buf ∈ tx_buffers ctx /\ buf_in_use buf = false).
    { intros (buf & Hin & Hf). apply list_elem_of_lookup_1 in Hin as [j Hj].
      pose proof (Forall_lookup_1 _ _ _ _ Hall Hj) as Hu. simpl in Hu. congruence. }
    simpl. rewrite udp_assign_port_stats, udp_assign_port_tx_buffers. outcome_cases.
Qed.

Lemma X22_udp_send_outcomes_witness :
  fst (RTNET_UDP_Send fresh_ctx (Some peer_global) 12345 0 (Some hello_payload) 15
                      RTNET_QOS_NORMAL) = RTNET_ERR_NO_ROUTE
  /\ stats (snd (RTNET_UDP_Send fresh_ctx (Some peer_global) 12345 0 (Some hello_payload) 15
                                RTNET_QOS_NORMAL))
     = incr_routing_errors (stats fresh_ctx).
Proof.
  destruct (X22_udp_send_outcomes fresh_ctx (Some peer_global) 12345 0 (Some hello_payload)
              15 RTNET_QOS_NORMAL) as (_ & Hroute & _ & _ & Hstats & _).
  assert (H : fst (RTNET_UDP_Send fresh_ctx (Some peer_global) 12345 0 (Some hello_payload)
                                  15 RTNET_QOS_NORMAL) = RTNET_ERR_NO_ROUTE).
  { apply Hroute. split; [|reflexivity].
    split_and!; [reflexivity|by eexists|by eexists|discriminate|discriminate|].
    unfold RTNET_MTU_SIZE. lia. }
  split; [exact H|]. exact (proj1 (Hstats H)).
Defined.

(** X23: the ephemeral-port counter under udp_send.  A call that is not
    rejected with invalid_param and has sport = 0 advances the counter
    by one, from 0xFFFF to 49152, also when it fails with no_route or
    no_buffer; every other call leaves the counter alone.  A counter
    inside 49152..65535 stays inside that range. *)
Theorem X23_udp_send_port_counter
    (ctx : RTNET_Context_t) (dest_addr : option RTNET_IPv6Addr_t)
    (dest_port src_port : Z) (payload : option (list Z)) (payload_len qos : Z) :
  let r := RTNET_UDP_Send ctx dest_addr dest_port src_port payload payload_len qos in
  (fst r <> RTNET_ERR_INVALID_PARAM -> src_port = 0 ->
   next_ephemeral_port (snd r)
   = if u16 (next_ephemeral_port ctx + 1) =? 0 then 49152
     else u16 (next_ephemeral_port ctx + 1))
  /\ (fst r = RTNET_ERR_INVALID_PARAM \/ src_port <> 0 ->
      next_ephemeral_port (snd r) = next_ephemeral_port ctx)
  /\ (49152 <= next_ephemeral_port ctx <= 65535 ->
      49152 <= next_ephemeral_port (snd r) <= 65535).
Proof.
  cbv zeta.
  destruct (udp_send_accepts_dec ctx dest_addr dest_port payload payload_len)
    as [Hacc|Hrej].
  2:{ rewrite (UDP_Send_rejected _ _ _ _ _ _ _ Hrej). simpl. outcome_cases. }
  destruct (UDP_Send_accepted ctx dest_addr dest_port src_port payload payload_len qos Hacc)
    as (dest & -> & ->).
  pose proof (udp_send_tail_not_invalid ctx dest src_port payload_len qos) as Hni.
  assert (Hport : next_ephemeral_port (snd (udp_send_tail ctx dest src_port payload_len qos))
                  = next_ephemeral_port (snd (udp_assign_port ctx src_port))).
  { unfold udp_send_tail. destruct (RTNET_FindRoute _ _); [|done].
    by destruct (first_index _ _). }
  rewrite Hport. unfold udp_assign_port.
  destruct (src_port =? 0) eqn:Hs; simpl.
  - apply Z.eqb_eq in Hs. split_and!; [done|by intros [?|?]|].
    intros Hrange. unfold u16.
    destruct (decide (next_ephemeral_port ctx = 65535)) as [->|Hne]; [simpl; lia|].
    rewrite Z.mod_small by lia.
    destruct (next_ephemeral_port ctx + 1 =? 0) eqn:E; lia.
  - apply Z.eqb_neq in Hs. split_and!; [done|done|done].
Qed.

Lemma X23_udp_send_port_counter_witness :
  next_ephemeral_port
    (snd (RTNET_UDP_Send fresh_ctx (Some peer_global) 12345 0 (Some hello_payload) 15
                         RTNET_QOS_NORMAL)) = 49153.
Proof.
  apply (proj1 (X23_udp_send_port_counter fresh_ctx (Some peer_global) 12345 0
                  (Some hello_payload) 15 RTNET_QOS_NORMAL)).
  - discriminate.
  - reflexivity.
Defined.

(** X24: right after a successful initialization, whatever the context
    held before, udp_send to any destination inside fe80::/10 with a
    non-zero port and a payload of 1..1500 bytes succeeds, and so does
    tcp_connect to it. *)
Theorem X24_link_local_reachable_after_init
    (ctx : RTNET_Context_t) (ip dest : RTNET_IPv6Addr_t) (mac : RTNET_MACAddr_t)
    (now_seq now_route dest_port src_port payload_len qos cell now : Z)
    (bytes : list Z) :
  RTNET_IPv6_PrefixMatch (Some dest) (Some link_local_prefix) 10 = true ->
  dest_port <> 0 -> 1 <= payload_len <= 1500 ->
  fst (RTNET_Initialize ctx (Some ip) (Some mac) now_seq now_route) = RTNET_OK
  /\ fst (RTNET_UDP_Send (snd (RTNET_Initialize ctx (Some ip) (Some mac) now_seq now_route))
                         (Some dest) dest_port src_port (Some bytes) payload_len qos)
     = RTNET_OK
  /\ fst (fst (RTNET_TCP_Connect
                 (snd (RTNET_Initialize ctx (Some ip) (Some mac) now_seq now_route))
                 (Some dest) dest_port (Some cell) now))
     = RTNET_OK.
Proof.
  intros Hcover Hport Hlen. split; [done|].
  set (c := snd (RTNET_Initialize ctx (Some ip) (Some mac) now_seq now_route)).
  assert (Hroute : is_Some (RTNET_FindRoute c (Some dest))).
  { apply (FindRoute_complete c dest 0
             (mkRoute link_local_prefix zero_addr zero_addr 10 1 now_route true)).
    - unfold c. by rewrite Initialize_routing_table.
    - by split.
    - simpl. lia.
    - left. simpl. lia. }
  split.
  - rewrite UDP_Send_checked by (try done; unfold RTNET_MTU_SIZE; lia).
    apply udp_send_tail_ok; [done|].
    exists zero_buffer. split; [|done]. apply list_elem_of_here.
  - destruct Hroute as [k Hk]. unfold RTNET_TCP_Connect.
    change (initialized c) with true. cbn [negb]. rewrite Hk.
    destruct (dest_port =? 0) eqn:E; [lia|]. reflexivity.
Qed.

Lemma X24_link_local_reachable_after_init_witness :
  fst (RTNET_UDP_Send fresh_ctx (Some peer_link_local) 12345 0 (Some hello_payload) 15
                      RTNET_QOS_NORMAL) = RTNET_OK
  /\ fst (fst (RTNET_TCP_Connect fresh_ctx (Some peer_link_local) 80 (Some 0) 40)) = RTNET_OK.
Proof.
  destruct (X24_link_local_reachable_after_init zero_ctx scenario_ip peer_link_local
              scenario_mac 10 20 12345 0 15 RTNET_QOS_NORMAL 0 40 hello_payload)
    as (_ & Hudp & _); [reflexivity|discriminate|lia|].
  destruct (X24_link_local_reachable_after_init zero_ctx scenario_ip peer_link_local
              scenario_mac 10 20 80 0 15 RTNET_QOS_NORMAL 0 40 hello_payload)
    as (_ & _ & Htcp); [reflexivity|discriminate|lia|].
  split; [exact Hudp|exact Htcp].
Defined.

(** ** Invariants of the reachable states *)

Lemma step_quiet_counters op ctx :
  rx_errors (stats ctx) = 0 /\ tx_errors (stats ctx) = 0
  /\ rx_dropped (stats ctx) = 0 /\ checksum_errors (stats ctx) = 0 ->
  rx_errors (stats (step op ctx)) = 0 /\ tx_errors (stats (step op ctx)) = 0
  /\ rx_dropped (stats (step op ctx)) = 0 /\ checksum_errors (stats (step op ctx)) = 0.
Proof.
  intros Hinv. destruct op; simpl.
  - by destruct ip as [ip|], mac as [mac|].
  - unfold RTNET_ProcessRxPacket. destruct data; [|done].
    destruct (len =? 0); [done|]. by destruct (len <? 14 + 40).
  - unfold RTNET_UDP_Send. destruct (negb (initialized ctx)); [done|].
    destruct dest_addr; [|done]. destruct payload; [|done].
    destruct (_ || _); [done|]. destruct (payload_len >? RTNET_MTU_SIZE); [done|].
    unfold udp_send_tail.
    destruct (RTNET_FindRoute _ _); [|simpl; by rewrite udp_assign_port_stats].
    destruct (first_index _ _); simpl; by rewrite udp_assign_port_stats.
  - unfold RTNET_TCP_Connect. destruct (negb (initialized ctx)); [done|].
    destruct dest_addr; [|done]. destruct connection_id; [|done].
    destruct (dest_port =? 0); [done|]. destruct (RTNET_FindRoute _ _); [|done].
    by destruct (first_index _ _).
  - unfold RTNET_TCP_Send. destruct data; [|done]. destruct (len =? 0); [done|].
    destruct (_ >=? _); [done|].
    destruct (tcp_connections ctx !! Z.to_nat connection_id) as [conn|]; [|done].
    by destruct (negb (conn_in_use conn)).
  - unfold RTNET_TCP_Close. destruct (_ >=? _); [done|].
    destruct (tcp_connections ctx !! Z.to_nat connection_id) as [conn|]; [|done].
    by destruct (negb (conn_in_use conn)).
  - unfold RTNET_AddRoute. destruct dst; [|done]. destruct (plen >? 128); [done|].
    by destruct (first_index _ _).
  - done.
  - unfold RTNET_mDNS_Announce. destruct name; [|done]. by destruct (_ || _).
  - done.
  - done.
Qed.

(** X21: four of the eight statistics counters are never written: in
    every state reachable through the public operations rx_errors,
    tx_errors, rx_dropped and checksum_errors are 0. *)
Theorem X21_error_counters_stay_zero (ctx : RTNET_Context_t) :
  reachable ctx ->
  rx_errors (stats ctx) = 0 /\ tx_errors (stats ctx) = 0
  /\ rx_dropped (stats ctx) = 0 /\ checksum_errors (stats ctx) = 0.
Proof.
  induction 1 as [ctx ip mac now_seq now_route|ctx op _ IH]; [done|].
  by apply step_quiet_counters.
Qed.

Lemma X21_error_counters_stay_zero_witness :
  let ctx :=
    run [OpProcessRx (Some echo_request_frame) 62; OpProcessRx (Some [1; 2; 3]) 3]
        fresh_ctx in
  reachable ctx
  /\ rx_packets (stats ctx) = 2
  /\ rx_errors (stats ctx) = 0 /\ tx_errors (stats ctx) = 0
  /\ rx_dropped (stats ctx) = 0 /\ checksum_errors (stats ctx) = 0.
Proof.
  assert (Hreach :
    reachable (run [OpProcessRx (Some echo_request_frame) 62; OpProcessRx (Some [1; 2; 3]) 3]
                   fresh_ctx)).
  { apply (reachable_step _ (OpProcessRx (Some [1; 2; 3]) 3)).
    apply (reachable_step _ (OpProcessRx (Some echo_request_frame) 62)).
    apply reachable_init. }
  split; [exact Hreach|]. split; [reflexivity|].
  exact (X21_error_counters_stay_zero _ Hreach).
Defined.

Lemma step_sizes_ok op ctx : sizes_ok ctx -> sizes_ok (step op ctx).
Proof.
  intros Hs.
  assert (Hsame : forall c,
    rx_buffers c = rx_buffers ctx -> length (tx_buffers c) = length (tx_buffers ctx) ->
    length (tcp_connections c) = length (tcp_connections ctx) ->
    length (routing_table c) = length (routing_table ctx) ->
    length (neighbor_cache c) = length (neighbor_cache ctx) ->
    mdns_cache c = mdns_cache ctx -> sizes_ok c).
  { intros c H1 H2 H3 H4 H5 H6. unfold sizes_ok in *. rewrite H1, H2, H3, H4, H5, H6.
    exact Hs. }
  destruct op; simpl.
  - destruct ip as [ip|], mac as [mac|]; try done; by repeat split.
  - apply Hsame; unfold RTNET_ProcessRxPacket; destruct data; try done;
      destruct (len =? 0); try done; by destruct (len <? 14 + 40).
  - unfold RTNET_UDP_Send. destruct (negb (initialized ctx)); [done|].
    destruct dest_addr; [|done]. destruct payload; [|done].
    destruct (_ || _); [done|]. destruct (payload_len >? RTNET_MTU_SIZE); [done|].
    unfold udp_send_tail, udp_assign_port.
    destruct (RTNET_FindRoute _ _); [|by destruct (src_port =? 0)].
    destruct (first_index _ _); [|by destruct (src_port =? 0)].
    apply Hsame; destruct (src_port =? 0); simpl; try done; by rewrite length_alter.
  - unfold RTNET_TCP_Connect. destruct (negb (initialized ctx)); [done|].
    destruct dest_addr; [|done]. destruct connection_id; [|done].
    destruct (dest_port =? 0); [done|]. destruct (RTNET_FindRoute _ _); [|done].
    destruct (first_index _ _); [|done].
    apply Hsame; simpl; try done. by rewrite length_insert.
  - unfold RTNET_TCP_Send. destruct data; [|done]. destruct (len =? 0); [done|].
    destruct (_ >=? _); [done|].
    destruct (tcp_connections ctx !! Z.to_nat connection_id) as [conn|]; [|done].
    destruct (negb (conn_in_use conn)); [done|].
    apply Hsame; simpl; try done. by rewrite length_insert.
  - unfold RTNET_TCP_Close. destruct (_ >=? _); [done|].
    destruct (tcp_connections ctx !! Z.to_nat connection_id) as [conn|]; [|done].
    destruct (negb (conn_in_use conn)); [done|].
    apply Hsame; simpl; try done. by rewrite length_insert.
  - unfold RTNET_AddRoute. destruct dst; [|done]. destruct (plen >? 128); [done|].
    destruct (first_index _ _); [|done].
    apply Hsame; simpl; try done. by rewrite length_alter.
  - done.
  - unfold RTNET_mDNS_Announce. destruct name; [|done]. by destruct (_ || _).
  - done.
  - apply Hsame; simpl; try done; by rewrite length_fmap.
Qed.

(** X25: the tables keep their declared sizes: in every state reachable
    through the public operations there are 8 RX and 8 TX buffers, 4
    connection slots, 32 route slots, 16 neighbor slots and 8 mDNS
    records; so every handle tcp_connect returns is below 4. *)
Theorem X25_tables_keep_their_sizes (ctx : RTNET_Context_t) :
  reachable ctx ->
  sizes_ok ctx
  /\ forall dest_addr dest_port cell now ctx' h,
       RTNET_TCP_Connect ctx dest_addr dest_port cell now = (RTNET_OK, ctx', Some h) ->
       0 <= h < 4.
Proof.
  intros Hreach.
  assert (Hs : sizes_ok ctx).
  { induction Hreach as [ctx ip mac now_seq now_route|ctx op _ IH].
    - by repeat split.
    - by apply step_sizes_ok. }
  split; [done|]. intros dest_addr dest_port cell now ctx' h Hconnect.
  destruct (TCP_Connect_ok _ _ _ _ _ _ _ Hconnect) as (dest & i & old & _ & [= ->] & Hold & _).
  apply lookup_lt_Some in Hold. destruct Hs as (_ & _ & H4 & _).
  rewrite H4 in Hold. unfold RTNET_MAX_TCP_CONNECTIONS in Hold. lia.
Qed.

Lemma X25_tables_keep_their_sizes_witness :
  reachable (step (OpAddRoute (Some peer_global) 128 None 1 30) fresh_ctx)
  /\ sizes_ok (step (OpAddRoute (Some peer_global) 128 None 1 30) fresh_ctx).
Proof.
  assert (Hreach :
    reachable (step (OpAddRoute (Some peer_global) 128 None 1 30) fresh_ctx)).
  { apply reachable_step. apply reachable_init. }
  split; [exact Hreach|].
  exact (proj1 (X25_tables_keep_their_sizes _ Hreach)).
Defined.

(** ** Periodic task *)

Lemma age_neighbor_idem now e : age_neighbor now (age_neighbor now e) = age_neighbor now e.
Proof.
  unfold age_neighbor. destruct (nb_valid e) eqn:Hv; simpl; [|by rewrite Hv].
  destruct (u32 (now - last_confirmed_ms e) >? 30000) eqn:E; simpl; [done|].
  by rewrite Hv, E.
Qed.

Lemma age_route_idem now e : age_route now (age_route now e) = age_route now e.
Proof.
  unfold age_route. destruct (rt_valid e) eqn:Hv; simpl; [|by rewrite Hv].
  destruct (u32 (now - last_used_ms e) >? 300000) eqn:E; simpl; [done|].
  by rewrite Hv, E.
Qed.

Lemma age_conn_idem now c : age_conn now (age_conn now c) = age_conn now c.
Proof.
  unfold age_conn. destruct (conn_in_use c) eqn:Hv; simpl; [|by rewrite Hv].
  destruct (u32 (now - last_activity_ms c) >? RTNET_TCP_TIMEOUT_MS) eqn:E; simpl; [done|].
  by rewrite Hv, E.
Qed.

Lemma age_neighbor_valid now e :
  nb_valid (age_neighbor now e) = true -> age_neighbor now e = e.
Proof. unfold age_neighbor. by destruct (nb_valid e && _). Qed.

Lemma age_route_valid now e :
  rt_valid (age_route now e) = true -> age_route now e = e.
Proof. unfold age_route. by destruct (rt_valid e && _). Qed.

Lemma age_conn_in_use now c :
  conn_in_use (age_conn now c) = true -> age_conn now c = c.
Proof. unfold age_conn. by destruct (conn_in_use c && _). Qed.

Lemma PeriodicTask_neighbor_cache ctx now :
  neighbor_cache (RTNET_PeriodicTask ctx now) = age_neighbor now <$> neighbor_cache ctx.
Proof. reflexivity. Qed.

Lemma PeriodicTask_routing_table ctx now :
  routing_table (RTNET_PeriodicTask ctx now) = age_route now <$> routing_table ctx.
Proof. reflexivity. Qed.

Lemma PeriodicTask_tcp_connections ctx now :
  tcp_connections (RTNET_PeriodicTask ctx now) = age_conn now <$> tcp_connections ctx.
Proof. reflexivity. Qed.

Lemma ctx_ext (c1 c2 : RTNET_Context_t) :
  rx_buffers c1 = rx_buffers c2 -> tx_buffers c1 = tx_buffers c2 ->
  tcp_connections c1 = tcp_connections c2 -> routing_table c1 = routing_table c2 ->
  neighbor_cache c1 = neighbor_cache c2 -> mdns_cache c1 = mdns_cache c2 ->
  local_ipv6 c1 = local_ipv6 c2 -> local_mac c1 = local_mac c2 ->
  stats c1 = stats c2 -> next_ephemeral_port c1 = next_ephemeral_port c2 ->
  sequence_number c1 = sequence_number c2 -> initialized c1 = initialized c2 ->
  c1 = c2.
Proof.
  destruct c1 as [rx1 tx1 tc1 rt1 nc1 md1 li1 lm1 st1 ne1 sq1 in1].
  destruct c2 as [rx2 tx2 tc2 rt2 nc2 md2 li2 lm2 st2 ne2 sq2 in2].
  simpl. by intros -> -> -> -> -> -> -> -> -> -> -> ->.
Qed.

Lemma PeriodicTask_idem ctx now :
  RTNET_PeriodicTask (RTNET_PeriodicTask ctx now) now = RTNET_PeriodicTask ctx now.
Proof.
  apply ctx_ext; [reflexivity|reflexivity| | | |reflexivity..].
  - rewrite !PeriodicTask_tcp_connections, <- list_fmap_compose.
    apply list_fmap_ext. intros i c _. apply age_conn_idem.
  - rewrite !PeriodicTask_routing_table, <- list_fmap_compose.
    apply list_fmap_ext. intros i e _. apply age_route_idem.
  - rewrite !PeriodicTask_neighbor_cache, <- list_fmap_compose.
    apply list_fmap_ext. intros i e _. apply age_neighbor_idem.
Qed.

(** X26: the periodic task only ages the neighbor cache, the routing
    table and the connection table: buffers, statistics, the port
    counter, the sequence seed, the local addresses and the initialized
    flag are untouched; it never turns an invalid entry or a free slot
    into a valid one; and running it a second time with the same clock
    reading changes nothing more. *)
Theorem X26_periodic_task_only_ages (ctx : RTNET_Context_t) (now : Z) :
  RTNET_PeriodicTask (RTNET_PeriodicTask ctx now) now = RTNET_PeriodicTask ctx now
  /\ rx_buffers (RTNET_PeriodicTask ctx now) = rx_buffers ctx
  /\ tx_buffers (RTNET_PeriodicTask ctx now) = tx_buffers ctx
  /\ mdns_cache (RTNET_PeriodicTask ctx now) = mdns_cache ctx
  /\ stats (RTNET_PeriodicTask ctx now) = stats ctx
  /\ next_ephemeral_port (RTNET_PeriodicTask ctx now) = next_ephemeral_port ctx
  /\ sequence_number (RTNET_PeriodicTask ctx now) = sequence_number ctx
  /\ local_ipv6 (RTNET_PeriodicTask ctx now) = local_ipv6 ctx
  /\ local_mac (RTNET_PeriodicTask ctx now) = local_mac ctx
  /\ initialized (RTNET_PeriodicTask ctx now) = initialized ctx
  /\ (forall i e e',
        neighbor_cache ctx !! i = Some e ->
        neighbor_cache (RTNET_PeriodicTask ctx now) !! i = Some e' ->
        nb_valid e' = true -> e' = e)
  /\ (forall i e e',
        routing_table ctx !! i = Some e ->
        routing_table (RTNET_PeriodicTask ctx now) !! i = Some e' ->
        rt_valid e' = true -> e' = e)
  /\ (forall i c c',
        tcp_connections ctx !! i = Some c ->
        tcp_connections (RTNET_PeriodicTask ctx now) !! i = Some c' ->
        conn_in_use c' = true -> c' = c).
Proof.
  split; [apply PeriodicTask_idem|].
  split_and!; [reflexivity..| | |].
  - intros i e e' He He' Hv. rewrite PeriodicTask_neighbor_cache, list_lookup_fmap, He in He'.
    injection He' as <-. by apply age_neighbor_valid.
  - intros i e e' He He' Hv. rewrite PeriodicTask_routing_table, list_lookup_fmap, He in He'.
    injection He' as <-. by apply age_route_valid.
  - intros i c c' Hc Hc' Hv. rewrite PeriodicTask_tcp_connections, list_lookup_fmap, Hc in Hc'.
    injection Hc' as <-. by apply age_conn_in_use.
Qed.

Lemma X26_periodic_task_only_ages_witness :
  routing_table fresh_ctx !! 0%nat
    = Some (mkRoute link_local_prefix zero_addr zero_addr 10 1 20 true)
  /\ routing_table (RTNET_PeriodicTask fresh_ctx 100) !! 0%nat
     = Some (mkRoute link_local_prefix zero_addr zero_addr 10 1 20 true)
  /\ mkRoute link_local_prefix zero_addr zero_addr 10 1 20 true
     = mkRoute link_local_prefix zero_addr zero_addr 10 1 20 true.
Proof.
  destruct (X26_periodic_task_only_ages fresh_ctx 100)
    as (_ & _ & _ & _ & _ & _ & _ & _ & _ & _ & _ & Hroute & _).
  split; [reflexivity|]. split; [reflexivity|].
  apply (Hroute 0%nat); reflexivity.
Defined.
